(** * PlanetaryComputer example notebooks: a shallow embedding

    The repository is a collection of Jupyter notebooks that query a STAC
    catalogue, fetch assets and render them.  This development embeds the
    code cells the specification speaks about:

    - NAIP notebook, cell 5: ranking search results by their overlap with
      the area of interest ([area_of_overlap], [sorted(..., reverse=True)]);
    - NAIP notebook, cell 6: [create_image] (windowed raster read, resize);
    - FIA notebook: the per-county biomass summary (pandas / dask);
    - Radiant MLHub notebook: [MLHubSession];
    - footprint browser notebook: the [browse] callback;

    and, around them, the cells that use them or stand next to them:

    - FIA notebook: the join of the summary with the census counties;
    - Radiant MLHub notebook: the listings of datasets and collections,
      the two look-ups with [next], the download of an archive into a
      temporary directory and its removal;
    - footprint browser notebook: a sequence of selections in the widget;
    - climate normals notebook: the tables of assets and metadata and the
      parquet read that follows them;
    - tile notebook: the registration of a mosaic and the map that shows
      its tiles.

    Library calls (shapely, rasterio, PIL, requests, ...) are the notebooks'
    environment: they appear as parameters of the sections below, and every
    statement is proved for all of them.

    Part I holds the definitions, Part II the lemmas and theorems. *)

From Stdlib Require Import ZArith QArith Lia List String Ascii Bool DecimalString.
From Stdlib Require Import Sorting.Sorted Sorting.Permutation.
From Stdlib Require Import Floats.SpecFloat.
From Stdlib Require DecimalFacts DecimalPos DecimalZ OrdersEx.
From stdpp Require Import base gmap list strings.

Set Default Proof Using "Type".
Open Scope Z_scope.

(* ===================================================================== *)
(** * Part I: definitions *)
(* ===================================================================== *)

(** ** Python builtins used by the notebooks *)

Module Py.

(** Exceptions the embedded cells can raise. *)
Inductive exn : Type :=
| ZeroDivisionError
| OverflowError
| ValueError
| IndexError
| KeyError
| External (name : string).

(** [list.sort] / [sorted]: keys are compared with [<] only and the sort
    is stable.  With [reverse=True] the list is reversed, sorted, and the
    result reversed again, which keeps items with equal keys in their
    original order. *)
Section Sorted.
Context {A K : Type}.
Variable lt : K -> K -> bool.
Variable key : A -> K.

Fixpoint insert (x : A) (l : list A) : list A :=
  match l with
  | [] => [x]
  | y :: l' => if lt (key x) (key y) then x :: y :: l' else y :: insert x l'
  end.

Definition list_sort (l : list A) : list A :=
  fold_left (fun acc x => insert x acc) l [].

Definition sorted (reverse : bool) (l : list A) : list A :=
  if reverse then rev (list_sort (rev l)) else list_sort l.

(** [x] may stand before [y] in ascending order. *)
Definition le_key (x y : A) : Prop := lt (key y) (key x) = false.

(** [x] may stand before [y] in descending order. *)
Definition ge_key (x y : A) : Prop := lt (key x) (key y) = false.

(** The key [k] and the key of [x] are tied: neither is below the other. *)
Definition tied (k : K) (x : A) : bool :=
  negb (lt k (key x)) && negb (lt (key x) k).

(** [l[0]]: the first element, [IndexError] on the empty list. *)
Definition item0 (l : list A) : exn + A :=
  match l with
  | [] => inl IndexError
  | x :: _ => inr x
  end.
End Sorted.

End Py.

(** ** NAIP notebook, cell 5: choosing the scene with the most overlap *)

Module Naip.

(** The cell:
<<
area_shape = shape(area_of_interest)
target_area = area_shape.area

def area_of_overlap(item):
    overlap_area = shape(item.geometry).intersection(shape(area_of_interest)).area
    return overlap_area / target_area

item_old = sorted(search_old.items(), key=area_of_overlap, reverse=True)[0]
>>
    Areas are Python floats.  The section is parametric in the float type:
    [flt] is [<], [fdiv] is [/] on a non-zero divisor and [fzero] tests for
    zero (Python raises [ZeroDivisionError] on a zero divisor).  The ranking
    only depends on [<] being a strict weak order, which holds for floats
    that are not NaN. *)
Section Overlap.
Context {Item Geometry Float : Type}.
Variable geometry : Item -> Geometry.
Variable intersection_area : Geometry -> Geometry -> Float.
Variable area : Geometry -> Float.
Variable fdiv : Float -> Float -> Float.
Variable fzero : Float -> bool.
Variable flt : Float -> Float -> bool.
Variable area_of_interest : Geometry.

Definition target_area : Float := area area_of_interest.

Definition area_of_overlap (item : Item) : Py.exn + Float :=
  let overlap_area := intersection_area (geometry item) area_of_interest in
  if fzero target_area then inl Py.ZeroDivisionError
  else inr (fdiv overlap_area target_area).

(** [sorted] calls the key function once per item, in list order, before
    it compares anything; the first exception aborts the call. *)
Fixpoint decorate (items : list Item) : Py.exn + list (Float * Item) :=
  match items with
  | [] => inr []
  | it :: rest =>
      match area_of_overlap it with
      | inl e => inl e
      | inr k =>
          match decorate rest with
          | inl e => inl e
          | inr ds => inr ((k, it) :: ds)
          end
      end
  end.

Definition rank (items : list Item) : Py.exn + list (Float * Item) :=
  match decorate items with
  | inl e => inl e
  | inr ds => inr (Py.sorted flt fst true ds)
  end.

(** [sorted(items, key=area_of_overlap, reverse=True)] *)
Definition sorted_by_overlap (items : list Item) : Py.exn + list Item :=
  match rank items with
  | inl e => inl e
  | inr ds => inr (map snd ds)
  end.

(** [sorted(items, key=area_of_overlap, reverse=True)[0]] *)
Definition most_overlap (items : list Item) : Py.exn + Item :=
  match sorted_by_overlap items with
  | inl e => inl e
  | inr l => Py.item0 l
  end.

(** The key of an item when the divisor is not zero. *)
Definition ratio (item : Item) : Float :=
  fdiv (intersection_area (geometry item) area_of_interest) target_area.
End Overlap.

End Naip.

(** ** FIA notebook: the per-county summary *)

Module Fia.

(** Rows of the two parquet tables, restricted to the columns the notebook
    reads.  Measurements are modelled as exact rationals (the notebook
    computes with float64, and dask adds the partial sums in no fixed
    order); null measurements are not modelled. *)
Record TreeRow := {
  t_PLT_CN : Z;
  t_CONDID : Z;
  t_TREE : Z;
  t_DRYBIO_AG : Q;
  t_CARBON_AG : Q;
  t_TPA_UNADJ : Q
}.

Record PlotRow := {
  p_CN : Z;
  p_STATECD : Z;
  p_COUNTYCD : Z
}.

(** [plot.assign(PLT_CN=plot.CN)] *)
Record PlotKeyed := {
  pk_row : PlotRow;
  pk_PLT_CN : Z
}.

(** A row of [tree.merge(..., on="PLT_CN")]: the columns of both sides. *)
Record Merged := {
  m_tree : TreeRow;
  m_plot : PlotKeyed
}.

(** A row of [df]: the merged row with [bio] and [carbon]. *)
Record DfRow := {
  d_row : Merged;
  d_bio : Q;
  d_carbon : Q
}.

(** A row after [groupby(...).sum().compute().reset_index()]. *)
Record Grouped := {
  g_STATECD : Z;
  g_COUNTYCD : Z;
  g_bio : Q;
  g_carbon : Q
}.

(** A row after the second [assign]. *)
Record Labelled := {
  l_row : Grouped;
  l_STATE : string;
  l_COUNTY : string
}.

(** A row of [result]: the columns [bio], [carbon], [STATE], [COUNTY]. *)
Record ResultRow := {
  bio : Q;
  carbon : Q;
  STATE : string;
  COUNTY : string
}.

(** [dd.read_parquet(..., filters=[("CONDID", "==", 1)])] on the tree table *)
Definition read_tree (stored : list TreeRow) : list TreeRow :=
  List.filter (fun t => t_CONDID t =? 1) stored.

Definition assign_PLT_CN (plot : list PlotRow) : list PlotKeyed :=
  map (fun p => {| pk_row := p; pk_PLT_CN := p_CN p |}) plot.

(** Inner join on [PLT_CN]: every pair of a left and a right row with the
    same key. *)
Definition merge (tree : list TreeRow) (plot : list PlotKeyed) : list Merged :=
  flat_map (fun t =>
    map (fun p => {| m_tree := t; m_plot := p |})
        (List.filter (fun p => t_PLT_CN t =? pk_PLT_CN p) plot)) tree.

Definition STATECD (r : DfRow) : Z := p_STATECD (pk_row (m_plot (d_row r))).
Definition COUNTYCD (r : DfRow) : Z := p_COUNTYCD (pk_row (m_plot (d_row r))).

(** [.assign(bio=lambda df: df.DRYBIO_AG * df.TPA_UNADJ / 2000,
             carbon=lambda df: df.CARBON_AG * df.TPA_UNADJ / 2000)] *)
Definition assign_bio_carbon (rows : list Merged) : list DfRow :=
  map (fun m =>
         {| d_row := m;
            d_bio := (t_DRYBIO_AG (m_tree m) * t_TPA_UNADJ (m_tree m) / 2000)%Q;
            d_carbon := (t_CARBON_AG (m_tree m) * t_TPA_UNADJ (m_tree m) / 2000)%Q |})
      rows.

(** [df = tree.merge(plot.assign(PLT_CN=plot.CN).compute(), on="PLT_CN").assign(...)] *)
Definition df (stored_tree : list TreeRow) (stored_plot : list PlotRow) : list DfRow :=
  assign_bio_carbon (merge (read_tree stored_tree) (assign_PLT_CN stored_plot)).

(** [groupby(["STATECD", "COUNTYCD"])[["bio", "carbon"]].sum()]: one
    accumulator per key, each row added to the accumulator of its key. *)
Definition add_row (acc : gmap (Z * Z) (Q * Q)) (r : DfRow) : gmap (Z * Z) (Q * Q) :=
  let k := (STATECD r, COUNTYCD r) in
  let s := default (0%Q, 0%Q) (acc !! k) in
  <[k := ((s.1 + d_bio r)%Q, (s.2 + d_carbon r)%Q)]> acc.

Definition groupby_sum (rows : list DfRow) : gmap (Z * Z) (Q * Q) :=
  fold_left add_row rows ∅.

(** [.compute().reset_index()]: the keys become columns again.  The order
    of the rows is not modelled. *)
Definition reset_index (groups : gmap (Z * Z) (Q * Q)) : list Grouped :=
  map (fun kv : (Z * Z) * (Q * Q) =>
         {| g_STATECD := kv.1.1; g_COUNTYCD := kv.1.2;
            g_bio := kv.2.1; g_carbon := kv.2.2 |})
      (map_to_list groups).

(** [astype("string")] on an integer column: [str(int)]. *)
Definition astype_string (z : Z) : string :=
  DecimalString.NilZero.string_of_int (Z.to_int z).

(** [str.pad(width, fillchar=c)]: the default side is the left. *)
Fixpoint repeat_char (c : ascii) (n : nat) : string :=
  match n with
  | O => EmptyString
  | S n' => String c (repeat_char c n')
  end.

Definition str_pad (width : nat) (fillchar : ascii) (s : string) : string :=
  (repeat_char fillchar (width - String.length s) +:+ s)%string.

Definition assign_STATE_COUNTY (rows : list Grouped) : list Labelled :=
  map (fun g =>
         {| l_row := g;
            l_STATE := str_pad 2 "0" (astype_string (g_STATECD g));
            l_COUNTY := str_pad 3 "0" (astype_string (g_COUNTYCD g)) |})
      rows.

(** [.drop(columns=["STATECD", "COUNTYCD"])] *)
Definition drop_codes (rows : list Labelled) : list ResultRow :=
  map (fun l =>
         {| bio := g_bio (l_row l); carbon := g_carbon (l_row l);
            STATE := l_STATE l; COUNTY := l_COUNTY l |})
      rows.

Definition result (stored_tree : list TreeRow) (stored_plot : list PlotRow)
  : list ResultRow :=
  drop_codes
    (assign_STATE_COUNTY
       (reset_index (groupby_sum (df stored_tree stored_plot)))).

(** What the summary is meant to hold for the county [(s, c)]: the sum of
    [measure * TPA_UNADJ / 2000] over the tree rows with [CONDID == 1],
    each taken once per plot row of that county it joins with. *)
Definition Qsum (l : list Q) : Q := fold_right Qplus 0%Q l.


(** The sum of a column over the rows of one group. *)
Definition group_total (col : DfRow -> Q) (rows : list DfRow) (k : Z * Z) : Q :=
  Qsum (map (fun r => if decide ((STATECD r, COUNTYCD r) = k) then col r else 0%Q)
            rows).

(** The (state, county) pair occurs among the joined rows. *)
Definition county_present
    (stored_tree : list TreeRow) (stored_plot : list PlotRow) (s c : Z) : Prop :=
  exists t p, In t stored_tree /\ In p stored_plot /\
    t_CONDID t = 1 /\ t_PLT_CN t = p_CN p /\ p_STATECD p = s /\ p_COUNTYCD p = c.

(** A small instance. *)
Definition ex_tree : list TreeRow :=
  [ {| t_PLT_CN := 7; t_CONDID := 1; t_TREE := 1;
       t_DRYBIO_AG := 4000; t_CARBON_AG := 2000; t_TPA_UNADJ := 6 |};
    {| t_PLT_CN := 7; t_CONDID := 2; t_TREE := 2;
       t_DRYBIO_AG := 100; t_CARBON_AG := 50; t_TPA_UNADJ := 6 |};
    {| t_PLT_CN := 8; t_CONDID := 1; t_TREE := 1;
       t_DRYBIO_AG := 1000; t_CARBON_AG := 500; t_TPA_UNADJ := 2 |};
    {| t_PLT_CN := 9; t_CONDID := 1; t_TREE := 1;
       t_DRYBIO_AG := 3000; t_CARBON_AG := 1500; t_TPA_UNADJ := 4 |} ].

Definition ex_plot : list PlotRow :=
  [ {| p_CN := 7; p_STATECD := 1; p_COUNTYCD := 3 |};
    {| p_CN := 8; p_STATECD := 1; p_COUNTYCD := 3 |};
    {| p_CN := 9; p_STATECD := 48; p_COUNTYCD := 201 |} ].

End Fia.

(** ** State and exceptions

    A cell runs against the state [S] of the notebook; it either returns a
    value or raises, and in both cases leaves a state behind. *)

Module Cell.

Definition M (S A : Type) : Type := S -> (Py.exn + A) * S.

Definition ret {S A} (a : A) : M S A := fun s => (inr a, s).

Definition bind {S A B} (c : M S A) (k : A -> M S B) : M S B :=
  fun s =>
    match c s with
    | (inl e, s') => (inl e, s')
    | (inr a, s') => k a s'
    end.

Definition raise {S A} (e : Py.exn) : M S A := fun s => (inl e, s).

Definition get {S} : M S S := fun s => (inr s, s).

Definition modify {S} (f : S -> S) : M S unit := fun s => (inr tt, f s).

(** A value computed outside the notebook, which may have raised. *)
Definition lift {S A} (r : Py.exn + A) : M S A := fun s => (r, s).

End Cell.

#[global] Instance cell_ret {S} : MRet (Cell.M S) := @Cell.ret S.
#[global] Instance cell_bind {S} : MBind (Cell.M S) :=
  fun A B k c => Cell.bind c k.

(** ** Radiant MLHub notebook: the session *)

Module MLHub.

(** [str.rstrip(chars)]: drop the longest suffix made of characters of
    [chars]. *)
Fixpoint mem_char (c : ascii) (chars : string) : bool :=
  match chars with
  | EmptyString => false
  | String d chars' => Ascii.eqb c d || mem_char c chars'
  end.

Fixpoint rstrip (chars : string) (s : string) : string :=
  match s with
  | EmptyString => EmptyString
  | String c s' =>
      match rstrip chars s' with
      | EmptyString => if mem_char c chars then EmptyString else String c EmptyString
      | r => String c r
      end
  end.

(** [s.endswith(suffix)] *)
Fixpoint endswith (s suffix : string) : bool :=
  String.eqb s suffix ||
  match s with
  | EmptyString => false
  | String _ s' => endswith s' suffix
  end.

Definition MLHUB_ROOT_URL : string := "https://api.radiant.earth/mlhub/v1".

(** A [dict] of query parameters; a value may be [None]. *)
Abbreviation params_dict := (gmap string (option string)).

(** The part of [requests.Session] the notebook touches: the [params]
    attribute. *)
Record Session := { params : params_dict }.

(** Keyword arguments of [Session.request] that matter here. *)
Record Kwargs := {
  kw_params : option params_dict;
  kw_allow_redirects : bool
}.

(** What [requests] puts on the wire. *)
Record HttpRequest := {
  http_method : string;
  http_url : string;
  http_query : gmap string string;
  http_allow_redirects : bool
}.

(** [requests.sessions.merge_setting] on [params]: the request's entries
    win over the session's, then entries whose value is [None] are
    removed. *)
Definition merge_setting (request_setting : option params_dict)
    (session_setting : params_dict) : gmap string string :=
  match request_setting with
  | None => omap id session_setting
  | Some r => omap id (r ∪ session_setting)
  end.

(** [requests.Session.request]: the request that is prepared and sent. *)
Definition Session_request (self : Session) (method url : string) (kw : Kwargs)
  : HttpRequest :=
  {| http_method := method;
     http_url := url;
     http_query := merge_setting (kw_params kw) (params self);
     http_allow_redirects := kw_allow_redirects kw |}.

(** [requests.Session.__init__] *)
Definition Session_init : Session := {| params := ∅ |}.

Section Session.
(** [urllib.parse.urljoin] *)
Variable urljoin : string -> string -> string.

(**
<<
class MLHubSession(requests.Session):
    def __init__(self, *args, api_key=None, **kwargs):
        super().__init__( *args, **kwargs)
        self.params.update({"key": api_key})

    def request(self, method, url, *args, **kwargs):
        url_prefix = MLHUB_ROOT_URL.rstrip("/") + "/"
        url = urljoin(url_prefix, url)
        return super().request(method, url, *args, **kwargs)
>>
*)
Definition MLHubSession_init (api_key : option string) : Session :=
  let self := Session_init in
  {| params := {["key"%string := api_key]} ∪ params self |}.

Definition url_prefix : string := (rstrip "/" MLHUB_ROOT_URL +:+ "/")%string.

Definition MLHubSession_request (self : Session) (method url : string)
    (kw : Kwargs) : HttpRequest :=
  let url := urljoin url_prefix url in
  Session_request self method url kw.

(** [session.get(url, **kwargs)] is [session.request("GET", url, **kwargs)];
    [allow_redirects] defaults to [True]. *)
Definition no_kwargs : Kwargs :=
  {| kw_params := None; kw_allow_redirects := true |}.

Definition MLHubSession_get (self : Session) (url : string) (kw : Kwargs)
  : HttpRequest :=
  MLHubSession_request self "GET" url kw.

(** [session.get("/archive/<collection_id>", allow_redirects=True)] *)
Definition get_archive (self : Session) (collection_id : string) : HttpRequest :=
  MLHubSession_get self ("/archive/" +:+ collection_id)%string
    {| kw_params := None; kw_allow_redirects := true |}.
End Session.

(** The request does not set or unset the [key] parameter itself. *)
Definition keeps_key (kw : Kwargs) : Prop :=
  match kw_params kw with
  | None => True
  | Some r => r !! "key"%string = None
  end.

End MLHub.

(** ** Footprint browser notebook: the [browse] callback *)

Module Browser.

Section Browse.
(** Coordinates (Python floats), GeoJSON values and STAC items. *)
Context {Coord GeoJSON Item : Type}.

(** The widgets live in the kernel as objects; the map refers to its
    layers by identity. *)
Definition LayerId := nat.

(** A layer widget: its kind and, for a GeoJSON layer, its [data]. *)
Inductive LayerKind := TileLayer | GeoJSONLayer.

Record Layer := {
  kind : LayerKind;
  data : option GeoJSON
}.

(** The display state of an [ipyleaflet.Map]. *)
Record Map := {
  center : list Coord;
  zoom : Z;
  layers : list LayerId;
  layout_width : option string
}.

(** The state of the notebook: the map [m], the layer objects, and what
    has been printed. *)
Record Notebook := {
  m : Map;
  objects : gmap LayerId Layer;
  stdout : list string
}.

(** [shapely.geometry.shape(item).centroid.coords]: a sequence of
    coordinate tuples, or an exception. *)
Variable centroid_coords : Item -> Py.exn + list (list Coord).
Variable geometry : Item -> GeoJSON.
Variable id : Item -> string.
(** [item.datetime.isoformat()] *)
Variable datetime_isoformat : Item -> Py.exn + string.

(** The global [layer] of the notebook. *)
Variable layer : LayerId.

Definition set_center (c : list Coord) : Cell.M Notebook unit :=
  Cell.modify (fun nb =>
    {| m := {| center := c; zoom := zoom (m nb); layers := layers (m nb);
               layout_width := layout_width (m nb) |};
       objects := objects nb; stdout := stdout nb |}).

Definition set_layer_data (l : LayerId) (d : GeoJSON) : Cell.M Notebook unit :=
  Cell.modify (fun nb =>
    {| m := m nb;
       objects := alter (fun o => {| kind := kind o; data := Some d |}) l (objects nb);
       stdout := stdout nb |}).

Definition print (line : string) : Cell.M Notebook unit :=
  Cell.modify (fun nb =>
    {| m := m nb; objects := objects nb; stdout := stdout nb ++ [line] |}).

(**
<<
@ipywidgets.interact(item=items)
def browse(item):
    shape = shapely.geometry.shape(item)
    m.center = tuple(shape.centroid.coords[0])[::-1]

    layer.data = item.geometry
    print(item.id, item.datetime.isoformat())
>>
*)
Definition browse (item : Item) : Cell.M Notebook unit :=
  coords ← Cell.lift (centroid_coords item);
  c0 ← Cell.lift (Py.item0 coords);
  set_center (rev c0);;
  set_layer_data layer (geometry item);;
  iso ← Cell.lift (datetime_isoformat item);
  print (id item +:+ " " +:+ iso)%string.

(**
<<
m = ipyleaflet.Map(zoom=3)
m.layout.width = "600px"
layer = ipyleaflet.GeoJSON()
m.add(layer)
>>
    A new map shows the default base layer and is centred on [(0.0, 0.0)]. *)
Variable zero : Coord.
Variable base_layer : LayerId.

Definition setup : Notebook :=
  {| m := {| center := [zero; zero]; zoom := 3;
             layers := [base_layer; layer];
             layout_width := Some "600px"%string |};
     objects := <[layer := {| kind := GeoJSONLayer; data := None |}]>
                  {[base_layer := {| kind := TileLayer; data := None |}]};
     stdout := [] |}.
End Browse.

End Browser.

(** ** Python floats

    A Python [float] is an IEEE 754 binary64 number; the operations are
    those of the standard library's [SpecFloat] at precision 53. *)

Module PyFloat.

Definition prec : Z := 53.
Definition emax : Z := 1024.
Definition float : Type := spec_float.

Definition is_zero (x : float) : bool :=
  match x with
  | S754_zero _ => true
  | _ => false
  end.

Definition finite_or_overflow (x : float) : Py.exn + float :=
  match x with
  | S754_infinity _ => inl Py.OverflowError
  | _ => inr x
  end.

(** [a / b] on two [int]s: the quotient of the integers, rounded once.
    A zero divisor raises [ZeroDivisionError], a quotient beyond the
    range of floats [OverflowError]. *)
Definition int_truediv (a b : Z) : Py.exn + float :=
  match a, b with
  | _, Z0 => inl Py.ZeroDivisionError
  | Z0, Zpos _ => inr (S754_zero false)
  | Z0, Zneg _ => inr (S754_zero true)
  | Zpos ma, Zpos mb =>
      finite_or_overflow
        (SFdiv prec emax (S754_finite false ma 0) (S754_finite false mb 0))
  | Zpos ma, Zneg mb =>
      finite_or_overflow
        (SFdiv prec emax (S754_finite false ma 0) (S754_finite true mb 0))
  | Zneg ma, Zpos mb =>
      finite_or_overflow
        (SFdiv prec emax (S754_finite true ma 0) (S754_finite false mb 0))
  | Zneg ma, Zneg mb =>
      finite_or_overflow
        (SFdiv prec emax (S754_finite true ma 0) (S754_finite true mb 0))
  end.

(** [float(z)] for an [int] that fits (here: 800). *)
Definition of_int (z : Z) : float := binary_normalize prec emax z 0 false.

(** [x / y] on floats: a zero divisor raises [ZeroDivisionError]. *)
Definition truediv (x y : float) : Py.exn + float :=
  if is_zero y then inl Py.ZeroDivisionError else inr (SFdiv prec emax x y).

(** [int(x)]: truncation towards zero; [OverflowError] on an infinity,
    [ValueError] on a NaN. *)
Definition to_int (x : float) : Py.exn + Z :=
  match x with
  | S754_zero _ => inr 0
  | S754_finite s m e =>
      let a := match e with
               | Zneg _ => Z.shiftr (Zpos m) (- e)
               | _ => Z.shiftl (Zpos m) e
               end in
      inr (if s then - a else a)
  | S754_infinity _ => inl Py.OverflowError
  | S754_nan => inl Py.ValueError
  end.

(** [l] locates the rational [n / d] in the interval from [m] to [m + 1]. *)
Definition located (n d m : Z) (l : location) : Prop :=
  m * d <= n < (m + 1) * d /\
  match l with
  | loc_Exact => n = m * d
  | loc_Inexact c => n <> m * d /\ c = (2 * (n - m * d) ?= d)
  end.

End PyFloat.

(** ** NAIP notebook, cell 6: [create_image] *)

Module NaipImage.

(** [aspect = w/h; target_w = 800; target_h = (int)(target_w/aspect)] *)
Definition target_w : Z := 800.

Definition target_height (w h : Z) : Py.exn + Z :=
  match PyFloat.int_truediv w h with
  | inl e => inl e
  | inr aspect =>
      match PyFloat.truediv (PyFloat.of_int target_w) aspect with
      | inl e => inl e
      | inr q => PyFloat.to_int q
      end
  end.

(** The computed height [th] differs from the exact height [800 * h / w]
    by less than one pixel, and by at most one pixel. *)
Definition less_than_one_pixel (w h th : Z) : Prop :=
  Z.abs (th * w - target_w * h) < w.

Definition at_most_one_pixel (w h th : Z) : Prop :=
  Z.abs (th * w - target_w * h) <= w.

Section Fetch.
(** Coordinates, pixel values, affine transforms, read windows and GeoJSON
    values are those of the libraries. *)
Context {Coord Pixel Affine Window GeoJSON : Type}.

Definition Bounds : Type := Coord * Coord * Coord * Coord.

(** An open [rasterio] dataset. *)
Record Dataset := {
  ds_name : string;
  ds_crs : string;
  ds_transform : Affine
}.

(** A three-dimensional [numpy] array, in row-major order. *)
Record ndarray := {
  shape : nat * nat * nat;
  buffer : list Pixel
}.

(** A [PIL] image: [size] is (width, height). *)
Record Image := {
  size : Z * Z;
  pixels : ndarray
}.

Record Asset := { href : string }.

Record Item := {
  datetime : string;
  assets : gmap string Asset
}.

(** The calls [create_image] makes, in the order it makes them. *)
Inductive event :=
| EvPrint (line : string)
| EvSign (url : string)
| EvOpen (url : string)
| EvBounds (g : GeoJSON)
| EvTransformBounds (src_crs dst_crs : string) (b : Bounds)
| EvFromBounds (b : Bounds) (transform : Affine)
| EvRead (ds : Dataset) (indexes : list Z) (window : Window)
| EvClose (ds : Dataset)
| EvFromArray (a : ndarray)
| EvResize (img : Image) (new_size : Z * Z).

(** The libraries: each call returns a value or raises. *)
Record Env := {
  pc_sign : string -> Py.exn + string;
  rasterio_open : string -> Py.exn + Dataset;
  features_bounds : GeoJSON -> Py.exn + Bounds;
  warp_transform_bounds : string -> string -> Bounds -> Py.exn + Bounds;
  windows_from_bounds : Bounds -> Affine -> Py.exn + Window;
  ds_read : Dataset -> list Z -> Window -> Py.exn + ndarray;
  (** [Image.fromarray] may reject an array. *)
  fromarray_rejects : ndarray -> option Py.exn;
  (** the resampled pixels of [Image.resize(size, Image.BILINEAR)] *)
  resize_pixels : Image -> Z * Z -> Py.exn + ndarray
}.

Variable env : Env.
Variable area_of_interest : GeoJSON.

Definition call {A} (ev : event) (r : Py.exn + A) : Cell.M (list event) A :=
  fun log => (r, log ++ [ev]).

(** [with rasterio.open(href) as ds: body]: the dataset is closed when the
    body is left, also by an exception. *)
Definition with_dataset {A} (ds : Dataset) (body : Cell.M (list event) A)
  : Cell.M (list event) A :=
  fun log => let '(r, log') := body log in (r, log' ++ [EvClose ds]).

(** [np.transpose(a, axes=[1, 2, 0])]: the element [(i, j, k)] of the
    result is the element [(k, i, j)] of [a]. *)
Definition transpose_120 (a : ndarray) : ndarray :=
  let '(n0, n1, n2) := shape a in
  {| shape := (n1, n2, n0);
     buffer :=
       flat_map (fun i =>
         flat_map (fun j =>
           omap (fun k => buffer a !! ((k * n1 + i) * n2 + j)%nat) (seq 0 n0))
           (seq 0 n2))
         (seq 0 n1) |}.

(** [Image.fromarray(a)] for [a] of shape (height, width, bands). *)
Definition Image_fromarray (a : ndarray) : Py.exn + Image :=
  match fromarray_rejects env a with
  | Some e => inl e
  | None =>
      let '(n0, n1, _) := shape a in
      inr {| size := (Z.of_nat n1, Z.of_nat n0); pixels := a |}
  end.

Definition Image_resize (img : Image) (new_size : Z * Z) : Py.exn + Image :=
  match resize_pixels env img new_size with
  | inl e => inl e
  | inr px => inr {| size := new_size; pixels := px |}
  end.

Definition lookup_asset (item : Item) (key : string) : Py.exn + Asset :=
  match assets item !! key with
  | Some a => inr a
  | None => inl Py.KeyError
  end.

(**
<<
def create_image(item):
    print(item.datetime)
    href = pc.sign(item.assets['image'].href)
    with rasterio.open(href) as ds:
        aoi_bounds = features.bounds(area_of_interest)
        warped_aoi_bounds = warp.transform_bounds('epsg:4326', ds.crs, *aoi_bounds)
        aoi_window = windows.from_bounds(transform=ds.transform, *warped_aoi_bounds)
        band_data = ds.read(indexes=[1,2,3], window=aoi_window)

    img = Image.fromarray(np.transpose(band_data, axes=[1, 2, 0]))
    w = img.size[0]; h = img.size[1]; aspect = w/h

    # Downscale a bit for plotting
    target_w = 800; target_h = (int)(target_w/aspect)

    return img.resize((target_w,target_h),Image.BILINEAR)
>>
*)
Definition fetch_window (ds : Dataset) : Cell.M (list event) ndarray :=
  aoi_bounds ← call (EvBounds area_of_interest)
                    (features_bounds env area_of_interest);
  warped_aoi_bounds ←
    call (EvTransformBounds "epsg:4326" (ds_crs ds) aoi_bounds)
         (warp_transform_bounds env "epsg:4326" (ds_crs ds) aoi_bounds);
  aoi_window ← call (EvFromBounds warped_aoi_bounds (ds_transform ds))
                    (windows_from_bounds env warped_aoi_bounds (ds_transform ds));
  call (EvRead ds [1; 2; 3] aoi_window) (ds_read env ds [1; 2; 3] aoi_window).

(** The statements after the [with] block. *)
Definition render (band_data : ndarray) : Cell.M (list event) Image :=
  img ← call (EvFromArray (transpose_120 band_data))
             (Image_fromarray (transpose_120 band_data));
  let w := (size img).1 in
  let h := (size img).2 in
  target_h ← Cell.lift (target_height w h);
  call (EvResize img (target_w, target_h)) (Image_resize img (target_w, target_h)).

Definition create_image (item : Item) : Cell.M (list event) Image :=
  call (EvPrint (datetime item)) (inr tt);;
  asset ← Cell.lift (lookup_asset item "image");
  signed ← call (EvSign (href asset)) (pc_sign env (href asset));
  ds ← call (EvOpen signed) (rasterio_open env signed);
  band_data ← with_dataset ds (fetch_window ds);
  render band_data.

(** The calls of a run in which the window is read. *)
Definition fetch_calls (item : Item) (asset : Asset) (signed : string)
    (ds : Dataset) (b wb : Bounds) (win : Window) : list event :=
  [EvPrint (datetime item); EvSign (href asset); EvOpen signed] ++
  [EvBounds area_of_interest;
   EvTransformBounds "epsg:4326" (ds_crs ds) b;
   EvFromBounds wb (ds_transform ds);
   EvRead ds [1; 2; 3] win;
   EvClose ds].

(** The calls that compute the read window and read it. *)
Definition is_fetch_event (ev : event) : bool :=
  match ev with
  | EvTransformBounds _ _ _ | EvFromBounds _ _ | EvRead _ _ _ => true
  | _ => false
  end.

(** The window read is empty: it has no rows or no columns. *)
Definition empty_window (band_data : ndarray) : Prop :=
  (shape band_data).1.2 = 0%nat \/ (shape band_data).2 = 0%nat.
End Fetch.

End NaipImage.

(** ** Concrete instances

    Small environments on which the cells can be run. *)

Module Examples.

(** *** Ranking: four scenes, with overlap areas in exact rationals *)

Definition scene_overlap (scene aoi : Z) : Q :=
  match scene with
  | 1 => 3 # 10
  | 2 => 9 # 10
  | 3 => 9 # 10
  | _ => 1 # 10
  end.

Definition Qlt_bool (x y : Q) : bool := negb (Qle_bool y x).
Definition Qzero_bool (x : Q) : bool := Qeq_bool x 0.

Definition scenes : list Z := [1; 2; 3; 4].

(** *** The session: [urljoin] on plain paths

    [urllib.parse.urljoin(base, url)] for an absolute [http(s)] base and a
    reference [url] that is a plain path (no scheme, no leading [//], no
    dot segments, no query or fragment): a path with a leading slash
    replaces the path of the base, any other path replaces what follows
    the last slash of the base. *)
Fixpoint before_nth_slash (n : nat) (s : string) : string :=
  match s with
  | EmptyString => EmptyString
  | String c s' =>
      if Ascii.eqb c "/" then
        match n with
        | O | 1%nat => EmptyString
        | S n' => String c (before_nth_slash n' s')
        end
      else String c (before_nth_slash n s')
  end.

Fixpoint up_to_last_slash (s : string) : string :=
  match s with
  | EmptyString => EmptyString
  | String c s' =>
      match up_to_last_slash s' with
      | EmptyString => if Ascii.eqb c "/" then String c EmptyString else EmptyString
      | r => String c r
      end
  end.

Definition urljoin_path (base url : string) : string :=
  match url with
  | EmptyString => base
  | String c _ =>
      if Ascii.eqb c "/" then (before_nth_slash 3 base +:+ url)%string
      else (up_to_last_slash base +:+ url)%string
  end.

(** *** The footprint browser: one item over the map of the notebook *)

Definition footprint : list (list Z) := [[149; -1]; [150; -1]; [150; -2]; [149; -1]].

Definition item_centroid (item : string) : Py.exn + list (list Z) :=
  inr [[149; -1]].

Definition notebook : Browser.Notebook (Coord := Z) (GeoJSON := list (list Z)) :=
  Browser.setup 1%nat 0 0%nat.

(** *** The raster: a scene of 100 by 100 pixels

    The scene covers the square from (0, 0) to (100, 100) of its own
    coordinate system, one unit per pixel; geographic and native
    coordinates coincide; a GeoJSON value is given by its bounding box; a
    window is (col_off, row_off, width, height).  A read returns the part
    of the window that lies inside the scene.  Pixel values are not
    tracked. *)
Definition scene_width : Z := 100.
Definition scene_height : Z := 100.

Definition clip (off len limit : Z) : Z :=
  Z.max 0 (Z.min limit (off + len) - Z.max 0 off).

Definition scene_env :
  NaipImage.Env (Coord := Z) (Pixel := Z) (Affine := Z * Z)
                (Window := Z * Z * Z * Z) (GeoJSON := Z * Z * Z * Z) :=
  {| NaipImage.pc_sign := fun url => inr (url +:+ "?sig=token")%string;
     NaipImage.rasterio_open := fun url =>
       inr {| NaipImage.ds_name := url; NaipImage.ds_crs := "EPSG:26912";
              NaipImage.ds_transform := (0, scene_height) |};
     NaipImage.features_bounds := fun g => inr g;
     NaipImage.warp_transform_bounds := fun _ _ b => inr b;
     NaipImage.windows_from_bounds := fun '(west, south, east, north) '(x0, y0) =>
       inr (west - x0, y0 - north, east - west, north - south);
     NaipImage.ds_read := fun _ indexes '(col_off, row_off, width, height) =>
       inr {| NaipImage.shape :=
                (length indexes,
                 Z.to_nat (clip row_off height scene_height),
                 Z.to_nat (clip col_off width scene_width));
              NaipImage.buffer := [] |};
     NaipImage.fromarray_rejects := fun _ => None;
     NaipImage.resize_pixels := fun _ '(w, h) =>
       inr {| NaipImage.shape := (Z.to_nat h, Z.to_nat w, 3%nat);
              NaipImage.buffer := [] |} |}.

Definition scene_item : NaipImage.Item :=
  {| NaipImage.datetime := "2011-07-20 00:00:00+00:00";
     NaipImage.assets :=
       {["image"%string := {| NaipImage.href := "https://naip.example/scene.tif" |}]} |}.

(** An area of interest inside the scene, and one that does not touch
    it. *)
Definition aoi_inside : Z * Z * Z * Z := (10, 20, 50, 50).
Definition aoi_outside : Z * Z * Z * Z := (200, 200, 240, 230).

(** Two boxes (west, south, east, north) have a point in common. *)
Definition boxes_intersect (a b : Z * Z * Z * Z) : bool :=
  let '(al, ab, ar, at_) := a in
  let '(bl, bb, br, bt) := b in
  (al <? br) && (bl <? ar) && (ab <? bt) && (bb <? at_).

Definition scene_extent : Z * Z * Z * Z := (0, 0, scene_width, scene_height).

End Examples.

(** ** NAIP notebook: kinds of calls of [create_image] *)

Module NaipImageEvents.
Import NaipImage.
Section Events.
Context {Coord Pixel Affine Window GeoJSON : Type}.
Local Abbreviation event :=
  (NaipImage.event (Coord := Coord) (Pixel := Pixel) (Affine := Affine)
     (Window := Window) (GeoJSON := GeoJSON)).

(** Opening and closing a dataset. *)
Definition is_lifecycle_event (ev : event) : bool :=
  match ev with
  | EvOpen _ | EvClose _ => true
  | _ => false
  end.

(** A call of [pc.sign]; a call of [rasterio.open]. *)
Definition is_sign_event (ev : event) : bool :=
  match ev with
  | EvSign _ => true
  | _ => false
  end.

Definition is_open_event (ev : event) : bool :=
  match ev with
  | EvOpen _ => true
  | _ => false
  end.

(** The calls made inside the [with] block, and those made after it. *)
Definition in_with_block (ev : event) : Prop :=
  match ev with
  | EvBounds _ | EvTransformBounds _ _ _ | EvFromBounds _ _ | EvRead _ _ _ => True
  | _ => False
  end.

Definition after_with_block (ev : event) : Prop :=
  match ev with
  | EvFromArray _ | EvResize _ _ => True
  | _ => False
  end.
End Events.
End NaipImageEvents.

(** ** FIA notebook: totals and the join with the census counties *)

Module FiaMap.
Import Fia.

(** The census table as the notebook reads it: the columns [STATEFP],
    [COUNTYFP] and [geometry]. *)
Section Counties.
Context {Geometry : Type}.

Record CensusRow := {
  STATEFP : string;
  COUNTYFP : string;
  census_geometry : Geometry
}.

(** [.rename(columns={"STATEFP": "STATE", "COUNTYFP": "COUNTY"})] *)
Record CountyRow := {
  c_STATE : string;
  c_COUNTY : string;
  c_geometry : Geometry
}.

Definition rename (rows : list CensusRow) : list CountyRow :=
  map (fun r => {| c_STATE := STATEFP r; c_COUNTY := COUNTYFP r;
                   c_geometry := census_geometry r |}) rows.

(** A row of [pd.merge(result, counties, on=["STATE", "COUNTY"])]: the
    columns of [result] and the geometry. *)
Record GdfRow := {
  gdf_result : ResultRow;
  gdf_geometry : Geometry
}.

Definition same_county (l : ResultRow) (c : CountyRow) : bool :=
  String.eqb (STATE l) (c_STATE c) && String.eqb (COUNTY l) (c_COUNTY c).

(** [pd.merge] is an inner join: one row for every pair of a left and a
    right row that agree on both key columns. *)
Definition pd_merge (left : list ResultRow) (right : list CountyRow) : list GdfRow :=
  flat_map (fun l =>
    map (fun c => {| gdf_result := l; gdf_geometry := c_geometry c |})
        (List.filter (same_county l) right)) left.

(** [gdf = geopandas.GeoDataFrame(pd.merge(result, counties, on=["STATE", "COUNTY"]))] *)
Definition gdf (stored_tree : list TreeRow) (stored_plot : list PlotRow)
    (census : list CensusRow) : list GdfRow :=
  pd_merge (result stored_tree stored_plot) (rename census).
End Counties.


End FiaMap.

(** ** Radiant MLHub notebook: listing datasets and collections *)

Module MLHubCatalog.

(** A JSON object of the [/datasets] response, restricted to what the
    notebook reads of it: values that are strings or [null]. *)
Abbreviation dict := (gmap string (option string)).

(** [d[k]] *)
Definition getitem (d : dict) (k : string) : Py.exn + option string :=
  match d !! k with
  | Some v => inr v
  | None => inl Py.KeyError
  end.

(** [f"{v}"] for a string or [None]. *)
Definition format (v : option string) : string := default "None"%string v.

(** [v or d]: [None] and the empty string are false. *)
Definition or_else (v : option string) (d : string) : string :=
  match v with
  | Some s => if String.eqb s "" then d else s
  | None => d
  end.

Definition print (line : string) : Cell.M (list string) unit :=
  Cell.modify (fun out => out ++ [line]).

(** [for x in l: body(x)] *)
Fixpoint for_each {S A} (l : list A) (body : A -> Cell.M S unit) : Cell.M S unit :=
  match l with
  | [] => mret tt
  | x :: l' => body x;; for_each l' body
  end.

Definition dataset_limit : nat := 30.

Definition dataset_line (dataset_id : option string) (dataset_title : string) : string :=
  (format dataset_id +:+ ": " +:+ dataset_title)%string.

(**
<<
print(f"Total Datasets: {len(datasets)}")
print("-----")
for dataset in it.islice(datasets, dataset_limit):
    dataset_id = dataset["id"]
    dataset_title = dataset["title"] or "No Title"
    print(f"{dataset_id}: {dataset_title}")
if len(datasets) > dataset_limit:
    print("...")
>>
*)
Definition print_dataset (dataset : dict) : Cell.M (list string) unit :=
  dataset_id ← Cell.lift (getitem dataset "id");
  title ← Cell.lift (getitem dataset "title");
  let dataset_title := or_else title "No Title" in
  print (dataset_line dataset_id dataset_title).

Definition list_datasets (datasets : list dict) : Cell.M (list string) unit :=
  print ("Total Datasets: " +:+ Fia.astype_string (Z.of_nat (length datasets)))%string;;
  print "-----";;
  for_each (take dataset_limit datasets) print_dataset;;
  if (dataset_limit <? length datasets)%nat then print "..." else mret tt.

(** [next(x for x in l if p(x))]: the first element that passes the test;
    [StopIteration] when there is none. *)
Definition StopIteration : Py.exn := Py.External "StopIteration".

Fixpoint next_where {A} (p : A -> Py.exn + bool) (l : list A) : Py.exn + A :=
  match l with
  | [] => inl StopIteration
  | x :: l' =>
      match p x with
      | inl e => inl e
      | inr true => inr x
      | inr false => next_where p l'
      end
  end.

(** [dataset["id"] == name] *)
Definition id_is (name : string) (dataset : dict) : Py.exn + bool :=
  match getitem dataset "id" with
  | inl e => inl e
  | inr v => inr (bool_decide (v = Some name))
  end.

(**
<<
crop_dataset = next(
    dataset for dataset in datasets if dataset["id"] == "ref_african_crops_kenya_02"
)
>>
*)
Definition crop_dataset (datasets : list dict) : Py.exn + dict :=
  next_where (id_is "ref_african_crops_kenya_02") datasets.

(** What the listing prints for a dataset that has both keys. *)
Definition line_of (dataset : dict) : option string :=
  match dataset !! "id"%string, dataset !! "title"%string with
  | Some i, Some t => Some (dataset_line i (or_else t "No Title"))
  | _, _ => None
  end.

End MLHubCatalog.

Module MLHubCollections.
Import MLHubCatalog.

(** A collection, as far as the listing reads it: [c.id], [c.license]. *)
Record Collection := {
  c_id : string;
  c_license : option string
}.

(** The kernel: what the iterable [collections] will still yield, and
    what has been printed. *)
Record Kernel := {
  collections : list Collection;
  stdout : list string
}.

Definition ExtensionNotImplemented : Py.exn := Py.External "ExtensionNotImplemented".

Definition is_ExtensionNotImplemented (e : Py.exn) : bool :=
  match e with
  | Py.External name => String.eqb name "ExtensionNotImplemented"
  | _ => false
  end.

Section Listing.
(** [collections = client.get_collections()] is used twice, by the loop
    and by the lookup.  Whether the second use sees the elements the
    first one took depends on what the client returns: an iterator, such
    as a generator, yields every element once ([one_shot]); a list starts
    over on each use. *)
Variable one_shot : bool.

(** [ScientificExtension.ext(c).citation]: the citation (possibly [None]),
    or an exception, [ExtensionNotImplemented] among them. *)
Variable sci_citation : Collection -> Py.exn + option string.

Definition LF : string := String (ascii_of_nat 10) EmptyString.

(** The iterable has handed out an element: [rest] is what is left. *)
Definition consumed (rest : list Collection) : Cell.M Kernel unit :=
  Cell.modify (fun k =>
    if one_shot then {| collections := rest; stdout := stdout k |} else k).

Definition print (line : string) : Cell.M Kernel unit :=
  Cell.modify (fun k =>
    {| collections := collections k; stdout := stdout k ++ [line] |}).

(** The [try] statement of the loop. *)
Definition citation_of (c : Collection) : Py.exn + string :=
  match sci_citation c with
  | inr citation => inr (or_else citation "N/A")
  | inl e => if is_ExtensionNotImplemented e then inr "N/A"%string else inl e
  end.

(**
<<
collections = client.get_collections()
for c in it.islice(collections, 20):
    collection_id = c.id
    license = c.license or "N/A"
    try:
        sci = ScientificExtension.ext(c)
        citation = sci.citation or "N/A"
    except ExtensionNotImplemented:
        citation = "N/A"

    print(f"ID:       {collection_id}\nLicense:  {license}\nCitation: {citation}\n")
>>
*)
Definition entry (collection_id license citation : string) : string :=
  ("ID:       " +:+ collection_id +:+ LF +:+
   "License:  " +:+ license +:+ LF +:+
   "Citation: " +:+ citation +:+ LF)%string.

Definition print_collection (c : Collection) : Cell.M Kernel unit :=
  let collection_id := c_id c in
  let license := or_else (c_license c) "N/A" in
  citation ← Cell.lift (citation_of c);
  print (entry collection_id license citation).

(** [for c in it.islice(view, n): body(c)]: at most [n] elements are
    taken. *)
Fixpoint islice_for (n : nat) (view : list Collection)
    (body : Collection -> Cell.M Kernel unit) : Cell.M Kernel unit :=
  match n, view with
  | S n', c :: rest => consumed rest;; body c;; islice_for n' rest body
  | _, _ => mret tt
  end.

Definition list_collections : Cell.M Kernel unit :=
  k ← Cell.get;
  islice_for 20 (collections k) print_collection.

(**
<<
kenya_crops_labels = next(
    c for c in collections if c.id == "ref_african_crops_kenya_01_labels"
)
>>
*)
Fixpoint next_with_id (name : string) (view : list Collection)
  : Cell.M Kernel Collection :=
  match view with
  | [] => Cell.raise StopIteration
  | c :: rest =>
      consumed rest;;
      if String.eqb (c_id c) name then mret c else next_with_id name rest
  end.

Definition lookup_collection (name : string) : Cell.M Kernel Collection :=
  k ← Cell.get;
  next_with_id name (collections k).

Definition kenya_crops_labels : Cell.M Kernel Collection :=
  lookup_collection "ref_african_crops_kenya_01_labels".
End Listing.

(** The first element with the given id. *)
Definition first_with_id (name : string) (l : list Collection) : Py.exn + Collection :=
  match List.find (fun c => String.eqb (c_id c) name) l with
  | Some c => inr c
  | None => inl StopIteration
  end.

End MLHubCollections.

(** ** Footprint browser notebook: a sequence of selections *)

Module BrowserSession.
Import Browser.
Section Session.
Context {Coord GeoJSON Item : Type}.
Variable centroid_coords : Item -> Py.exn + list (list Coord).
Variable geometry : Item -> GeoJSON.
Variable id : Item -> string.
Variable datetime_isoformat : Item -> Py.exn + string.
Variable layer : LayerId.

(** [@ipywidgets.interact(item=items)] calls [browse] with the selected
    item each time the selection changes; an exception ends that call
    only.  The notebook after a sequence of selections: *)
Definition interact (selected : list Item)
    (nb : Notebook (Coord := Coord) (GeoJSON := GeoJSON)) : Notebook :=
  fold_left
    (fun nb item => (browse centroid_coords geometry id datetime_isoformat layer item nb).2)
    selected nb.
End Session.
End BrowserSession.

(** ** Climate normals notebook: the tables of assets and metadata *)

Module ClimateNormals.

Definition NameError : Py.exn := Py.External "NameError".

Section Tables.
(** The values of an item's properties, their [str], and their [<]. *)
Context {V StorageOptions : Type}.
Variable str : V -> string.
Variable vlt : V -> V -> bool.

(** [<] on [str]: lexicographic, by code point. *)
Definition str_lt (a b : string) : bool := String.ltb a b.

(** [<] on the pairs [(k, v)]: the first component that differs
    decides. *)
Definition item_lt (a b : string * V) : bool :=
  if String.eqb a.1 b.1 then vlt a.2 b.2 else str_lt a.1 b.1.

(** A [rich.table.Table("Key", "Value")]: its rows, in the order they
    were added. *)
Definition Table : Type := list (string * string).

(**
<<
t_metadata = rich.table.Table("Key", "Value")
for k, v in sorted(items[0].properties.items()):
    if k != "table:columns":
        t_metadata.add_row(k, str(v))
>>
    [properties] is the list [items[0].properties.items()]. *)
Definition t_metadata (properties : list (string * V)) : Table :=
  fold_left
    (fun (t : Table) (kv : string * V) =>
       if negb (String.eqb kv.1 "table:columns") then t ++ [(kv.1, str kv.2)] else t)
    (Py.sorted item_lt (fun kv => kv) false properties) [].

Record Asset := {
  title : option string;
  href : string;
  extra_fields : gmap string StorageOptions
}.

(** A STAC item: its assets, in the order of the [dict]. *)
Record Item := { assets : list (string * Asset) }.

(** The kernel: the global names the two cells bind, and the table. *)
Record Kernel := {
  key : option string;
  asset : option Asset;
  t_assets : Table
}.

(** [rich] shows [None] as an empty cell. *)
Definition cell_text (v : option string) : string := default ""%string v.

(**
<<
t_assets = rich.table.Table("Key", "Value")
for key, asset in items[0].assets.items():
    t_assets.add_row(key, asset.title)
>>
    The loop variables are globals of the notebook: after the loop they
    hold the last pair. *)
Definition assets_loop (l : list (string * Asset)) : Cell.M Kernel unit :=
  Cell.modify (fun k0 =>
    fold_left
      (fun k (ka : string * Asset) =>
         {| key := Some ka.1; asset := Some ka.2;
            t_assets := t_assets k ++ [(ka.1, cell_text (title ka.2))] |})
      l k0).

Definition assets_cell (items : list Item) : Cell.M Kernel unit :=
  Cell.modify (fun k => {| key := key k; asset := asset k; t_assets := [] |});;
  item0 ← Cell.lift (Py.item0 items);
  assets_loop (assets item0).

(** The arguments of [geopandas.read_parquet]. *)
Record ReadParquet := {
  path : string;
  storage_options : StorageOptions;
  columns : list string
}.

(**
<<
df = geopandas.read_parquet(
    asset.href,
    storage_options=asset.extra_fields["table:storage_options"],
    columns=["STATION", "month", "MLY-PRCP-NORMAL", "geometry"],
)
>>
*)
Definition read_cell : Cell.M Kernel ReadParquet :=
  k ← Cell.get;
  match asset k with
  | None => Cell.raise NameError
  | Some a =>
      match extra_fields a !! "table:storage_options"%string with
      | None => Cell.raise Py.KeyError
      | Some so =>
          mret {| path := href a; storage_options := so;
                  columns := ["STATION"; "month"; "MLY-PRCP-NORMAL"; "geometry"]%string |}
      end
  end.

(** A kernel in which neither cell has run. *)
Definition fresh : Kernel := {| key := None; asset := None; t_assets := [] |}.
End Tables.

End ClimateNormals.

(** ** Tile notebook: registering a mosaic and showing its tiles *)

Module Mosaic.

(** JSON values, as [requests] decodes them and as the notebook writes
    them.  Numbers are kept as the decimal fractions they are written
    as. *)
#[warnings="-register-all"]
Inductive json :=
| JNull
| JBool (b : bool)
| JNum (q : Q)
| JStr (s : string)
| JList (l : list json)
| JDict (fields : list (string * json)).

Definition TypeError : Py.exn := Py.External "TypeError".
Definition TraitError : Py.exn := Py.External "TraitError".

Fixpoint assoc (k : string) (fields : list (string * json)) : option json :=
  match fields with
  | [] => None
  | (k', v) :: rest => if String.eqb k k' then Some v else assoc k rest
  end.

(** [j[k]] for a string [k] *)
Definition get_key (k : string) (j : json) : Py.exn + json :=
  match j with
  | JDict fields =>
      match assoc k fields with
      | Some v => inr v
      | None => inl Py.KeyError
      end
  | _ => inl TypeError
  end.

(** [j[i]] for a non-negative integer [i] *)
Definition get_index (i : nat) (j : json) : Py.exn + json :=
  match j with
  | JList l =>
      match l !! i with
      | Some v => inr v
      | None => inl Py.IndexError
      end
  | JStr s =>
      match String.get i s with
      | Some c => inr (JStr (String c EmptyString))
      | None => inl Py.IndexError
      end
  | JDict _ => inl Py.KeyError
  | _ => inl TypeError
  end.

(** What [requests] is asked to send. *)
Record Request := {
  method : string;
  url : string;
  params : list (string * string);
  body : option json
}.

(** The layers of a map: the base layer every new map shows, a tile
    layer with its URL template, a GeoJSON layer. *)
Inductive Layer :=
| BaseLayer
| TileLayer (url : string)
| GeoJSON (data : json) (style : json).

Section Flow.
Context {Coord : Type}.

(** The display state of the [ipyleaflet.Map] the cell builds; its
    controls are left out. *)
Record Map := {
  center : Coord * Coord;
  zoom : Z;
  layers : list Layer;
  scroll_wheel_zoom : bool;
  layout_max_width : option string
}.

(** The service: the decoded JSON body of the response to a request, or
    the exception of the call or of [.json()]. *)
Variable http_json : Request -> Py.exn + json.
(** [shapely.geometry.shape(aoi).centroid]: its [x] and [y]. *)
Variable centroid : json -> Py.exn + Coord * Coord.
(** How an f-string renders a value that is not a string. *)
Variable repr : json -> string.
(** [item.collection_id] of the item fetched earlier in the notebook. *)
Variable item_collection_id : string.

Definition fstr (j : json) : string :=
  match j with
  | JStr s => s
  | _ => repr j
  end.

Definition num (n : Z) (d : positive) : json := JNum (n # d).

Definition aoi : json :=
  JDict [
    ("type", JStr "Polygon");
    ("coordinates",
      JList [JList [
        JList [num 29036865234375 1000000000000; num 7857940257224196 1000000000000000];
        JList [num 314813232421875 10000000000000; num 7857940257224196 1000000000000000];
        JList [num 314813232421875 10000000000000; num 10055402736564236 1000000000000000];
        JList [num 29036865234375 1000000000000; num 10055402736564236 1000000000000000];
        JList [num 29036865234375 1000000000000; num 7857940257224196 1000000000000000]
      ]])
  ]%string.

Definition filter_ : json :=
  JDict [
    ("op", JStr "and");
    ("args", JList [
      JDict [("op", JStr "s_intersects");
             ("args", JList [JDict [("property", JStr "geometry")]; aoi])];
      JDict [("op", JStr "=");
             ("args", JList [JDict [("property", JStr "collection")];
                             JStr "sentinel-2-l2a"])];
      JDict [("op", JStr "<=");
             ("args", JList [JDict [("property", JStr "eo:cloud_cover")]; num 10 1])]
    ])
  ]%string.

Definition collection : string := "sentinel-2-l2a".

Definition send (r : Request) : Cell.M (list Request) json :=
  fun log => (http_json r, log ++ [r]).

Definition register_request : Request :=
  {| method := "POST";
     url := "https://planetarycomputer.microsoft.com/api/data/v1/mosaic/register";
     params := [];
     body := Some (JDict [("collection", JStr collection); ("filter", filter_)]%string) |}.

Definition info_request : Request :=
  {| method := "GET";
     url := "https://planetarycomputer.microsoft.com/api/data/v1/mosaic/info";
     params := [("collection", item_collection_id)]%string;
     body := None |}.

Definition tilejson_request (tilejson_url render_options : json) : Request :=
  {| method := "GET";
     url := (fstr tilejson_url +:+ "?collection=" +:+ item_collection_id +:+ "&"
             +:+ fstr render_options)%string;
     params := [];
     body := None |}.

(** [ipyleaflet.TileLayer(url=tiles)]: [url] must be a string. *)
Definition new_TileLayer (tiles : json) : Py.exn + Layer :=
  match tiles with
  | JStr s => inr (TileLayer s)
  | _ => inl TraitError
  end.

(**
<<
r_register = requests.post(
    "https://planetarycomputer.microsoft.com/api/data/v1/mosaic/register",
    json={"collection": collection, "filter": filter_},
)
registered = r_register.json()
tilejson_url = registered["links"][1]["href"]
mosaic_info = requests.get(
    "https://planetarycomputer.microsoft.com/api/data/v1/mosaic/info",
    params=dict(collection=item.collection_id),
).json()
render_options = mosaic_info["renderOptions"][0]["options"]
tiles = requests.get(
    f"{tilejson_url}?collection={item.collection_id}&{render_options}"
).json()["tiles"][0]
>>
*)
Definition resolve_tiles : Cell.M (list Request) json :=
  registered ← send register_request;
  links ← Cell.lift (get_key "links" registered);
  link ← Cell.lift (get_index 1 links);
  tilejson_url ← Cell.lift (get_key "href" link);
  mosaic_info ← send info_request;
  options ← Cell.lift (get_key "renderOptions" mosaic_info);
  option0 ← Cell.lift (get_index 0 options);
  render_options ← Cell.lift (get_key "options" option0);
  tilejson ← send (tilejson_request tilejson_url render_options);
  templates ← Cell.lift (get_key "tiles" tilejson);
  Cell.lift (get_index 0 templates).

(**
<<
center = shapely.geometry.shape(aoi).centroid

m = ipyleaflet.Map(
    center=(center.y, center.x),
    controls=[ipyleaflet.FullScreenControl()],
    zoom=9,
)

m.add_layer(ipyleaflet.TileLayer(url=tiles))
m.add_layer(
    ipyleaflet.GeoJSON(data=aoi, style={"fillOpacity": 0}),
)
m.scroll_wheel_zoom = True
m.layout.max_width = "80%"
>>
*)
Definition show_map (tiles : json) : Cell.M (list Request) Map :=
  xy ← Cell.lift (centroid aoi);
  tile_layer ← Cell.lift (new_TileLayer tiles);
  mret {| center := (xy.2, xy.1); zoom := 9;
          layers := [BaseLayer; tile_layer;
                     GeoJSON aoi (JDict [("fillOpacity", num 0 1)]%string)];
          scroll_wheel_zoom := true;
          layout_max_width := Some "80%"%string |}.

Definition show_mosaic : Cell.M (list Request) Map :=
  tiles ← resolve_tiles;
  show_map tiles.

End Flow.

End Mosaic.

(** ** Radiant MLHub notebook: downloading an archive *)

Module Archive.

Definition FileNotFoundError : Py.exn := Py.External "FileNotFoundError".
Definition IsADirectoryError : Py.exn := Py.External "IsADirectoryError".
Definition NotADirectoryError : Py.exn := Py.External "NotADirectoryError".

Section Files.
(** The bytes of a file. *)
Context {Bytes : Type}.

(** The file system: what is at each path. *)
Inductive Node := Dir | File (content : Bytes).

Local Abbreviation FS := (gmap string Node).

(** [os.path.join(a, b)] on POSIX paths. *)
Definition os_path_join (a b : string) : string :=
  if String.prefix "/" b then b
  else if String.eqb a "" || MLHub.endswith a "/" then (a +:+ b)%string
  else (a +:+ "/" +:+ b)%string.

(** [p] is [d] or lies below it. *)
Definition is_under (d p : string) : bool :=
  String.eqb p d || String.prefix (d +:+ "/") p.

(** The directory a path lies in. *)
Definition dirname (p : string) : string :=
  let head := Examples.up_to_last_slash p in
  match MLHub.rstrip "/" head with
  | EmptyString => head
  | d => d
  end.

(** The kernel: the file system and the global [tmp_dir] (unbound at
    first). *)
Record Kernel := {
  fs : FS;
  tmp_dir : option string
}.

Definition set_fs (f : FS -> FS) : Cell.M Kernel unit :=
  Cell.modify (fun k => {| fs := f (fs k); tmp_dir := tmp_dir k |}).

(** [tempfile.mkdtemp()]: a directory that was not there is made; its
    name is chosen by the system. *)
Variable tmp_name : FS -> string.

Definition mkdtemp : Cell.M Kernel string :=
  k ← Cell.get;
  set_fs (fun disk => <[tmp_name disk := Dir]> disk);;
  mret (tmp_name (fs k)).

(** [with open(path, "wb") as dst: dst.write(content)] *)
Definition write_file (path : string) (content : Bytes) : Cell.M Kernel unit :=
  k ← Cell.get;
  match fs k !! dirname path with
  | Some Dir =>
      match fs k !! path with
      | Some Dir => Cell.raise IsADirectoryError
      | _ => set_fs (fun disk => <[path := File content]> disk)
      end
  | Some (File _) => Cell.raise NotADirectoryError
  | None => Cell.raise FileNotFoundError
  end.

(** [shutil.rmtree(d)] *)
Definition rmtree (d : string) : Cell.M Kernel unit :=
  k ← Cell.get;
  match fs k !! d with
  | Some Dir => set_fs (fun disk => filter (fun kv => is_under d kv.1 = false) disk)
  | Some (File _) => Cell.raise NotADirectoryError
  | None => Cell.raise FileNotFoundError
  end.

(** [response.content] of the answer to a request. *)
Variable urljoin : string -> string -> string.
Variable content_of : MLHub.HttpRequest -> Py.exn + Bytes.
Variable session : MLHub.Session.

Definition archive_name : string := "ref_african_crops_kenya_01_labels.tar.gz".

(**
<<
tmp_dir = tempfile.mkdtemp()
archive_path = os.path.join(tmp_dir, "ref_african_crops_kenya_01_labels.tar.gz")

response = session.get(
    "/archive/ref_african_crops_kenya_01_labels", allow_redirects=True
)
with open(archive_path, "wb") as dst:
    dst.write(response.content)
>>
*)
Definition download_cell : Cell.M Kernel unit :=
  d ← mkdtemp;
  Cell.modify (fun k => {| fs := fs k; tmp_dir := Some d |});;
  let archive_path := os_path_join d archive_name in
  content ← Cell.lift
    (content_of (MLHub.get_archive urljoin session "ref_african_crops_kenya_01_labels"));
  write_file archive_path content.

(** [shutil.rmtree(tmp_dir)] *)
Definition cleanup_cell : Cell.M Kernel unit :=
  k ← Cell.get;
  match tmp_dir k with
  | Some d => rmtree d
  | None => Cell.raise ClimateNormals.NameError
  end.

(** The name is new: nothing is at it or below it; it is an absolute path
    that does not end with a slash. *)
Definition fresh_name (d : string) (fs : FS) : Prop :=
  (forall p, is_Some (fs !! p) -> is_under d p = false) /\
  String.prefix "/" d = true /\ MLHub.endswith d "/" = false.

End Files.
End Archive.

(** ** More concrete instances *)

Module MoreExamples.

(** *** The listing of collections: 21 collections, the wanted one
    first *)
Definition wanted : string := "ref_african_crops_kenya_01_labels".

Definition some_collections : list MLHubCollections.Collection :=
  {| MLHubCollections.c_id := wanted;
     MLHubCollections.c_license := Some "CC-BY-SA-4.0"%string |}
  :: map (fun i => {| MLHubCollections.c_id := ("sn" +:+ Fia.astype_string (Z.of_nat i))%string;
                      MLHubCollections.c_license := None |})
         (seq 1 20).

Definition no_citation (c : MLHubCollections.Collection) : Py.exn + option string :=
  inl MLHubCollections.ExtensionNotImplemented.

(** *** The metadata table: three properties *)
Definition some_properties : list (string * Z) :=
  [("table:columns", 24); ("noaa:period", 30); ("noaa:frequency", 12)]%string.

(** *** The mosaic: a service with fixed answers *)
Definition tile_template : string :=
  "https://tiles.example/mosaic/tiles/abc/{z}/{x}/{y}".

Definition registration (searchid : string) : Mosaic.json :=
  Mosaic.JDict [
    ("searchid", Mosaic.JStr searchid);
    ("links", Mosaic.JList [
       Mosaic.JDict [("rel", Mosaic.JStr "metadata");
                     ("href", Mosaic.JStr "https://tiles.example/mosaic/abc/info")];
       Mosaic.JDict [("rel", Mosaic.JStr "tilejson");
                     ("href", Mosaic.JStr "https://tiles.example/mosaic/abc/tilejson.json")]])
  ]%string.

Definition mosaic_service (searchid : string) (r : Mosaic.Request) : Py.exn + Mosaic.json :=
  if String.eqb (Mosaic.method r) "POST" then inr (registration searchid)
  else if String.eqb (Mosaic.url r)
            "https://planetarycomputer.microsoft.com/api/data/v1/mosaic/info"
  then inr (Mosaic.JDict [
         ("renderOptions", Mosaic.JList [
            Mosaic.JDict [("name", Mosaic.JStr "Natural color");
                          ("options", Mosaic.JStr "assets=B04&assets=B03&assets=B02")]])
       ]%string)
  else inr (Mosaic.JDict [
         ("tilejson", Mosaic.JStr "2.2.0");
         ("tiles", Mosaic.JList [Mosaic.JStr tile_template])
       ]%string).

Definition aoi_centroid (j : Mosaic.json) : Py.exn + Z * Z := inr (30, 9).

(** *** The archive: a file system with [/tmp] only *)
Definition disk : Archive.Kernel (Bytes := string) :=
  {| Archive.fs := {["/tmp"%string := Archive.Dir]}; Archive.tmp_dir := None |}.

Definition new_name (fs : gmap string (Archive.Node (Bytes := string))) : string :=
  "/tmp/tmpk3v9".

Definition archive_bytes (r : MLHub.HttpRequest) : Py.exn + string := inr "tar"%string.

End MoreExamples.

(* ===================================================================== *)
(** * Part II: lemmas and theorems *)
(* ===================================================================== *)

(** ** Facts about [sorted] *)

Section SortedFacts.
Context {A K : Type}.
Variable lt : K -> K -> bool.
Variable key : A -> K.

(** [<] on keys is a strict weak order. *)
Hypothesis lt_irrefl : forall x, lt x x = false.
Hypothesis lt_trans : forall x y z, lt x y = true -> lt y z = true -> lt x z = true.
Hypothesis lt_neg_trans :
  forall x y z, lt x y = false -> lt y z = false -> lt x z = false.

Local Abbreviation le_key := (Py.le_key lt key).
Local Abbreviation ge_key := (Py.ge_key lt key).
Local Abbreviation tied := (Py.tied lt key).

Lemma lt_asym x y : lt x y = true -> lt y x = false.
Proof using lt_irrefl lt_trans.
  intros Hxy. destruct (lt y x) eqn:Hyx; [|reflexivity].
  rewrite <- (lt_irrefl x). symmetry. eauto.
Qed.

Lemma lt_le_trans x y z : lt x y = true -> lt z y = false -> lt x z = true.
Proof using lt_neg_trans.
  intros Hxy Hzy. destruct (lt x z) eqn:Hxz; [reflexivity|].
  rewrite (lt_neg_trans _ _ _ Hxz Hzy) in Hxy. discriminate.
Qed.

Lemma le_lt_trans x y z : lt y x = false -> lt y z = true -> lt x z = true.
Proof using lt_neg_trans.
  intros Hyx Hyz. destruct (lt x z) eqn:Hxz; [reflexivity|].
  rewrite (lt_neg_trans _ _ _ Hyx Hxz) in Hyz. discriminate.
Qed.

Lemma tied_above k x z :
  tied k x = true -> lt (key x) (key z) = true -> tied k z = false.
Proof using lt_neg_trans.
  unfold Py.tied. intros Hk Hxz.
  apply andb_true_iff in Hk as [_ Hxk]. apply negb_true_iff in Hxk.
  rewrite (le_lt_trans _ _ _ Hxk Hxz). reflexivity.
Qed.

Lemma insert_perm x l : Permutation (Py.insert lt key x l) (x :: l).
Proof.
  induction l as [|y l IH]; simpl; [reflexivity|].
  destruct (lt (key x) (key y)); [reflexivity|].
  rewrite IH. apply perm_swap.
Qed.

Lemma insert_sorted x l :
  StronglySorted le_key l -> StronglySorted le_key (Py.insert lt key x l).
Proof using lt_irrefl lt_trans lt_neg_trans.
  induction 1 as [|y l Hl IH Hy]; simpl.
  - repeat constructor.
  - destruct (lt (key x) (key y)) eqn:Hxy.
    + constructor; [constructor; assumption|].
      constructor; [exact (lt_asym _ _ Hxy)|].
      eapply List.Forall_impl; [|exact Hy]. intros z Hz. unfold Py.le_key in *.
      apply lt_asym. eapply lt_le_trans; eassumption.
    + constructor; [assumption|].
      eapply Permutation_Forall; [symmetry; apply insert_perm|].
      constructor; assumption.
Qed.

Lemma filter_tied_above k x l :
  tied k x = true -> Forall (fun z => lt (key x) (key z) = true) l ->
  List.filter (tied k) l = [].
Proof using lt_neg_trans.
  intros Hk. induction 1 as [|z l Hz _ IH]; simpl; [reflexivity|].
  rewrite (tied_above _ _ _ Hk Hz). exact IH.
Qed.

Lemma filter_insert k x l :
  StronglySorted le_key l ->
  List.filter (tied k) (Py.insert lt key x l)
  = List.filter (tied k) l ++ (if tied k x then [x] else []).
Proof using lt_irrefl lt_trans lt_neg_trans.
  induction 1 as [|y l Hl IH Hy].
  - simpl. destruct (tied k x); reflexivity.
  - cbn [Py.insert]. destruct (lt (key x) (key y)) eqn:Hxy.
    + destruct (tied k x) eqn:Hk.
      * assert (E : List.filter (tied k) (y :: l) = []).
        { apply (filter_tied_above k x); [exact Hk|].
          constructor; [assumption|].
          eapply List.Forall_impl; [|exact Hy]. intros z Hz.
          eapply lt_le_trans; eassumption. }
        rewrite E. cbn [List.filter]. rewrite Hk.
        cbn [List.filter] in E. rewrite E. reflexivity.
      * cbn [List.filter]. rewrite Hk, app_nil_r. reflexivity.
    + cbn [List.filter]. rewrite IH. destruct (tied k y); reflexivity.
Qed.

Lemma fold_insert_spec l : forall acc,
  StronglySorted le_key acc ->
  let r := fold_left (fun acc x => Py.insert lt key x acc) l acc in
  StronglySorted le_key r /\ Permutation r (acc ++ l) /\
  forall k, List.filter (tied k) r = List.filter (tied k) acc ++ List.filter (tied k) l.
Proof using lt_irrefl lt_trans lt_neg_trans.
  induction l as [|x l IH]; intros acc Hacc; simpl.
  - rewrite app_nil_r. split; [assumption|]. split; [reflexivity|].
    intros k. rewrite app_nil_r. reflexivity.
  - destruct (IH _ (insert_sorted x acc Hacc)) as (Hs & Hp & Hf).
    split; [exact Hs|]. split.
    + rewrite Hp, insert_perm. apply Permutation_middle.
    + intros k. rewrite Hf, filter_insert by assumption.
      rewrite <- app_assoc. destruct (tied k x); reflexivity.
Qed.

Lemma list_sort_spec l :
  StronglySorted le_key (Py.list_sort lt key l) /\
  Permutation (Py.list_sort lt key l) l /\
  forall k, List.filter (tied k) (Py.list_sort lt key l) = List.filter (tied k) l.
Proof using lt_irrefl lt_trans lt_neg_trans.
  exact (fold_insert_spec l [] (SSorted_nil _)).
Qed.

Lemma filter_rev' (p : A -> bool) l : List.filter p (rev l) = rev (List.filter p l).
Proof.
  induction l as [|x l IH]; simpl; [reflexivity|].
  rewrite List.filter_app, IH. simpl. destruct (p x); simpl.
  - reflexivity.
  - rewrite app_nil_r. reflexivity.
Qed.

Lemma StronglySorted_app_inv (R : A -> A -> Prop) l1 l2 :
  StronglySorted R (l1 ++ l2) ->
  StronglySorted R l1 /\ StronglySorted R l2 /\
  Forall (fun x => Forall (R x) l2) l1.
Proof.
  induction l1 as [|x l1 IH]; simpl; intros H.
  - repeat constructor. assumption.
  - apply StronglySorted_inv in H as [H Hx].
    destruct (IH H) as (H1 & H2 & H3). apply List.Forall_app in Hx as [Hx1 Hx2].
    repeat constructor; assumption.
Qed.

Lemma StronglySorted_rev l :
  StronglySorted le_key l -> StronglySorted ge_key (rev l).
Proof.
  induction 1 as [|x l Hl IH Hx]; simpl; [constructor|].
  assert (Hgoal : forall l', StronglySorted ge_key l' ->
            Forall (fun z => ge_key z x) l' -> StronglySorted ge_key (l' ++ [x])).
  { induction 1 as [|z l' Hl' IH' Hz]; simpl; intros Hall.
    - repeat constructor.
    - apply List.Forall_cons_iff in Hall as [Hzx Hall].
      constructor; [apply IH'; assumption|].
      apply List.Forall_app. split; [assumption|]. repeat constructor. exact Hzx. }
  apply Hgoal; [exact IH|].
  apply List.Forall_rev. eapply List.Forall_impl; [|exact Hx]. intros z Hz. exact Hz.
Qed.

(** [sorted(l, key=key, reverse=True)] is a descending, stable
    rearrangement of [l]. *)
Lemma sorted_reverse_spec l :
  StronglySorted ge_key (Py.sorted lt key true l) /\
  Permutation (Py.sorted lt key true l) l /\
  forall k, List.filter (tied k) (Py.sorted lt key true l) = List.filter (tied k) l.
Proof using lt_irrefl lt_trans lt_neg_trans.
  unfold Py.sorted. destruct (list_sort_spec (rev l)) as (Hs & Hp & Hf).
  split; [apply StronglySorted_rev; exact Hs|]. split.
  - rewrite <- Permutation_rev, Hp. symmetry. apply Permutation_rev.
  - intros k. rewrite filter_rev', Hf, filter_rev', rev_involutive. reflexivity.
Qed.

End SortedFacts.

(** [sorted] on decorated pairs is [sorted] on the items themselves. *)
Section SortedMap.
Context {A B K : Type}.
Variable lt : K -> K -> bool.
Variable keyA : A -> K.
Variable keyB : B -> K.
Variable f : A -> B.
Hypothesis key_f : forall x, keyB (f x) = keyA x.

Lemma insert_map x l :
  Py.insert lt keyB (f x) (map f l) = map f (Py.insert lt keyA x l).
Proof using key_f.
  induction l as [|y l IH]; simpl; [reflexivity|].
  rewrite !key_f. destruct (lt (keyA x) (keyA y)); simpl; [reflexivity|].
  rewrite IH. reflexivity.
Qed.

Lemma list_sort_map l :
  Py.list_sort lt keyB (map f l) = map f (Py.list_sort lt keyA l).
Proof using key_f.
  unfold Py.list_sort. change (@nil B) with (map f []).
  generalize (@nil A). induction l as [|x l IH]; intros acc; simpl; [reflexivity|].
  rewrite insert_map. apply IH.
Qed.

Lemma sorted_map rv l :
  Py.sorted lt keyB rv (map f l) = map f (Py.sorted lt keyA rv l).
Proof using key_f.
  unfold Py.sorted. destruct rv.
  - rewrite <- map_rev, list_sort_map, map_rev. reflexivity.
  - apply list_sort_map.
Qed.
End SortedMap.

Lemma filter_head_split {A} (p : A -> bool) (l : list A) b t :
  List.filter p l = b :: t ->
  exists pre post, l = pre ++ b :: post /\
    Forall (fun x => p x = false) pre /\ List.filter p post = t.
Proof.
  induction l as [|x l IH]; simpl; [discriminate|].
  destruct (p x) eqn:Hx.
  - intros [= -> <-]. exists [], l. repeat split. constructor.
  - intros H. destruct (IH H) as (pre & post & -> & Hpre & Hpost).
    exists (x :: pre), post. repeat split; [constructor; assumption|assumption].
Qed.

(** ** NAIP notebook: the ranking by overlap *)

Section OverlapFacts.
Context {Item Geometry Float : Type}.
Variable geometry : Item -> Geometry.
Variable intersection_area : Geometry -> Geometry -> Float.
Variable area : Geometry -> Float.
Variable fdiv : Float -> Float -> Float.
Variable fzero : Float -> bool.
Variable flt : Float -> Float -> bool.
Variable area_of_interest : Geometry.

Hypothesis flt_irrefl : forall x, flt x x = false.
Hypothesis flt_trans :
  forall x y z, flt x y = true -> flt y z = true -> flt x z = true.
Hypothesis flt_neg_trans :
  forall x y z, flt x y = false -> flt y z = false -> flt x z = false.

(** The area of interest is not degenerate. *)
Hypothesis target_nonzero : fzero (Naip.target_area area area_of_interest) = false.

Local Abbreviation ratio :=
  (Naip.ratio geometry intersection_area area fdiv area_of_interest).
Local Abbreviation sorted_by_overlap :=
  (Naip.sorted_by_overlap geometry intersection_area area fdiv fzero flt
     area_of_interest).
Local Abbreviation most_overlap :=
  (Naip.most_overlap geometry intersection_area area fdiv fzero flt
     area_of_interest).

Lemma decorate_ok items :
  Naip.decorate geometry intersection_area area fdiv fzero area_of_interest items
  = inr (map (fun it => (ratio it, it)) items).
Proof using target_nonzero.
  induction items as [|it items IH]; simpl; [reflexivity|].
  unfold Naip.area_of_overlap. rewrite target_nonzero, IH. reflexivity.
Qed.

Lemma sorted_by_overlap_eq items :
  sorted_by_overlap items = inr (Py.sorted flt ratio true items).
Proof using target_nonzero.
  unfold Naip.sorted_by_overlap, Naip.rank. rewrite decorate_ok.
  rewrite (sorted_map flt ratio fst (fun it => (ratio it, it))) by reflexivity.
  rewrite map_map. simpl. rewrite map_id. reflexivity.
Qed.

(** C5.  For a fixed area of interest of non-zero area and any list of
    candidate items, [sorted(items, key=area_of_overlap, reverse=True)]
    returns a rearrangement of the candidates in descending order of
    overlap ratio; its first element has maximal overlap; candidates with
    tied ratios keep their relative input order; and [...[0]] is the first
    candidate, in input order, among those of maximal overlap. *)
Theorem overlap_ranking_stable (items : list Item) :
  exists ranked,
    sorted_by_overlap items = inr ranked /\
    Permutation ranked items /\
    StronglySorted (fun a b => flt (ratio a) (ratio b) = false) ranked /\
    (forall best rest, ranked = best :: rest ->
       Forall (fun it => flt (ratio best) (ratio it) = false) items) /\
    (forall k,
       List.filter (fun it => negb (flt k (ratio it)) && negb (flt (ratio it) k)) ranked
       = List.filter (fun it => negb (flt k (ratio it)) && negb (flt (ratio it) k)) items) /\
    (items <> [] ->
       exists best pre post,
         most_overlap items = inr best /\
         items = pre ++ best :: post /\
         Forall (fun it => flt (ratio it) (ratio best) = true) pre /\
         Forall (fun it => flt (ratio best) (ratio it) = false) post).
Proof using flt_irrefl flt_trans flt_neg_trans target_nonzero.
  destruct (sorted_reverse_spec flt ratio flt_irrefl flt_trans flt_neg_trans items)
    as (Hs & Hp & Hf).
  set (ranked := Py.sorted flt ratio true items) in *.
  assert (Hmax : forall best rest, ranked = best :: rest ->
            Forall (fun it => flt (ratio best) (ratio it) = false) items).
  { intros best rest E. rewrite E in Hs, Hp.
    apply StronglySorted_inv in Hs as [_ Hbest].
    eapply Permutation_Forall; [exact Hp|].
    constructor; [apply flt_irrefl|exact Hbest]. }
  exists ranked. split; [apply sorted_by_overlap_eq|].
  split; [exact Hp|]. split; [exact Hs|]. split; [exact Hmax|].
  split; [exact Hf|].
  intros Hne. destruct ranked as [|best rest] eqn:E.
  { apply Permutation_nil in Hp. congruence. }
  specialize (Hmax best rest eq_refl). specialize (Hf (ratio best)).
  unfold Py.tied in Hf. cbn [List.filter] in Hf.
  rewrite flt_irrefl in Hf. cbn [negb andb] in Hf. symmetry in Hf.
  destruct (filter_head_split _ _ _ _ Hf) as (pre & post & Hitems & Hpre & _).
  exists best, pre, post. split.
  { unfold Naip.most_overlap. rewrite sorted_by_overlap_eq.
    fold ranked. rewrite E. reflexivity. }
  split; [exact Hitems|]. rewrite Hitems in Hmax.
  apply List.Forall_app in Hmax as [Hmpre Hmpost].
  apply List.Forall_cons_iff in Hmpost as [_ Hmpost]. split; [|exact Hmpost].
  apply List.Forall_forall. intros x Hx.
  pose proof (proj1 (List.Forall_forall _ _) Hpre x Hx) as H1.
  pose proof (proj1 (List.Forall_forall _ _) Hmpre x Hx) as H2.
  cbv beta in H1, H2. rewrite H2 in H1. cbn [negb andb] in H1.
  apply negb_false_iff in H1. exact H1.
Qed.

End OverlapFacts.

(** ** FIA notebook: the per-county summary *)

Section FiaFacts.
Import Fia.






Lemma add_row_lookup acc r k :
  add_row acc r !! k =
  if decide ((STATECD r, COUNTYCD r) = k)
  then Some (((default (0%Q, 0%Q) (acc !! k)).1 + d_bio r)%Q,
             ((default (0%Q, 0%Q) (acc !! k)).2 + d_carbon r)%Q)
  else acc !! k.
Proof.
  unfold add_row. rewrite lookup_insert. destruct (decide _) as [<-|]; reflexivity.
Qed.

(** The accumulators after a pass over [rows], started from [acc]. *)
Lemma fold_add_row rows : forall acc k,
  let m := fold_left add_row rows acc in
  ((default (0%Q, 0%Q) (m !! k)).1
   == (default (0%Q, 0%Q) (acc !! k)).1 + group_total d_bio rows k)%Q /\
  ((default (0%Q, 0%Q) (m !! k)).2
   == (default (0%Q, 0%Q) (acc !! k)).2 + group_total d_carbon rows k)%Q /\
  (is_Some (m !! k) <->
   is_Some (acc !! k) \/ exists r, In r rows /\ (STATECD r, COUNTYCD r) = k).
Proof.
  induction rows as [|r rows IH]; intros acc k; cbn zeta.
  - unfold group_total. simpl. rewrite !Qplus_0_r.
    split; [reflexivity|]. split; [reflexivity|].
    split; [auto|]. intros [H|(r & [] & _)]. exact H.
  - simpl fold_left. destruct (IH (add_row acc r) k) as (Hb & Hc & Hd).
    cbn zeta in Hb, Hc, Hd. rewrite Hb, Hc, Hd, add_row_lookup.
    unfold group_total. simpl map. simpl Qsum.
    destruct (decide ((STATECD r, COUNTYCD r) = k)) as [Hk|Hk]; simpl.
    + split; [rewrite Qplus_assoc; reflexivity|].
      split; [rewrite Qplus_assoc; reflexivity|].
      split; [intros _; right; exists r; auto|]. intros _. left. eauto.
    + split; [rewrite Qplus_0_l; reflexivity|].
      split; [rewrite Qplus_0_l; reflexivity|].
      split.
      * intros [H|(r' & Hr' & Hk')]; [left; exact H|].
        right. exists r'. auto.
      * intros [H|(r' & [->|Hr'] & Hk')]; [left; exact H|contradiction|].
        right. exists r'. auto.
Qed.


Lemma groupby_sum_present rows r :
  In r rows -> is_Some (groupby_sum rows !! (STATECD r, COUNTYCD r)).
Proof.
  intros Hr. destruct (fold_add_row rows ∅ (STATECD r, COUNTYCD r)) as (_ & _ & Hd).
  apply Hd. right. exists r. auto.
Qed.



Lemma df_present stored_tree stored_plot s c :
  county_present stored_tree stored_plot s c ->
  exists r, In r (df stored_tree stored_plot) /\ (STATECD r, COUNTYCD r) = (s, c).
Proof.
  intros (t & p & Ht & Hp & Hcond & Hkey & <- & <-).
  exists {| d_row := {| m_tree := t;
                        m_plot := {| pk_row := p; pk_PLT_CN := p_CN p |} |};
            d_bio := (t_DRYBIO_AG t * t_TPA_UNADJ t / 2000)%Q;
            d_carbon := (t_CARBON_AG t * t_TPA_UNADJ t / 2000)%Q |}.
  split; [|reflexivity].
  unfold df, assign_bio_carbon, merge, read_tree, assign_PLT_CN.
  apply in_map_iff.
  exists {| m_tree := t; m_plot := {| pk_row := p; pk_PLT_CN := p_CN p |} |}.
  split; [reflexivity|].
  apply in_flat_map. exists t. split.
  - apply List.filter_In. split; [exact Ht|]. apply Z.eqb_eq. exact Hcond.
  - apply in_map_iff. exists {| pk_row := p; pk_PLT_CN := p_CN p |}.
    split; [reflexivity|].
    apply List.filter_In. split.
    + apply in_map_iff. exists p. auto.
    + apply Z.eqb_eq. exact Hkey.
Qed.

(** Every county that occurs among the joined rows has a row in
    [result]. *)
Lemma county_summary_complete stored_tree stored_plot s c :
  county_present stored_tree stored_plot s c ->
  exists r, In r (result stored_tree stored_plot) /\
    STATE r = str_pad 2 "0" (astype_string s) /\
    COUNTY r = str_pad 3 "0" (astype_string c).
Proof.
  intros Hp. destruct (df_present _ _ _ _ Hp) as (r0 & Hr0 & Hk).
  pose proof (groupby_sum_present _ _ Hr0) as [[b cb] Hlook]. rewrite Hk in Hlook.
  exists {| bio := b; carbon := cb; STATE := str_pad 2 "0" (astype_string s);
            COUNTY := str_pad 3 "0" (astype_string c) |}.
  split; [|split; reflexivity].
  unfold result, drop_codes, assign_STATE_COUNTY, reset_index.
  rewrite !map_map. apply in_map_iff. exists ((s, c), (b, cb)). split; [reflexivity|].
  apply list_elem_of_In, elem_of_map_to_list. exact Hlook.
Qed.



End FiaFacts.


(** ** Radiant MLHub notebook: the session *)

Section MLHubFacts.
Import MLHub.



Lemma endswith_cons a s t :
  endswith (String a s) t = String.eqb (String a s) t || endswith s t.
Proof. reflexivity. Qed.





Lemma merge_setting_key (kw : Kwargs) (api_key : option string) :
  keeps_key kw ->
  merge_setting (kw_params kw) (params (MLHubSession_init api_key)) !! "key"%string
  = api_key.
Proof.
  unfold keeps_key, merge_setting, MLHubSession_init, Session_init. cbn [params].
  destruct (kw_params kw) as [r|]; intros Hk; rewrite lookup_omap.
  - rewrite lookup_union_r by exact Hk.
    rewrite lookup_union_l', lookup_singleton_eq; [destruct api_key; reflexivity|].
    rewrite lookup_singleton_eq. eauto.
  - rewrite lookup_union_l', lookup_singleton_eq; [destruct api_key; reflexivity|].
    rewrite lookup_singleton_eq. eauto.
Qed.


End MLHubFacts.

(** ** Footprint browser notebook: what [browse] changes *)

Section BrowseFacts.
Import Browser.
Context {Coord GeoJSON Item : Type}.
Variable centroid_coords : Item -> Py.exn + list (list Coord).
Variable geometry : Item -> GeoJSON.
Variable id : Item -> string.
Variable datetime_isoformat : Item -> Py.exn + string.
Variable layer : LayerId.

Local Abbreviation browse :=
  (Browser.browse centroid_coords geometry id datetime_isoformat layer).

(** Whatever happens in [browse], also when it raises, the zoom level, the
    list of layers and the layout of the map are left alone, no layer is
    added or removed, and no layer other than [layer] is touched. *)
Lemma browse_frame (item : Item) (nb : Notebook (Coord := Coord) (GeoJSON := GeoJSON)) :
  let nb' := (browse item nb).2 in
  zoom (m nb') = zoom (m nb) /\
  layers (m nb') = layers (m nb) /\
  layout_width (m nb') = layout_width (m nb) /\
  dom (objects nb') = dom (objects nb) /\
  (forall l, l <> layer -> objects nb' !! l = objects nb !! l) /\
  kind <$> (objects nb' !! layer) = kind <$> (objects nb !! layer).
Proof.
  unfold Browser.browse, mbind, cell_bind, Cell.bind, Cell.lift.
  destruct (centroid_coords item) as [e|coords]; cbn.
  { repeat split; reflexivity. }
  destruct coords as [|c0 coords]; cbn.
  { repeat split; reflexivity. }
  assert (Hgoal :
    dom (alter (fun o : Layer => {| kind := kind o; data := Some (geometry item) |})
           layer (objects nb)) = dom (objects nb) /\
    (forall l, l <> layer ->
       alter (fun o : Layer => {| kind := kind o; data := Some (geometry item) |})
         layer (objects nb) !! l = objects nb !! l) /\
    kind <$> (alter (fun o : Layer => {| kind := kind o; data := Some (geometry item) |})
                layer (objects nb) !! layer) = kind <$> (objects nb !! layer)).
  { split; [apply dom_alter_L|]. split.
    - intros l Hl. apply lookup_alter_ne. congruence.
    - rewrite lookup_alter_eq. destruct (objects nb !! layer); reflexivity. }
  destruct (datetime_isoformat item) as [e|iso]; cbn;
    (split; [reflexivity|]); (split; [reflexivity|]); (split; [reflexivity|]);
    exact Hgoal.
Qed.

(** C10.  When the item has a centroid [(lon, lat)], [browse] sets the
    centre of the map to [(lat, lon)] and the [data] of the GeoJSON layer
    to the geometry of the item, and changes nothing else of the map
    display: the zoom level, the list of layers of the map, its layout,
    and every other layer are as before. *)
Theorem browse_sets_center_and_data
    (item : Item) (nb : Notebook (Coord := Coord) (GeoJSON := GeoJSON))
    (lon lat : Coord) (more : list (list Coord)) (lyr : Layer) :
  centroid_coords item = inr ([lon; lat] :: more) ->
  objects nb !! layer = Some lyr ->
  let nb' := (browse item nb).2 in
  m nb' = {| center := [lat; lon]; zoom := zoom (m nb);
             layers := layers (m nb); layout_width := layout_width (m nb) |} /\
  objects nb' = <[layer := {| kind := kind lyr; data := Some (geometry item) |}]>
                  (objects nb) /\
  zoom (m nb') = zoom (m nb) /\
  layers (m nb') = layers (m nb) /\
  dom (objects nb') = dom (objects nb) /\
  (forall l, l <> layer -> objects nb' !! l = objects nb !! l).
Proof.
  intros Hc Hl nb'.
  destruct (browse_frame item nb) as (Hz & Hls & _ & Hd & Ho & _).
  fold nb' in Hz, Hls, Hd, Ho.
  assert (Hm : m nb' = {| center := [lat; lon]; zoom := zoom (m nb);
             layers := layers (m nb); layout_width := layout_width (m nb) |} /\
     objects nb' = alter (fun o : Layer => {| kind := kind o; data := Some (geometry item) |})
                     layer (objects nb)).
  { subst nb'. unfold Browser.browse, mbind, cell_bind, Cell.bind, Cell.lift.
    rewrite Hc. cbn. destruct (datetime_isoformat item); cbn; split; reflexivity. }
  destruct Hm as [Hm Hobj].
  split; [exact Hm|]. split.
  { rewrite Hobj. apply map_eq. intros l.
    destruct (decide (l = layer)) as [->|Hne].
    - rewrite lookup_alter_eq, lookup_insert_eq, Hl. reflexivity.
    - rewrite lookup_alter_ne, lookup_insert_ne by congruence. reflexivity. }
  auto.
Qed.

End BrowseFacts.

(** ** Binary64 division

    The facts below are about [SFdiv] at precision 53: for two positive
    finite numbers whose quotient is in the normal range, the result is the
    exact quotient rounded to 53 bits, at most half a unit in the last
    place away from it. *)

Lemma digits2_pos_bounds p :
  2 ^ (Zpos (digits2_pos p) - 1) <= Zpos p < 2 ^ Zpos (digits2_pos p).
Proof.
  induction p as [p IH|p IH|]; cbn [digits2_pos].
  - rewrite Pos2Z.inj_succ.
    replace (Z.succ (Zpos (digits2_pos p)) - 1) with (Z.succ (Zpos (digits2_pos p) - 1)) by lia.
    rewrite !Z.pow_succ_r by lia. lia.
  - rewrite Pos2Z.inj_succ.
    replace (Z.succ (Zpos (digits2_pos p)) - 1) with (Z.succ (Zpos (digits2_pos p) - 1)) by lia.
    rewrite !Z.pow_succ_r by lia. lia.
  - simpl. lia.
Qed.

Lemma digits2_pos_unique p d :
  2 ^ (d - 1) <= Zpos p < 2 ^ d -> Zpos (digits2_pos p) = d.
Proof.
  intros [Hlo Hhi]. pose proof (digits2_pos_bounds p) as [Blo Bhi].
  assert (0 < d).
  { destruct (Z_lt_le_dec 0 d); [assumption|].
    assert (2 ^ d <= 1).
    { destruct (Z.eq_dec d 0) as [->|]; [simpl; lia|].
      rewrite Z.pow_neg_r by lia. lia. }
    lia. }
  destruct (Z.lt_trichotomy (Zpos (digits2_pos p)) d) as [Hlt|[Heq|Hgt]]; [|exact Heq|].
  - assert (2 ^ Zpos (digits2_pos p) <= 2 ^ (d - 1)) by (apply Z.pow_le_mono_r; lia). lia.
  - assert (2 ^ d <= 2 ^ (Zpos (digits2_pos p) - 1)) by (apply Z.pow_le_mono_r; lia). lia.
Qed.

Lemma new_location_spec nb k :
  0 < nb -> 0 <= k < nb ->
  new_location nb k = if k =? 0 then loc_Exact else loc_Inexact (2 * k ?= nb).
Proof.
  intros Hnb Hk. unfold new_location, new_location_even, new_location_odd.
  destruct (Z.even nb) eqn:Hev.
  - destruct (k =? 0); reflexivity.
  - destruct (k =? 0); [reflexivity|]. f_equal.
    assert (Hodd : Z.odd nb = true) by (rewrite <- Z.negb_even, Hev; reflexivity).
    apply Z.odd_spec in Hodd as [c Hc].
    destruct (Z.compare_spec (2 * k + 1) nb), (Z.compare_spec (2 * k) nb); 
      try reflexivity; lia.
Qed.

Lemma fexp64_normal e : -1074 <= e - 53 -> fexp 53 1024 e = e - 53.
Proof. unfold fexp, emin. lia. Qed.

(** Rounding a mantissa of 53 bits: no shift, only the carry to 2^53. *)
Lemma binary_round_aux_53 m e l :
  2 ^ 52 <= m < 2 ^ 53 -> -1074 <= e -> e + 1 <= 971 ->
  exists M t,
    binary_round_aux 53 1024 false m e l = S754_finite false M (e + t) /\
    (t = 0 \/ t = 1) /\ 2 ^ 52 <= Zpos M < 2 ^ 53 /\
    Zpos M * 2 ^ t = round_nearest_even m l.
Proof.
  intros Hm He Hemax.
  destruct m as [|pm|pm]; try lia.
  unfold binary_round_aux.
  assert (Hd : Zdigits2 (Zpos pm) = 53) by (apply digits2_pos_unique; lia).
  unfold shr_fexp at 1. rewrite Hd, fexp64_normal by lia.
  replace (53 + e - 53 - e) with 0 by lia. cbn [shr].
  assert (Hrec : shr_m (shr_record_of_loc (Zpos pm) l) = Zpos pm
                 /\ loc_of_shr_record (shr_record_of_loc (Zpos pm) l) = l).
  { destruct l as [|[]]; split; reflexivity. }
  destruct Hrec as [-> ->].
  set (m1 := round_nearest_even (Zpos pm) l).
  assert (Hm1 : m1 = Zpos pm \/ m1 = Zpos pm + 1).
  { unfold m1, round_nearest_even. destruct l as [|[]]; auto.
    destruct (Z.even (Zpos pm)); auto. }
  destruct (Z_lt_le_dec m1 (2 ^ 53)) as [Hlt|Hge].
  - destruct m1 as [|p1|p1] eqn:E1; try lia.
    assert (Hd1 : Zdigits2 (Zpos p1) = 53) by (apply digits2_pos_unique; lia).
    unfold shr_fexp. rewrite Hd1, fexp64_normal by lia.
    replace (53 + e - 53 - e) with 0 by lia. cbn [shr shr_record_of_loc shr_m].
    replace (e <=? 1024 - 53) with true by (symmetry; apply Z.leb_le; lia).
    exists p1, 0. rewrite Z.add_0_r. repeat split; lia.
  - assert (Em1 : m1 = 2 ^ 53) by lia.
    rewrite Em1. change (2 ^ 53) with 9007199254740992.
    unfold shr_fexp.
    replace (Zdigits2 9007199254740992) with 54 by reflexivity.
    rewrite fexp64_normal by lia.
    replace (54 + e - 53 - e) with 1 by lia.
    cbn [shr shr_record_of_loc SpecFloat.iter_pos shr_1 shr_m].
    replace (e + 1 <=? 1024 - 53) with true by (symmetry; apply Z.leb_le; lia).
    eexists _, 1. split; [reflexivity|]. split; [auto|]. split; [simpl; lia|].
    reflexivity.
Qed.

(** A mantissa of 54 bits is first shifted by one bit. *)
Lemma binary_round_aux_54 m e l :
  2 ^ 53 <= m < 2 ^ 54 -> -1074 <= e + 1 ->
  binary_round_aux 53 1024 false m e l
  = binary_round_aux 53 1024 false (m / 2) (e + 1)
      (loc_of_shr_record (shr_1 (shr_record_of_loc m l))).
Proof.
  intros Hm He.
  destruct m as [|pm|pm]; try lia.
  assert (Hd : Zdigits2 (Zpos pm) = 54) by (apply digits2_pos_unique; lia).
  assert (Hhalf : 2 ^ 52 <= Zpos pm / 2 < 2 ^ 53).
  { change (2 ^ 54) with (2 * 2 ^ 53) in Hm. change (2 ^ 53) with (2 * 2 ^ 52) in Hm.
    split; [apply Z.div_le_lower_bound; lia|apply Z.div_lt_upper_bound; lia]. }
  assert (Hd2 : Zdigits2 (Zpos pm / 2) = 53).
  { destruct (Zpos pm / 2) as [|ph|ph] eqn:E; try lia.
    apply digits2_pos_unique. lia. }
  unfold binary_round_aux.
  unfold shr_fexp at 1. rewrite Hd, fexp64_normal by lia.
  replace (54 + e - 53 - e) with 1 by lia. cbn [shr SpecFloat.iter_pos].
  unfold shr_fexp at 2. rewrite Hd2, fexp64_normal by lia.
  replace (53 + (e + 1) - 53 - (e + 1)) with 0 by lia. cbn [shr].
  set (rec1 := shr_1 (shr_record_of_loc (Zpos pm) l)).
  assert (Hm1 : shr_m rec1 = Zpos pm / 2).
  { unfold rec1. destruct pm as [p|p|]; [| |lia].
    - rewrite Pos2Z.inj_xI. replace ((2 * Zpos p + 1) / 2) with (Zpos p)
        by (apply Z.div_unique with 1; lia).
      destruct l as [|[]]; reflexivity.
    - rewrite Pos2Z.inj_xO. replace (2 * Zpos p / 2) with (Zpos p)
        by (apply Z.div_unique with 0; lia).
      destruct l as [|[]]; reflexivity. }
  assert (Hrec : shr_m (shr_record_of_loc (Zpos pm / 2) (loc_of_shr_record rec1))
                 = Zpos pm / 2
                 /\ loc_of_shr_record (shr_record_of_loc (Zpos pm / 2) (loc_of_shr_record rec1))
                    = loc_of_shr_record rec1).
  { destruct (loc_of_shr_record rec1) as [|[]]; split; reflexivity. }
  destruct Hrec as [-> ->]. rewrite Hm1. reflexivity.
Qed.

Lemma round_nearest_even_error n d m l :
  0 < d -> PyFloat.located n d m l ->
  - d <= 2 * (round_nearest_even m l * d - n) <= d.
Proof.
  intros Hd [Hn Hl]. unfold round_nearest_even. destruct l as [|c].
  - lia.
  - destruct Hl as [Hne ->].
    destruct (Z.compare_spec (2 * (n - m * d)) d); [destruct (Z.even m)| |]; lia.
Qed.

Ltac compare_facts :=
  repeat match goal with
  | H : Eq = (_ ?= _) |- _ => symmetry in H; apply Z.compare_eq_iff in H
  | H : Lt = (_ ?= _) |- _ => symmetry in H; apply Z.compare_lt_iff in H
  | H : Gt = (_ ?= _) |- _ => symmetry in H; apply Z.compare_gt_iff in H
  | |- Eq = (_ ?= _) => symmetry; apply Z.compare_eq_iff
  | |- Lt = (_ ?= _) => symmetry; apply Z.compare_lt_iff
  | |- Gt = (_ ?= _) => symmetry; apply Z.compare_gt_iff
  end.

Lemma located_shift n d m l :
  0 < d -> 0 <= m -> PyFloat.located n d m l ->
  PyFloat.located n (2 * d) (m / 2) (loc_of_shr_record (shr_1 (shr_record_of_loc m l))).
Proof.
  intros Hd Hm [Hn Hl]. unfold PyFloat.located.
  destruct m as [|[p|p|]|pm]; try lia.
  - change (0 / 2) with 0.
    destruct l as [|[| |]]; cbn [shr_record_of_loc shr_1 loc_of_shr_record orb];
      [|destruct Hl as [Hne Hl]..]; compare_facts;
      [lia|(split; [lia|]); (split; [lia|]); compare_facts; lia..].
  - assert (Hdiv : Z.pos p~1 / 2 = Zpos p).
    { symmetry. apply Z.div_unique with 1; lia. }
    rewrite Hdiv.
    destruct l as [|[| |]]; cbn [shr_record_of_loc shr_1 loc_of_shr_record orb];
      [|destruct Hl as [Hne Hl]..]; compare_facts;
      (split; [lia|]); (split; [lia|]); compare_facts; lia.
  - assert (Hdiv : Z.pos p~0 / 2 = Zpos p).
    { symmetry. apply Z.div_unique with 0; lia. }
    rewrite Hdiv.
    destruct l as [|[| |]]; cbn [shr_record_of_loc shr_1 loc_of_shr_record orb];
      [|destruct Hl as [Hne Hl]..]; compare_facts;
      [lia|(split; [lia|]); (split; [lia|]); compare_facts; lia..].
  - change (1 / 2) with 0.
    destruct l as [|[| |]]; cbn [shr_record_of_loc shr_1 loc_of_shr_record orb];
      [|destruct Hl as [Hne Hl]..]; compare_facts;
      (split; [lia|]); (split; [lia|]); compare_facts; lia.
Qed.

Lemma new_location_located n d q r :
  0 < d -> n = d * q + r -> 0 <= r < d ->
  PyFloat.located n d q (new_location d r).
Proof.
  intros Hd Hn Hr. rewrite new_location_spec by lia. unfold PyFloat.located.
  split; [lia|]. destruct (Z.eqb_spec r 0) as [->|Hne].
  - lia.
  - split; [lia|]. f_equal. lia.
Qed.

(** Division of two positive finite numbers whose quotient is in the
    normal range: the result is the quotient rounded to 53 bits, within
    half a unit in the last place. *)
Lemma SFdiv_finite_spec (m1 m2 : positive) (e1 e2 : Z) :
  let s := 53 + Zpos (digits2_pos m2) - Zpos (digits2_pos m1) in
  let e' := e1 - e2 - s in
  0 < s -> -1074 <= e' -> e' + 2 <= 971 ->
  exists M t,
    SFdiv 53 1024 (S754_finite false m1 e1) (S754_finite false m2 e2)
    = S754_finite false M (e' + t) /\
    0 <= t <= 2 /\ 2 ^ 52 <= Zpos M < 2 ^ 53 /\
    - (2 ^ t * Zpos m2)
    <= 2 * (Zpos M * 2 ^ t * Zpos m2 - Zpos m1 * 2 ^ s)
    <= 2 ^ t * Zpos m2.
Proof.
  intros s e' Hs He Hemax.
  pose proof (digits2_pos_bounds m1) as Hm1.
  pose proof (digits2_pos_bounds m2) as Hm2.
  set (d1 := Zpos (digits2_pos m1)) in *. set (d2 := Zpos (digits2_pos m2)) in *.
  unfold SFdiv, SFdiv_core_binary. cbn [xorb Zdigits2]. fold d1 d2.
  rewrite fexp64_normal by (unfold e', s in He; lia).
  replace (Z.min (d1 + e1 - (d2 + e2) - 53) (e1 - e2)) with e'
    by (unfold e', s; lia).
  replace (e1 - e2 - e') with s by (unfold e'; lia).
  assert (Hshift : match s with
                   | 0 => Zpos m1
                   | Zpos _ => Z.shiftl (Zpos m1) s
                   | Zneg _ => 0
                   end = Zpos m1 * 2 ^ s).
  { destruct s eqn:Es; try lia. rewrite Z.shiftl_mul_pow2 by lia. reflexivity. }
  rewrite Hshift. set (n := Zpos m1 * 2 ^ s).
  pose proof (Z_div_mod n (Zpos m2) ltac:(lia)) as Hdiv.
  destruct (Z.div_eucl n (Zpos m2)) as [q r]. destruct Hdiv as [Hn Hr].
  (* the size of the quotient *)
  assert (Hpow : 2 ^ (d1 - 1) * 2 ^ s = 2 ^ 53 * 2 ^ (d2 - 1)).
  { rewrite <- !Z.pow_add_r by (unfold d1, d2 in *; lia). f_equal. unfold s. lia. }
  assert (Hd1 : 2 ^ d1 = 2 * 2 ^ (d1 - 1)).
  { rewrite <- Z.pow_succ_r by (unfold d1; lia). f_equal. lia. }
  assert (Hd2 : 2 ^ d2 = 2 * 2 ^ (d2 - 1)).
  { rewrite <- Z.pow_succ_r by (unfold d2; lia). f_equal. lia. }
  assert (HS : 0 < 2 ^ s) by (apply Z.pow_pos_nonneg; lia).
  assert (HB : 0 < 2 ^ (d2 - 1)) by (apply Z.pow_pos_nonneg; unfold d2; lia).
  rewrite Hd1 in Hm1. rewrite Hd2 in Hm2.
  set (A := 2 ^ (d1 - 1)) in *. set (B := 2 ^ (d2 - 1)) in *. set (S := 2 ^ s) in *.
  change (2 ^ 53) with 9007199254740992 in Hpow.
  assert (Hn1 : 9007199254740992 * B <= n < 2 * 9007199254740992 * B).
  { unfold n. nia. }
  assert (Hq : 2 ^ 52 <= q < 2 ^ 54).
  { change (2 ^ 52) with 4503599627370496. change (2 ^ 54) with 18014398509481984.
    split; nia. }
  pose proof (new_location_located n (Zpos m2) q r ltac:(lia) Hn Hr) as Hloc.
  set (l := new_location (Zpos m2) r) in *.
  destruct (Z_lt_le_dec q (2 ^ 53)) as [Hq53|Hq54].
  - destruct (binary_round_aux_53 q e' l ltac:(lia) He ltac:(lia))
      as (M & t & -> & Ht & HM & Hround).
    pose proof (round_nearest_even_error n (Zpos m2) q l ltac:(lia) Hloc) as Herr.
    rewrite <- Hround in Herr.
    exists M, t. split; [reflexivity|]. split; [lia|]. split; [exact HM|].
    destruct Ht as [-> | ->]; [change (2 ^ 0) with 1 in *|change (2 ^ 1) with 2 in *];
      fold n; lia.
  - rewrite binary_round_aux_54 by lia.
    pose proof (located_shift n (Zpos m2) q l ltac:(lia) ltac:(lia) Hloc) as Hloc2.
    set (l2 := loc_of_shr_record (shr_1 (shr_record_of_loc q l))) in *.
    assert (Hhalf : 2 ^ 52 <= q / 2 < 2 ^ 53).
    { change (2 ^ 54) with (2 * 2 ^ 53) in Hq. change (2 ^ 53) with (2 * 2 ^ 52) in Hq54.
      change (2 ^ 53) with (2 * 2 ^ 52).
      split; [apply Z.div_le_lower_bound; lia|apply Z.div_lt_upper_bound; lia]. }
    destruct (binary_round_aux_53 (q / 2) (e' + 1) l2 Hhalf ltac:(lia) ltac:(lia))
      as (M & t & -> & Ht & HM & Hround).
    pose proof (round_nearest_even_error n (2 * Zpos m2) (q / 2) l2 ltac:(lia) Hloc2)
      as Herr.
    rewrite <- Hround in Herr.
    exists M, (1 + t). split; [f_equal; lia|]. split; [lia|]. split; [exact HM|].
    destruct Ht as [-> | ->]; [change (2 ^ (1 + 0)) with 2|change (2 ^ (1 + 1)) with 4];
      [change (2 ^ 0) with 1 in *|change (2 ^ 1) with 2 in *]; fold n; lia.
Qed.

Lemma target_height_spec (w h : Z) :
  0 < w < 2 ^ 31 -> 0 < h < 2 ^ 31 ->
  exists th, NaipImage.target_height w h = inr th /\ th * w <= 800 * h <= (th + 1) * w.
Proof.
  intros Hw Hh. destruct w as [|pw|pw], h as [|ph|ph]; try lia.
  unfold NaipImage.target_height, NaipImage.target_w, PyFloat.int_truediv,
    PyFloat.finite_or_overflow, PyFloat.prec, PyFloat.emax.
  (* the digits of w and h *)
  pose proof (digits2_pos_bounds pw) as Bw. pose proof (digits2_pos_bounds ph) as Bh.
  assert (Hdw : 1 <= Zpos (digits2_pos pw) <= 31).
  { split; [lia|]. destruct (Z_lt_le_dec 31 (Zpos (digits2_pos pw))); [|lia].
    assert (2 ^ 31 <= 2 ^ (Zpos (digits2_pos pw) - 1)) by (apply Z.pow_le_mono_r; lia). lia. }
  assert (Hdh : 1 <= Zpos (digits2_pos ph) <= 31).
  { split; [lia|]. destruct (Z_lt_le_dec 31 (Zpos (digits2_pos ph))); [|lia].
    assert (2 ^ 31 <= 2 ^ (Zpos (digits2_pos ph) - 1)) by (apply Z.pow_le_mono_r; lia). lia. }
  destruct (SFdiv_finite_spec pw ph 0 0 ltac:(lia) ltac:(lia) ltac:(lia))
    as (M1 & t1 & -> & Ht1 & HM1 & Herr1).
  set (s1 := 53 + Zpos (digits2_pos ph) - Zpos (digits2_pos pw)) in *.
  unfold PyFloat.truediv, PyFloat.is_zero, PyFloat.prec, PyFloat.emax.
  change (PyFloat.of_int 800) with (S754_finite false 7036874417766400 (-43)).
  assert (HdM1 : Zpos (digits2_pos M1) = 53) by (apply digits2_pos_unique; lia).
  pose proof (SFdiv_finite_spec 7036874417766400 M1 (-43) (0 - 0 - s1 + t1)) as Hdiv2.
  rewrite HdM1 in Hdiv2. change (Zpos (digits2_pos 7036874417766400)) with 53 in Hdiv2.
  cbn zeta in Hdiv2. replace (53 + 53 - 53) with 53 in Hdiv2 by lia.
  destruct (Hdiv2 ltac:(lia) ltac:(lia) ltac:(lia)) as (M2 & t2 & -> & Ht2 & HM2 & Herr2).
  clear Hdiv2. unfold PyFloat.to_int.
  remember (-43 - (0 - 0 - s1 + t1) - 53 + t2) as E2 eqn:HE2.
  set (k := 96 - s1 + t1 - t2).
  assert (Hk : 11 <= k) by (unfold k; lia).
  assert (HE2k : E2 = - k) by (unfold k; lia).
  destruct E2 as [|pe|pe]; try lia.
  rewrite Z.shiftr_div_pow2 by lia. rewrite HE2k, Z.opp_involutive.
  eexists. split; [reflexivity|].
  set (th := Zpos M2 / 2 ^ k).
  assert (HD : 0 < 2 ^ k) by (apply Z.pow_pos_nonneg; lia).
  assert (HP : 0 < 2 ^ s1) by (apply Z.pow_pos_nonneg; unfold s1; lia).
  assert (Hth : th * 2 ^ k <= Zpos M2 < (th + 1) * 2 ^ k).
  { unfold th. pose proof (Z.div_mod (Zpos M2) (2 ^ k) ltac:(lia)).
    pose proof (Z.mod_pos_bound (Zpos M2) (2 ^ k) HD). nia. }
  assert (Hth0 : 0 <= th) by (apply Z.div_pos; lia).
  assert (Hprod : 2 ^ k * 2 ^ s1 * 2 ^ t2 = 2 ^ 96 * 2 ^ t1).
  { rewrite <- !Z.pow_add_r by (unfold s1; lia). f_equal. unfold k. lia. }
  clearbody th. clear HE2 HE2k pe HdM1 Bw Bh Hdw Hdh.
  change (7036874417766400 * 2 ^ 53) with (800 * 2 ^ 96) in Herr2.
  set (G := 2 ^ 96) in *. assert (HG : G = 79228162514264337593543950336) by reflexivity.
  change (2 ^ 52) with 4503599627370496 in *.
  change (2 ^ 53) with 9007199254740992 in *.
  change (2 ^ 31) with 2147483648 in *.
  set (W := Zpos pw) in *. set (H := Zpos ph) in *.
  set (m1 := Zpos M1) in *. set (m2 := Zpos M2) in *.
  set (P := 2 ^ s1) in *. set (D := 2 ^ k) in *.
  assert (HT1 : 2 ^ t1 = 1 \/ 2 ^ t1 = 2 \/ 2 ^ t1 = 4).
  { assert (t1 = 0 \/ t1 = 1 \/ t1 = 2) as [ -> | [ -> | -> ] ] by lia; auto. }
  assert (HT2 : 2 ^ t2 = 1 \/ 2 ^ t2 = 2 \/ 2 ^ t2 = 4).
  { assert (t2 = 0 \/ t2 = 1 \/ t2 = 2) as [ -> | [ -> | -> ] ] by lia; auto. }
  set (T1 := 2 ^ t1) in *. set (T2 := 2 ^ t2) in *.
  clearbody W H m1 m2 P D T1 T2 G. clear s1 k Hk t1 t2 Ht1 Ht2 pw ph M1 M2.
  assert (HT1p : 1 <= T1 <= 4) by lia. assert (HT2p : 1 <= T2 <= 4) by lia.
  (* scale the bracket of th by T2 * P *)
  assert (HPT : 0 <= P * T2) by (apply Z.mul_nonneg_nonneg; lia).
  assert (HGT : 0 <= G * T1) by (apply Z.mul_nonneg_nonneg; lia).
  assert (Hlo : th * (G * T1) <= m2 * T2 * P).
  { pose proof (Z.mul_le_mono_nonneg_r _ _ _ HPT (proj1 Hth)) as X.
    replace (th * D * (P * T2)) with (th * (D * P * T2)) in X by ring.
    rewrite Hprod in X. replace (m2 * (P * T2)) with (m2 * T2 * P) in X by ring.
    exact X. }
  assert (Hhi : m2 * T2 * P < (th + 1) * (G * T1)).
  { destruct Hth as [_ Hth2].
    pose proof (proj1 (Z.mul_lt_mono_pos_r (P * T2) m2 ((th + 1) * D)
                  ltac:(apply Z.mul_pos_pos; lia)) Hth2) as X.
    replace ((th + 1) * D * (P * T2)) with ((th + 1) * (D * P * T2)) in X by ring.
    rewrite Hprod in X. replace (m2 * (P * T2)) with (m2 * T2 * P) in X by ring.
    exact X. }
  assert (Hm2T : 0 <= m2 * T2) by (apply Z.mul_nonneg_nonneg; lia).
  assert (S5 : H * T2 * (m1 + m2) < 2 * G).
  { assert (H * T2 <= 2147483648 * 4) by (apply Z.mul_le_mono_nonneg; lia).
    assert (0 <= H * T2) by (apply Z.mul_nonneg_nonneg; lia).
    assert (H * T2 * (m1 + m2) <= 2147483648 * 4 * (2 * 9007199254740992))
      by (apply Z.mul_le_mono_nonneg; lia).
    lia. }
  (* the two error bounds, cleared of subtraction *)
  assert (E1u : 2 * (W * P) <= T1 * H * (2 * m1 + 1)).
  { destruct Herr1 as [X _]. 
    replace (T1 * H * (2 * m1 + 1)) with (2 * (m1 * T1 * H) + T1 * H) by ring. lia. }
  assert (E1l : T1 * H * (2 * m1 - 1) <= 2 * (W * P)).
  { destruct Herr1 as [_ X]. 
    replace (T1 * H * (2 * m1 - 1)) with (2 * (m1 * T1 * H) - T1 * H) by ring. lia. }
  assert (E2u : 2 * (m2 * T2 * m1) <= 1600 * G + T2 * m1) by lia.
  assert (E2l : 1600 * G - T2 * m1 <= 2 * (m2 * T2 * m1)) by lia.
  split.
  - destruct (Z_le_gt_dec (th * W) (800 * H)) as [|Hc]; [assumption|exfalso].
    assert (S1 : (800 * H + 1) * (G * T1) <= m2 * T2 * P * W).
    { pose proof (Z.mul_le_mono_nonneg_r (800 * H + 1) (th * W) (G * T1) HGT ltac:(lia)) as X.
      pose proof (Z.mul_le_mono_nonneg_r _ _ W ltac:(lia) Hlo) as Y.
      replace (th * (G * T1) * W) with (th * W * (G * T1)) in Y by ring. lia. }
    assert (S2 : 2 * (m2 * T2 * P * W) <= m2 * T2 * (T1 * H * (2 * m1 + 1))).
    { pose proof (Z.mul_le_mono_nonneg_l _ _ (m2 * T2) Hm2T E1u) as X.
      replace (m2 * T2 * (2 * (W * P))) with (2 * (m2 * T2 * P * W)) in X by ring.
      exact X. }
    assert (S3 : 2 * (800 * H + 1) * G <= m2 * T2 * H * (2 * m1 + 1)).
    { apply (Z.mul_le_mono_pos_r _ _ T1 ltac:(lia)).
      replace (2 * (800 * H + 1) * G * T1) with (2 * ((800 * H + 1) * (G * T1))) by ring.
      replace (m2 * T2 * H * (2 * m1 + 1) * T1)
        with (m2 * T2 * (T1 * H * (2 * m1 + 1))) by ring.
      lia. }
    assert (S4 : m2 * T2 * H * (2 * m1 + 1) <= H * (1600 * G + T2 * m1) + H * m2 * T2).
    { pose proof (Z.mul_le_mono_nonneg_l _ _ H ltac:(lia) E2u) as X.
      replace (m2 * T2 * H * (2 * m1 + 1))
        with (H * (2 * (m2 * T2 * m1)) + H * m2 * T2) by ring.
      lia. }
    replace (H * T2 * (m1 + m2)) with (H * (T2 * m1) + H * m2 * T2) in S5 by ring.
    replace (H * (1600 * G + T2 * m1)) with (1600 * (H * G) + H * (T2 * m1)) in S4 by ring.
    replace (2 * (800 * H + 1) * G) with (1600 * (H * G) + 2 * G) in S3 by ring.
    lia.
  - destruct (Z_le_gt_dec (800 * H) ((th + 1) * W)) as [|Hc]; [assumption|exfalso].
    assert (S1 : m2 * T2 * P * W <= (800 * H - 1) * (G * T1)).
    { pose proof (Z.mul_le_mono_nonneg_r ((th + 1) * W) (800 * H - 1) (G * T1) HGT ltac:(lia)) as X.
      pose proof (Z.mul_le_mono_nonneg_r _ _ W ltac:(lia) (Z.lt_le_incl _ _ Hhi)) as Y.
      replace ((th + 1) * (G * T1) * W) with ((th + 1) * W * (G * T1)) in Y by ring. lia. }
    assert (S2 : m2 * T2 * (T1 * H * (2 * m1 - 1)) <= 2 * (m2 * T2 * P * W)).
    { pose proof (Z.mul_le_mono_nonneg_l _ _ (m2 * T2) Hm2T E1l) as X.
      replace (m2 * T2 * (2 * (W * P))) with (2 * (m2 * T2 * P * W)) in X by ring.
      exact X. }
    assert (S3 : m2 * T2 * H * (2 * m1 - 1) <= 2 * (800 * H - 1) * G).
    { apply (Z.mul_le_mono_pos_r _ _ T1 ltac:(lia)).
      replace (2 * (800 * H - 1) * G * T1) with (2 * ((800 * H - 1) * (G * T1))) by ring.
      replace (m2 * T2 * H * (2 * m1 - 1) * T1)
        with (m2 * T2 * (T1 * H * (2 * m1 - 1))) by ring.
      lia. }
    assert (S4 : H * (1600 * G - T2 * m1) - H * m2 * T2 <= m2 * T2 * H * (2 * m1 - 1)).
    { pose proof (Z.mul_le_mono_nonneg_l _ _ H ltac:(lia) E2l) as X.
      replace (m2 * T2 * H * (2 * m1 - 1))
        with (H * (2 * (m2 * T2 * m1)) - H * m2 * T2) by ring.
      lia. }
    replace (H * T2 * (m1 + m2)) with (H * (T2 * m1) + H * m2 * T2) in S5 by ring.
    replace (H * (1600 * G - T2 * m1)) with (1600 * (H * G) - H * (T2 * m1)) in S4 by ring.
    replace (2 * (800 * H - 1) * G) with (1600 * (H * G) - 2 * G) in S3 by ring.
    lia.
Qed.

(** C7.  For a window of [w] by [h] pixels, both positive and below 2^31,
    [create_image] computes a target height [target_h = int(800 / (w / h))]
    that is within one pixel of the exact height [800 * h / w]: it never
    exceeds it and falls short of it by at most one pixel.  It is the
    integer part of the exact height, except that it can be one less than
    the exact height when that is an integer. *)
Theorem target_height_at_most_one_pixel (w h : Z) :
  0 < w < 2 ^ 31 -> 0 < h < 2 ^ 31 ->
  exists th,
    NaipImage.target_height w h = inr th /\
    NaipImage.at_most_one_pixel w h th /\
    th * w <= 800 * h <= (th + 1) * w /\
    (th = 800 * h / w \/ (th = 800 * h / w - 1 /\ (800 * h) mod w = 0)).
Proof.
  intros Hw Hh. destruct (target_height_spec w h Hw Hh) as (th & Hth & Hb).
  exists th. split; [exact Hth|]. split.
  { unfold NaipImage.at_most_one_pixel, NaipImage.target_w. lia. }
  split; [exact Hb|].
  destruct (Z.eq_dec (800 * h) ((th + 1) * w)) as [E|NE].
  - right. rewrite E. rewrite Z.div_mul, Z.mod_mul by lia. lia.
  - left. apply Z.div_unique with (800 * h - th * w); lia.
Qed.


(** ** NAIP notebook: [create_image] *)

Section CreateImageFacts.
Import NaipImage.
Context {Coord Pixel Affine Window GeoJSON : Type}.
Variable env : Env (Coord := Coord) (Pixel := Pixel) (Affine := Affine)
                   (Window := Window) (GeoJSON := GeoJSON).
Variable area_of_interest : GeoJSON.

Local Abbreviation create_image := (NaipImage.create_image env area_of_interest).
Local Abbreviation render := (NaipImage.render env).
Local Abbreviation fetch_calls := (NaipImage.fetch_calls area_of_interest).
Local Abbreviation Dataset := (NaipImage.Dataset (Affine := Affine)).
Local Abbreviation Bounds := (NaipImage.Bounds (Coord := Coord)).
Local Abbreviation ndarray := (NaipImage.ndarray (Pixel := Pixel)).
Local Abbreviation event :=
  (NaipImage.event (Coord := Coord) (Pixel := Pixel) (Affine := Affine)
     (Window := Window) (GeoJSON := GeoJSON)).

Lemma create_image_run item asset signed (ds : Dataset) (b wb : Bounds) win
    (band_data : ndarray) :
  assets item !! "image"%string = Some asset ->
  pc_sign env (href asset) = inr signed ->
  rasterio_open env signed = inr ds ->
  features_bounds env area_of_interest = inr b ->
  warp_transform_bounds env "epsg:4326" (ds_crs ds) b = inr wb ->
  windows_from_bounds env wb (ds_transform ds) = inr win ->
  ds_read env ds [1; 2; 3] win = inr band_data ->
  create_image item [] = render band_data (fetch_calls item asset signed ds b wb win).
Proof.
  intros Ha Hs Ho Hb Hw Hf Hr.
  unfold NaipImage.create_image, fetch_window, with_dataset, lookup_asset, call,
    mbind, cell_bind, Cell.bind, Cell.lift.
  cbn. rewrite Ha. cbn. rewrite Hs. cbn. rewrite Ho. cbn. rewrite Hb. cbn.
  rewrite Hw. cbn. rewrite Hf. cbn. rewrite Hr. reflexivity.
Qed.

Lemma render_log (band_data : ndarray) log :
  exists post,
    (render band_data log).2 = log ++ post /\
    Forall (fun ev => is_fetch_event ev = false) post /\
    forall img, (render band_data log).1 = inr img ->
      exists img0 th,
        Image_fromarray env (transpose_120 band_data) = inr img0 /\
        target_height (size img0).1 (size img0).2 = inr th /\
        Image_resize env img0 (target_w, th) = inr img.
Proof.
  unfold NaipImage.render, call, mbind, cell_bind, Cell.bind, Cell.lift. cbn.
  destruct (Image_fromarray env (transpose_120 band_data)) as [e|img0] eqn:Hfa; cbn.
  { eexists. split; [reflexivity|]. split; [repeat constructor|]. discriminate. }
  destruct (target_height (size img0).1 (size img0).2) as [e|th] eqn:Hth; cbn.
  { eexists. split; [reflexivity|]. split; [repeat constructor|]. discriminate. }
  exists [EvFromArray (transpose_120 band_data); EvResize img0 (target_w, th)].
  split; [rewrite <- app_assoc; reflexivity|]. split; [repeat constructor|].
  intros img Himg. exists img0, th. repeat split; [exact Hth|exact Himg].
Qed.

(** A run of [create_image] ends before the read, or at the read, or goes
    on to [render] what was read. *)
Lemma create_image_cases (item : Item) :
  (exists e, (create_image item []).1 = inl e /\
     Forall (fun ev => forall ds ix w, ev <> EvRead ds ix w) (create_image item []).2) \/
  exists asset signed (ds : Dataset) (b wb : Bounds) win,
    assets item !! "image"%string = Some asset /\
    pc_sign env (href asset) = inr signed /\
    rasterio_open env signed = inr ds /\
    features_bounds env area_of_interest = inr b /\
    warp_transform_bounds env "epsg:4326" (ds_crs ds) b = inr wb /\
    windows_from_bounds env wb (ds_transform ds) = inr win /\
    ((exists e, ds_read env ds [1; 2; 3] win = inl e /\
        create_image item [] = (inl e, fetch_calls item asset signed ds b wb win)) \/
     (exists band_data, ds_read env ds [1; 2; 3] win = inr band_data /\
        create_image item []
        = render band_data (fetch_calls item asset signed ds b wb win))).
Proof.
  unfold NaipImage.create_image, fetch_window, with_dataset, lookup_asset, call,
    mbind, cell_bind, Cell.bind, Cell.lift. cbn.
  destruct (assets item !! "image"%string) as [asset|] eqn:Ha; cbn.
  2:{ left. eexists. split; [reflexivity|]. repeat constructor; discriminate. }
  destruct (pc_sign env (href asset)) as [e|signed] eqn:Hs; cbn.
  { left. eexists. split; [reflexivity|]. repeat constructor; discriminate. }
  destruct (rasterio_open env signed) as [e|ds] eqn:Ho; cbn.
  { left. eexists. split; [reflexivity|]. repeat constructor; discriminate. }
  destruct (features_bounds env area_of_interest) as [e|b] eqn:Hb; cbn.
  { left. eexists. split; [reflexivity|]. repeat constructor; discriminate. }
  destruct (warp_transform_bounds env "epsg:4326" (ds_crs ds) b) as [e|wb] eqn:Hw; cbn.
  { left. eexists. split; [reflexivity|]. repeat constructor; discriminate. }
  destruct (windows_from_bounds env wb (ds_transform ds)) as [e|win] eqn:Hf; cbn.
  { left. eexists. split; [reflexivity|]. repeat constructor; discriminate. }
  right. exists asset, signed, ds, b, wb, win.
  repeat (split; [first [assumption|reflexivity]|]).
  destruct (ds_read env ds [1; 2; 3] win) as [e|band_data] eqn:Hr; cbn.
  - left. exists e. split; reflexivity.
  - right. exists band_data. split; reflexivity.
Qed.

Lemma in_fetch_calls item asset signed (ds ds' : Dataset) (b wb : Bounds)
    (win win' : Window) ix :
  In (EvRead ds' ix win' : event) (fetch_calls item asset signed ds b wb win) ->
  ds' = ds /\ ix = [1; 2; 3] /\ win' = win.
Proof.
  unfold NaipImage.fetch_calls. cbn.
  intros [H|[H|[H|[H|[H|[H|[H|[H|[]]]]]]]]]; try discriminate H.
  injection H as <- <- <-. auto.
Qed.

(** [target_height] on a window without rows or without columns. *)
Lemma target_height_empty (w h : nat) :
  h = 0%nat \/ w = 0%nat ->
  target_height (Z.of_nat w) (Z.of_nat h) = inl Py.ZeroDivisionError.
Proof.
  unfold target_height. intros [-> | ->].
  - cbn. destruct (Z.of_nat w); reflexivity.
  - destruct h as [|h]; [reflexivity|].
    rewrite Nat2Z.inj_succ. destruct (Z.succ (Z.of_nat h)) eqn:E; try lia.
    reflexivity.
Qed.

Lemma fromarray_size (band_data : ndarray) img0 :
  Image_fromarray env (transpose_120 band_data) = inr img0 ->
  size img0 = (Z.of_nat (shape band_data).2, Z.of_nat (shape band_data).1.2).
Proof.
  unfold Image_fromarray, transpose_120.
  destruct (fromarray_rejects env _); [discriminate|].
  destruct (shape band_data) as [[n0 n1] n2]. cbn. intros [= <-]. reflexivity.
Qed.

(** [create_image] returns an image only when the window read has rows
    and columns. *)
Lemma create_image_result_window (item : Item) img :
  (create_image item []).1 = inr img ->
  exists (ds : Dataset) win (band_data : ndarray),
    In (EvRead ds [1; 2; 3] win) (create_image item []).2 /\
    ds_read env ds [1; 2; 3] win = inr band_data /\
    ~ empty_window band_data /\
    (size img).1 = target_w.
Proof.
  intros Hres.
  destruct (create_image_cases item)
    as [(e & He & _)|(asset & signed & ds & b & wb & win & _ & _ & _ & _ & _ & _ & Hread)].
  { congruence. }
  destruct Hread as [(e & _ & Hrun)|(band_data & Hr & Hrun)].
  { rewrite Hrun in Hres. discriminate Hres. }
  rewrite Hrun in *.
  destruct (render_log band_data (fetch_calls item asset signed ds b wb win))
    as (post & Hlog & _ & Himg).
  destruct (Himg img Hres) as (img0 & th & Hfa & Hth & Hrs).
  exists ds, win, band_data. split.
  { rewrite Hlog. apply in_or_app. left. unfold NaipImage.fetch_calls. cbn. tauto. }
  split; [exact Hr|]. split.
  - intros Hempty. rewrite (fromarray_size _ _ Hfa) in Hth. cbn in Hth.
    rewrite target_height_empty in Hth by exact Hempty. discriminate Hth.
  - unfold Image_resize in Hrs. destruct (resize_pixels env img0 _); [discriminate|].
    injection Hrs as <-. reflexivity.
Qed.

(** C6.  Whenever [create_image] reads pixels, it reads the bands 1, 2, 3
    through one window: the bounds of the area of interest were first
    reprojected from ['epsg:4326'] into the coordinate reference system of
    the dataset, the window was computed from the reprojected bounds and
    the transform of the dataset, and the read was made with that window;
    these calls happen in this order and no other window is computed or
    read; and the image returned is made of the pixels of that read
    alone. *)
Theorem create_image_reads_reprojected_window
    (item : Item) (ds : Dataset) (indexes : list Z) (win : Window) :
  In (EvRead ds indexes win) (create_image item []).2 ->
  indexes = [1; 2; 3] /\
  exists b wb pre post,
    features_bounds env area_of_interest = inr b /\
    warp_transform_bounds env "epsg:4326" (ds_crs ds) b = inr wb /\
    windows_from_bounds env wb (ds_transform ds) = inr win /\
    (create_image item []).2
    = pre ++ [EvBounds area_of_interest;
              EvTransformBounds "epsg:4326" (ds_crs ds) b;
              EvFromBounds wb (ds_transform ds);
              EvRead ds [1; 2; 3] win;
              EvClose ds] ++ post /\
    Forall (fun ev => is_fetch_event ev = false) pre /\
    Forall (fun ev => is_fetch_event ev = false) post /\
    forall img, (create_image item []).1 = inr img ->
      exists band_data img0 th,
        ds_read env ds [1; 2; 3] win = inr band_data /\
        Image_fromarray env (transpose_120 band_data) = inr img0 /\
        Image_resize env img0 (target_w, th) = inr img.
Proof.
  intros Hin.
  destruct (create_image_cases item)
    as [(e & _ & Hnone)|(asset & signed & ds0 & b & wb & win0 & _ & _ & _ & Hb & Hw & Hf & Hread)].
  { exfalso. exact (proj1 (List.Forall_forall _ _) Hnone _ Hin ds indexes win eq_refl). }
  destruct Hread as [(e & Hr & Hrun)|(band_data & Hr & Hrun)].
  - (* the read itself raises: the calls are made, no image is returned *)
    rewrite Hrun in *. cbn [snd fst] in *.
    apply in_fetch_calls in Hin as (-> & -> & ->). split; [reflexivity|].
    exists b, wb, [EvPrint (datetime item); EvSign (href asset); EvOpen signed], [].
    split; [assumption|]. split; [assumption|]. split; [assumption|].
    split; [reflexivity|]. split; [repeat constructor|]. split; [constructor|].
    discriminate.
  - rewrite Hrun in *.
    destruct (render_log band_data (fetch_calls item asset signed ds0 b wb win0))
      as (post & Hlog & Hpost & Himg).
    rewrite Hlog in *.
    apply in_app_or in Hin as [Hin|Hin].
    2:{ exfalso. pose proof (proj1 (List.Forall_forall _ _) Hpost _ Hin) as X.
        discriminate X. }
    apply in_fetch_calls in Hin as (-> & -> & ->). split; [reflexivity|].
    exists b, wb, [EvPrint (datetime item); EvSign (href asset); EvOpen signed], post.
    split; [assumption|]. split; [assumption|]. split; [assumption|].
    split; [unfold NaipImage.fetch_calls; rewrite <- !app_assoc; reflexivity|].
    split; [repeat constructor|]. split; [exact Hpost|].
    intros img Hres. destruct (Himg img Hres) as (img0 & th & H1 & H2 & H3).
    exists band_data, img0, th. auto.
Qed.

(** C4.  When the window read has no rows or no columns, as for an area
    of interest outside the extent of the asset, [create_image] does not
    return an empty result: it raises.  Unless PIL already rejects the
    empty array, the exception is the [ZeroDivisionError] of the
    aspect-ratio computation [w/h] (no rows) or [target_w/aspect] (no
    columns), raised after the read and before any resize. *)
Theorem create_image_empty_window_raises
    item asset signed (ds : Dataset) (b wb : Bounds) win (band_data : ndarray) :
  assets item !! "image"%string = Some asset ->
  pc_sign env (href asset) = inr signed ->
  rasterio_open env signed = inr ds ->
  features_bounds env area_of_interest = inr b ->
  warp_transform_bounds env "epsg:4326" (ds_crs ds) b = inr wb ->
  windows_from_bounds env wb (ds_transform ds) = inr win ->
  ds_read env ds [1; 2; 3] win = inr band_data ->
  empty_window band_data ->
  exists e,
    create_image item []
    = (inl e, fetch_calls item asset signed ds b wb win
              ++ [EvFromArray (transpose_120 band_data)]) /\
    (fromarray_rejects env (transpose_120 band_data) = None ->
     e = Py.ZeroDivisionError).
Proof.
  intros Ha Hs Ho Hb Hw Hf Hr Hempty.
  rewrite (create_image_run item asset signed ds b wb win band_data) by assumption.
  unfold NaipImage.render, call, mbind, cell_bind, Cell.bind, Cell.lift. cbn.
  destruct (Image_fromarray env (transpose_120 band_data)) as [e|img0] eqn:Hfa; cbn.
  { exists e. split; [reflexivity|]. unfold Image_fromarray in Hfa.
    intros Hrej. rewrite Hrej in Hfa. destruct (shape (transpose_120 band_data)) as [[? ?] ?].
    discriminate Hfa. }
  rewrite (fromarray_size _ _ Hfa). cbn [fst snd].
  rewrite target_height_empty by exact Hempty.
  exists Py.ZeroDivisionError. split; reflexivity.
Qed.

End CreateImageFacts.

(** ** More about [sorted] *)

Section SortedMore.
Context {A K : Type}.
Variable lt : K -> K -> bool.
Variable key : A -> K.



(** An element that is not below any element of [l] is inserted at the
    end. *)
Lemma insert_last x l :
  Forall (fun y => lt (key x) (key y) = false) l ->
  Py.insert lt key x l = l ++ [x].
Proof.
  induction 1 as [|y l Hy _ IH]; simpl; [reflexivity|].
  rewrite Hy, IH. reflexivity.
Qed.

Lemma list_sort_sorted l :
  StronglySorted (Py.le_key lt key) l -> Py.list_sort lt key l = l.
Proof.
  intros Hs. unfold Py.list_sort.
  assert (H : forall l acc,
    StronglySorted (Py.le_key lt key) (acc ++ l) ->
    fold_left (fun acc x => Py.insert lt key x acc) l acc = acc ++ l).
  { clear. induction l as [|x l IH]; intros acc Hs; simpl.
    - rewrite app_nil_r. reflexivity.
    - rewrite insert_last.
      + rewrite IH; rewrite <- app_assoc; [reflexivity|exact Hs].
      + apply StronglySorted_app_inv in Hs as (_ & _ & Hall).
        eapply List.Forall_impl; [|exact Hall]. intros y Hy.
        apply List.Forall_cons_iff in Hy as [Hy _]. exact Hy. }
  exact (H l [] Hs).
Qed.

Lemma StronglySorted_rev_ge l :
  StronglySorted (Py.ge_key lt key) l -> StronglySorted (Py.le_key lt key) (rev l).
Proof.
  induction 1 as [|x l Hl IH Hx]; simpl; [constructor|].
  assert (Hgoal : forall l', StronglySorted (Py.le_key lt key) l' ->
            Forall (fun z => Py.le_key lt key z x) l' ->
            StronglySorted (Py.le_key lt key) (l' ++ [x])).
  { induction 1 as [|z l' Hl' IH' Hz]; simpl; intros Hall.
    - repeat constructor.
    - apply List.Forall_cons_iff in Hall as [Hzx Hall].
      constructor; [apply IH'; assumption|].
      apply List.Forall_app. split; [assumption|]. repeat constructor. exact Hzx. }
  apply Hgoal; [exact IH|].
  apply List.Forall_rev. eapply List.Forall_impl; [|exact Hx]. intros z Hz. exact Hz.
Qed.

(** [sorted(..., reverse=True)] leaves a list in descending order as it
    is. *)
Lemma sorted_reverse_sorted l :
  StronglySorted (Py.ge_key lt key) l -> Py.sorted lt key true l = l.
Proof.
  intros Hs. unfold Py.sorted.
  rewrite list_sort_sorted by (apply StronglySorted_rev_ge; exact Hs).
  apply rev_involutive.
Qed.
End SortedMore.

Section OverlapMore.
Context {Item Geometry Float : Type}.
Variable geometry : Item -> Geometry.
Variable intersection_area : Geometry -> Geometry -> Float.
Variable area : Geometry -> Float.
Variable fdiv : Float -> Float -> Float.
Variable fzero : Float -> bool.
Variable flt : Float -> Float -> bool.
Variable area_of_interest : Geometry.

Local Abbreviation ratio :=
  (Naip.ratio geometry intersection_area area fdiv area_of_interest).
Local Abbreviation sorted_by_overlap :=
  (Naip.sorted_by_overlap geometry intersection_area area fdiv fzero flt
     area_of_interest).
Local Abbreviation most_overlap :=
  (Naip.most_overlap geometry intersection_area area fdiv fzero flt
     area_of_interest).
Local Abbreviation decorate :=
  (Naip.decorate geometry intersection_area area fdiv fzero area_of_interest).



Hypothesis flt_irrefl : forall x, flt x x = false.
Hypothesis flt_trans :
  forall x y z, flt x y = true -> flt y z = true -> flt x z = true.
Hypothesis flt_neg_trans :
  forall x y z, flt x y = false -> flt y z = false -> flt x z = false.
Hypothesis target_nonzero : fzero (Naip.target_area area area_of_interest) = false.

(** X2.  Ranking is idempotent: ranking the ranked list again returns it
    unchanged, so the scene chosen from it is the same. *)
Theorem sorted_by_overlap_idempotent (items ranked : list Item) :
  sorted_by_overlap items = inr ranked ->
  sorted_by_overlap ranked = inr ranked /\
  most_overlap ranked = most_overlap items.
Proof using flt_irrefl flt_trans flt_neg_trans target_nonzero.
  intros E0.
  assert (Hr : ranked = Py.sorted flt ratio true items).
  { rewrite sorted_by_overlap_eq in E0 by exact target_nonzero. congruence. }
  destruct (sorted_reverse_spec flt ratio flt_irrefl flt_trans flt_neg_trans items)
    as (Hs & _ & _).
  rewrite <- Hr in Hs.
  assert (E : sorted_by_overlap ranked = inr ranked).
  { rewrite sorted_by_overlap_eq by exact target_nonzero.
    rewrite sorted_reverse_sorted by exact Hs. reflexivity. }
  split; [exact E|].
  unfold Naip.most_overlap. rewrite E, E0. reflexivity.
Qed.

(** X3.  When one candidate overlaps strictly more than every other, it is
    the scene chosen, in whatever order the search returns the
    candidates. *)
Theorem most_overlap_order_independent (items items' : list Item) (best : Item) :
  Permutation items items' ->
  In best items ->
  (forall it, In it items -> it = best \/ flt (ratio it) (ratio best) = true) ->
  most_overlap items = inr best /\ most_overlap items' = inr best.
Proof using flt_irrefl flt_trans flt_neg_trans target_nonzero.
  assert (H : forall l, In best l ->
    (forall it, In it l -> it = best \/ flt (ratio it) (ratio best) = true) ->
    most_overlap l = inr best).
  { intros l Hin Huniq. unfold Naip.most_overlap.
    rewrite sorted_by_overlap_eq by exact target_nonzero.
    destruct (sorted_reverse_spec flt ratio flt_irrefl flt_trans flt_neg_trans l)
      as (Hs & Hp & _).
    destruct (Py.sorted flt ratio true l) as [|h rest].
    { apply Permutation_nil in Hp. subst l. destruct Hin. }
    cbn. f_equal.
    assert (Hh : In h l) by (eapply Permutation_in; [exact Hp|left; reflexivity]).
    destruct (Huniq h Hh) as [->|Hlt]; [reflexivity|].
    exfalso. apply StronglySorted_inv in Hs as [_ Hall].
    assert (Hb : In best (h :: rest)) by (eapply Permutation_in; [symmetry; exact Hp|exact Hin]).
    destruct Hb as [->|Hb].
    - rewrite flt_irrefl in Hlt. discriminate.
    - pose proof (proj1 (List.Forall_forall _ _) Hall best Hb) as Hge.
      unfold Py.ge_key in Hge. congruence. }
  intros Hperm Hin Huniq. split; [apply H; assumption|].
  apply H.
  - eapply Permutation_in; eassumption.
  - intros it Hit. apply Huniq. eapply Permutation_in; [symmetry; exact Hperm|exact Hit].
Qed.

End OverlapMore.

(** ** NAIP notebook: the calls of [create_image] *)

Section CreateImageMore.
Import NaipImage NaipImageEvents.
Context {Coord Pixel Affine Window GeoJSON : Type}.
Variable env : Env (Coord := Coord) (Pixel := Pixel) (Affine := Affine)
                   (Window := Window) (GeoJSON := GeoJSON).
Variable area_of_interest : GeoJSON.

Local Abbreviation create_image := (NaipImage.create_image env area_of_interest).
Local Abbreviation render := (NaipImage.render env).
Local Abbreviation fetch_calls := (NaipImage.fetch_calls area_of_interest).
Local Abbreviation Dataset := (NaipImage.Dataset (Affine := Affine)).
Local Abbreviation Bounds := (NaipImage.Bounds (Coord := Coord)).
Local Abbreviation ndarray := (NaipImage.ndarray (Pixel := Pixel)).
Local Abbreviation event :=
  (NaipImage.event (Coord := Coord) (Pixel := Pixel) (Affine := Affine)
     (Window := Window) (GeoJSON := GeoJSON)).

(** What [render] appends to the log: the call of [Image.fromarray] and,
    when the height could be computed, the call of [resize]. *)
Lemma render_calls (band_data : ndarray) log :
  exists post,
    (render band_data log).2 = log ++ post /\ Forall after_with_block post.
Proof.
  unfold NaipImage.render, call, mbind, cell_bind, Cell.bind, Cell.lift. cbn.
  destruct (Image_fromarray env (transpose_120 band_data)) as [e|img0]; cbn.
  { eexists. split; [reflexivity|]. repeat constructor. }
  destruct (target_height (size img0).1 (size img0).2) as [e|th]; cbn.
  { eexists. split; [reflexivity|]. repeat constructor. }
  exists [EvFromArray (transpose_120 band_data); EvResize img0 (target_w, th)].
  split; [rewrite <- app_assoc; reflexivity|]. repeat constructor.
Qed.

(** The shape of every run of [create_image]: the calls up to the point
    where it stops. *)
Lemma create_image_log (item : Item) :
  let log := (create_image item []).2 in
  (assets item !! "image"%string = None /\
   create_image item [] = (inl Py.KeyError, [EvPrint (datetime item)])) \/
  exists asset, assets item !! "image"%string = Some asset /\
    ((exists e, pc_sign env (href asset) = inl e /\
        create_image item [] = (inl e, [EvPrint (datetime item); EvSign (href asset)])) \/
     exists signed, pc_sign env (href asset) = inr signed /\
       ((exists e, rasterio_open env signed = inl e /\
           create_image item []
           = (inl e, [EvPrint (datetime item); EvSign (href asset); EvOpen signed])) \/
        exists (ds : Dataset), rasterio_open env signed = inr ds /\
          exists inside post,
            log = [EvPrint (datetime item); EvSign (href asset); EvOpen signed]
                  ++ inside ++ [EvClose ds] ++ post /\
            Forall in_with_block inside /\ Forall after_with_block post)).
Proof.
  intros log. subst log.
  unfold NaipImage.create_image, fetch_window, with_dataset, lookup_asset, call,
    mbind, cell_bind, Cell.bind, Cell.lift. cbn.
  destruct (assets item !! "image"%string) as [asset|] eqn:Ha; cbn.
  2:{ left. split; reflexivity. }
  right. exists asset. split; [reflexivity|].
  destruct (pc_sign env (href asset)) as [e'|signed] eqn:Hs; cbn.
  { left. exists e'. split; reflexivity. }
  right. exists signed. split; [reflexivity|].
  destruct (rasterio_open env signed) as [e'|ds] eqn:Ho; cbn.
  { left. exists e'. split; reflexivity. }
  right. exists ds. split; [reflexivity|].
  destruct (features_bounds env area_of_interest) as [e'|b] eqn:Hb; cbn.
  { exists [EvBounds area_of_interest], []. repeat constructor. }
  destruct (warp_transform_bounds env "epsg:4326" (ds_crs ds) b) as [e'|wb] eqn:Hw; cbn.
  { exists [EvBounds area_of_interest; EvTransformBounds "epsg:4326" (ds_crs ds) b], [].
    repeat constructor. }
  destruct (windows_from_bounds env wb (ds_transform ds)) as [e'|win] eqn:Hf; cbn.
  { exists [EvBounds area_of_interest; EvTransformBounds "epsg:4326" (ds_crs ds) b;
            EvFromBounds wb (ds_transform ds)], [].
    repeat constructor. }
  destruct (ds_read env ds [1; 2; 3] win) as [e'|band_data] eqn:Hr; cbn.
  { exists [EvBounds area_of_interest; EvTransformBounds "epsg:4326" (ds_crs ds) b;
            EvFromBounds wb (ds_transform ds); EvRead ds [1; 2; 3] win], [].
    repeat constructor. }
  pose proof (render_calls band_data
                (fetch_calls item asset signed ds b wb win)) as (post & Hlog & Hpost).
  exists [EvBounds area_of_interest; EvTransformBounds "epsg:4326" (ds_crs ds) b;
          EvFromBounds wb (ds_transform ds); EvRead ds [1; 2; 3] win], post.
  split; [|split; [repeat constructor|exact Hpost]].
  exact Hlog.
Qed.

Lemma in_with_block_kind (ev : event) :
  in_with_block ev ->
  is_lifecycle_event ev = false /\ is_sign_event ev = false /\ is_open_event ev = false.
Proof. destruct ev; intros []; repeat split; reflexivity. Qed.

Lemma after_with_block_kind (ev : event) :
  after_with_block ev ->
  is_lifecycle_event ev = false /\ is_sign_event ev = false /\
  is_open_event ev = false /\ is_fetch_event ev = false.
Proof. destruct ev; intros []; repeat split; reflexivity. Qed.

(** X4.  [create_image] signs the href of the item's [image] asset and
    opens what the signing returned, at most once each and nothing else;
    the first thing it does is to print the date of the item; an item
    without an [image] asset raises [KeyError] before any library is
    called. *)
Theorem create_image_opens_signed_href (item : Item) :
  let log := (create_image item []).2 in
  (exists rest, log = EvPrint (datetime item) :: rest) /\
  (assets item !! "image"%string = None ->
   create_image item [] = (inl Py.KeyError, [EvPrint (datetime item)])) /\
  (forall url, In (EvSign url) log ->
     exists asset, assets item !! "image"%string = Some asset /\ url = href asset) /\
  (forall url, In (EvOpen url) log ->
     exists asset, assets item !! "image"%string = Some asset /\
       pc_sign env (href asset) = inr url) /\
  (length (List.filter is_sign_event log) <= 1)%nat /\
  (length (List.filter is_open_event log) <= 1)%nat.
Proof.
  intros log.
  destruct (create_image_log item)
    as [[Ha Hrun]|(asset & Ha & [(e & Hs & Hrun)|(signed & Hs &
          [(e & Ho & Hrun)|(ds & Ho & inside & post & Hlog & Hin & Hpost)])])];
    first [ fold log in Hlog
          | assert (Hlog : log = (create_image item []).2) by reflexivity;
            rewrite Hrun in Hlog; cbn [snd] in Hlog ].
  - rewrite Hlog. split; [eauto|]. split; [intros _; exact Hrun|].
    split; [intros url [H|[]]; discriminate H|].
    split; [intros url [H|[]]; discriminate H|]. cbn. lia.
  - rewrite Hlog. split; [eauto|]. split; [congruence|].
    split.
    { intros url [H|[H|[]]]; [discriminate H|]. injection H as <-. eauto. }
    split; [intros url [H|[H|[]]]; discriminate H|]. cbn. lia.
  - rewrite Hlog. split; [eauto|]. split; [congruence|].
    split.
    { intros url [H|[H|[H|[]]]]; try discriminate H. injection H as <-. eauto. }
    split.
    { intros url [H|[H|[H|[]]]]; try discriminate H. injection H as <-. eauto. }
    cbn. lia.
  - assert (Hother : forall ev, In ev (inside ++ [EvClose ds] ++ post) ->
                       is_sign_event ev = false /\ is_open_event ev = false).
    { intros ev Hev. apply in_app_or in Hev as [Hev|Hev].
      - apply in_with_block_kind. exact (proj1 (List.Forall_forall _ _) Hin ev Hev).
      - apply in_app_or in Hev as [[<-|[]]|Hev]; [split; reflexivity|].
        destruct (after_with_block_kind ev (proj1 (List.Forall_forall _ _) Hpost ev Hev))
          as (_ & ? & ? & _). auto. }
    rewrite Hlog. split; [eauto|]. split; [congruence|].
    split.
    { intros url [H|[H|[H|H]]]; try discriminate H.
      - injection H as <-. eauto.
      - apply Hother in H as [H _]. discriminate H. }
    split.
    { intros url [H|[H|[H|H]]]; try discriminate H.
      - injection H as <-. eauto.
      - apply Hother in H as [_ H]. discriminate H. }
    assert (E : forall p : event -> bool,
              (forall ev, In ev (inside ++ [EvClose ds] ++ post) -> p ev = false) ->
              List.filter p (inside ++ [EvClose ds] ++ post) = []).
    { intros p Hp. apply List.Forall_forall in Hp. clear -Hp.
      induction Hp as [|x l Hx _ IH]; cbn; [reflexivity|]. rewrite Hx. exact IH. }
    rewrite (List.filter_app is_sign_event
               [EvPrint (datetime item); EvSign (href asset); EvOpen signed]),
      (List.filter_app is_open_event
         [EvPrint (datetime item); EvSign (href asset); EvOpen signed]),
      !E by (intros ev Hev; apply Hother; exact Hev).
    cbn. lia.
Qed.

(** X5.  A dataset that was opened is closed, exactly once, also when a
    call inside the [with] block raises; every call that computes the
    window or reads from the dataset comes between the opening and the
    closing.  When [rasterio.open] itself raises there is nothing to
    close and [create_image] ends with that exception. *)
Theorem create_image_closes_dataset (item : Item) (url : string) :
  let log := (create_image item []).2 in
  In (EvOpen url) log ->
  match rasterio_open env url with
  | inl e =>
      (create_image item []).1 = inl e /\
      Forall (fun ev => forall ds, ev <> EvClose ds) log
  | inr ds =>
      exists pre inside post,
        log = pre ++ [EvOpen url] ++ inside ++ [EvClose ds] ++ post /\
        Forall (fun ev => is_lifecycle_event ev = false) (pre ++ inside ++ post) /\
        Forall (fun ev => is_fetch_event ev = false) (pre ++ post)
  end.
Proof.
  intros log Hopen.
  destruct (create_image_log item)
    as [[Ha Hrun]|(asset & Ha & [(e & Hs & Hrun)|(signed & Hs &
          [(e & Ho & Hrun)|(ds & Ho & inside & post & Hlog & Hin & Hpost)])])];
    first [ fold log in Hlog
          | assert (Hlog : log = (create_image item []).2) by reflexivity;
            rewrite Hrun in Hlog; cbn [snd] in Hlog ].
  - rewrite Hlog in Hopen. destruct Hopen as [H|[]]. discriminate H.
  - rewrite Hlog in Hopen. destruct Hopen as [H|[H|[]]]; discriminate H.
  - rewrite Hlog in Hopen. destruct Hopen as [H|[H|[H|[]]]]; try discriminate H.
    injection H as <-. rewrite Ho. split; [rewrite Hrun; reflexivity|].
    rewrite Hlog. repeat constructor; discriminate.
  - assert (Hin' : Forall (fun ev => is_lifecycle_event ev = false) inside).
    { eapply List.Forall_impl; [|exact Hin]. intros ev X. apply in_with_block_kind, X. }
    assert (Hpost' : Forall (fun ev => is_lifecycle_event ev = false /\
                                       is_fetch_event ev = false) post).
    { eapply List.Forall_impl; [|exact Hpost]. intros ev X.
      destruct (after_with_block_kind ev X) as (? & _ & _ & ?). auto. }
    assert (url = signed) as ->.
    { rewrite Hlog in Hopen. cbn [app] in Hopen.
      destruct Hopen as [H|[H|[H|H]]]; try discriminate H.
      - injection H as <-. reflexivity.
      - exfalso. apply in_app_or in H as [H|H].
        + pose proof (proj1 (List.Forall_forall _ _) Hin' _ H) as X. discriminate X.
        + destruct H as [H|H]; [discriminate H|].
          pose proof (proj1 (List.Forall_forall _ _) Hpost' _ H) as [X _]. discriminate X. }
    rewrite Ho.
    exists [EvPrint (datetime item); EvSign (href asset)], inside, post.
    split; [exact Hlog|]. split.
    + apply List.Forall_app. split; [repeat constructor|].
      apply List.Forall_app. split; [exact Hin'|].
      eapply List.Forall_impl; [|exact Hpost']. intros ev [X _]. exact X.
    + apply List.Forall_app. split; [repeat constructor|].
      eapply List.Forall_impl; [|exact Hpost']. intros ev [_ X]. exact X.
Qed.

End CreateImageMore.

Section CreateImageSize.
Import NaipImage.
Context {Coord Pixel Affine Window GeoJSON : Type}.
Variable env : Env (Coord := Coord) (Pixel := Pixel) (Affine := Affine)
                   (Window := Window) (GeoJSON := GeoJSON).
Variable area_of_interest : GeoJSON.

Local Abbreviation create_image := (NaipImage.create_image env area_of_interest).
Local Abbreviation fetch_calls := (NaipImage.fetch_calls area_of_interest).
Local Abbreviation Dataset := (NaipImage.Dataset (Affine := Affine)).
Local Abbreviation Bounds := (NaipImage.Bounds (Coord := Coord)).
Local Abbreviation ndarray := (NaipImage.ndarray (Pixel := Pixel)).

(** X6.  From the window read to the image returned: when the window has
    [rows] rows and [cols] columns, the image handed to PIL is [cols] wide
    and [rows] high, and [create_image] asks for a resize to 800 by [th]
    pixels, where [th] is the integer part of [800 * rows / cols] (or one
    less when the quotient is an integer); the image it returns has that
    size.  Windows more than 800 times wider than high are resized to
    height 0. *)
Theorem create_image_size
    item asset signed (ds : Dataset) (b wb : Bounds) win (band_data : ndarray)
    (bands rows cols : nat) :
  assets item !! "image"%string = Some asset ->
  pc_sign env (href asset) = inr signed ->
  rasterio_open env signed = inr ds ->
  features_bounds env area_of_interest = inr b ->
  warp_transform_bounds env "epsg:4326" (ds_crs ds) b = inr wb ->
  windows_from_bounds env wb (ds_transform ds) = inr win ->
  ds_read env ds [1; 2; 3] win = inr band_data ->
  shape band_data = (bands, rows, cols) ->
  fromarray_rejects env (transpose_120 band_data) = None ->
  0 < Z.of_nat rows < 2 ^ 31 -> 0 < Z.of_nat cols < 2 ^ 31 ->
  let img0 := {| size := (Z.of_nat cols, Z.of_nat rows);
                 pixels := transpose_120 band_data |} in
  exists th,
    target_height (Z.of_nat cols) (Z.of_nat rows) = inr th /\
    (th = 800 * Z.of_nat rows / Z.of_nat cols \/
     (th = 800 * Z.of_nat rows / Z.of_nat cols - 1 /\
      (800 * Z.of_nat rows) mod Z.of_nat cols = 0)) /\
    (800 * Z.of_nat rows < Z.of_nat cols -> th = 0) /\
    create_image item []
    = (Image_resize env img0 (800, th),
       fetch_calls item asset signed ds b wb win
       ++ [EvFromArray (transpose_120 band_data); EvResize img0 (800, th)]) /\
    forall img, (create_image item []).1 = inr img -> size img = (800, th).
Proof.
  intros Ha Hs Ho Hb Hw Hf Hr Hshape Hok Hrows Hcols img0.
  destruct (target_height_spec (Z.of_nat cols) (Z.of_nat rows) Hcols Hrows)
    as (th & Hth & Hbound).
  assert (Hfa : Image_fromarray env (transpose_120 band_data) = inr img0).
  { unfold Image_fromarray. rewrite Hok. unfold img0, transpose_120.
    rewrite Hshape. reflexivity. }
  assert (Hrun : create_image item []
    = (Image_resize env img0 (800, th),
       fetch_calls item asset signed ds b wb win
       ++ [EvFromArray (transpose_120 band_data); EvResize img0 (800, th)])).
  { rewrite (create_image_run env area_of_interest item asset signed ds b wb win band_data)
      by assumption.
    unfold NaipImage.render, call, mbind, cell_bind, Cell.bind, Cell.lift.
    rewrite Hfa. cbn [size img0 fst snd]. rewrite Hth. cbn.
    reflexivity. }
  exists th. split; [exact Hth|]. split.
  { destruct (Z.eq_dec (800 * Z.of_nat rows) ((th + 1) * Z.of_nat cols)) as [E|NE].
    - right. rewrite E. rewrite Z.div_mul, Z.mod_mul by lia. lia.
    - left. apply Z.div_unique with (800 * Z.of_nat rows - th * Z.of_nat cols); lia. }
  split; [nia|]. split; [exact Hrun|].
  intros img. rewrite Hrun. cbn [fst]. unfold Image_resize.
  destruct (resize_pixels env img0 (800, th)); [discriminate|].
  intros [= <-]. reflexivity.
Qed.
End CreateImageSize.

(** X7.  A square window is resized to 800 by 800 pixels. *)
Theorem target_height_square (w : Z) :
  0 < w < 2 ^ 31 -> NaipImage.target_height w w = inr 800.
Proof.
  intros Hw. destruct w as [|pw|pw]; try lia.
  unfold NaipImage.target_height, PyFloat.int_truediv, PyFloat.finite_or_overflow,
    PyFloat.prec, PyFloat.emax.
  pose proof (digits2_pos_bounds pw) as Bw.
  assert (Hdw : 1 <= Zpos (digits2_pos pw) <= 31).
  { split; [lia|]. destruct (Z_lt_le_dec 31 (Zpos (digits2_pos pw))); [|lia].
    assert (2 ^ 31 <= 2 ^ (Zpos (digits2_pos pw) - 1)) by (apply Z.pow_le_mono_r; lia). lia. }
  destruct (SFdiv_finite_spec pw pw 0 0 ltac:(lia) ltac:(lia) ltac:(lia))
    as (M & t & -> & Ht & HM & Herr).
  cbv zeta in Herr.
  replace (53 + Zpos (digits2_pos pw) - Zpos (digits2_pos pw)) with 53 in * by lia.
  assert (HMt : Zpos M * 2 ^ t = 2 ^ 53).
  { assert (Ht' : t = 0 \/ t = 1 \/ t = 2) by lia.
    destruct Ht' as [ -> | [ -> | -> ] ];
      [change (2 ^ 0) with 1 in *|change (2 ^ 1) with 2 in *|change (2 ^ 2) with 4 in *];
      change (2 ^ 53) with 9007199254740992 in *;
      change (2 ^ 52) with 4503599627370496 in *; nia. }
  assert (t = 1 /\ Zpos M = 2 ^ 52) as [-> HM'].
  { assert (Ht' : t = 0 \/ t = 1 \/ t = 2) by lia.
    change (2 ^ 53) with 9007199254740992 in *;
      change (2 ^ 52) with 4503599627370496 in *.
    destruct Ht' as [ -> | [ -> | -> ] ];
      [change (2 ^ 0) with 1 in *|change (2 ^ 1) with 2 in *|change (2 ^ 2) with 4 in *];
      lia. }
  assert (M = 4503599627370496%positive) as -> by (change (2 ^ 52) with 4503599627370496 in HM'; lia).
  vm_compute. reflexivity.
Qed.

(** ** FIA notebook: totals, labels and the join with the counties *)

Section FiaMore.
Import Fia FiaMap.








End FiaMore.

Section FiaLabels.
Import Fia.

Lemma pos_to_uint_unorm p : Decimal.unorm (Pos.to_uint p) = Pos.to_uint p.
Proof.
  pose proof (DecimalPos.Unsigned.to_of (Pos.to_uint p)) as H.
  rewrite DecimalPos.Unsigned.of_to in H. symmetry. exact H.
Qed.

(** A positive number is not written with a leading zero. *)
Lemma pos_to_uint_no_leading_zero p u : Pos.to_uint p <> Decimal.D0 u.
Proof.
  intros E. pose proof (pos_to_uint_unorm p) as Hn. rewrite E in Hn.
  rewrite DecimalFacts.unorm_D0 in Hn.
  destruct (Decimal.uint_eq_dec u Decimal.Nil) as [->|Hu].
  - exact (DecimalPos.Unsigned.to_uint_nonzero p E).
  - pose proof (DecimalFacts.nb_digits_unorm u Hu) as Hlen.
    rewrite Hn in Hlen. cbn in Hlen. lia.
Qed.

(** [str(int)] is not empty, and starts with ['0'] only when it is
    ["0"]. *)
Lemma astype_string_head z :
  exists c s, astype_string z = String c s /\ (c = "0"%char -> s = ""%string).
Proof.
  unfold astype_string. destruct z as [|p|p]; cbn [Z.to_int NilZero.string_of_int].
  - exists "0"%char, ""%string. split; reflexivity.
  - pose proof (DecimalPos.Unsigned.to_uint_nonnil p) as Hnil.
    pose proof (pos_to_uint_no_leading_zero p) as Hz.
    destruct (Pos.to_uint p); try congruence; cbn; eexists _, _;
      (split; [reflexivity|]); intros Hc; discriminate Hc.
  - eexists _, _. split; [reflexivity|]. intros Hc. discriminate Hc.
Qed.

Lemma astype_string_inj a b : astype_string a = astype_string b -> a = b.
Proof.
  unfold astype_string. intros H. apply DecimalZ.to_int_inj.
  assert (Hnn : forall z, Z.to_int z <> Decimal.Pos Decimal.Nil /\
                          Z.to_int z <> Decimal.Neg Decimal.Nil).
  { intros [|p|p]; cbn; split; try discriminate;
      intros [= E]; exact (DecimalPos.Unsigned.to_uint_nonnil p E). }
  destruct (Hnn a) as [Ha1 Ha2], (Hnn b) as [Hb1 Hb2].
  pose proof (NilZero.isi _ Ha1 Ha2) as Ia. pose proof (NilZero.isi _ Hb1 Hb2) as Ib.
  rewrite H in Ia. congruence.
Qed.

Lemma repeat_char_app_inj c n m s t :
  (repeat_char c n +:+ s = repeat_char c m +:+ t)%string ->
  (n <= m)%nat -> s = (repeat_char c (m - n) +:+ t)%string.
Proof.
  revert m. induction n as [|n IH]; intros m H Hle.
  - rewrite Nat.sub_0_r. exact H.
  - destruct m as [|m]; [lia|]. cbn in H. injection H as H.
    cbn [Nat.sub]. apply IH; [exact H|lia].
Qed.

Lemma str_pad_head_inj width s t :
  (forall c s', s = String c s' -> c = "0"%char -> s' = ""%string) ->
  (forall c t', t = String c t' -> c = "0"%char -> t' = ""%string) ->
  s <> ""%string -> t <> ""%string ->
  str_pad width "0" s = str_pad width "0" t -> s = t.
Proof.
  assert (Hone : forall n (s t : string),
    (forall c s', s = String c s' -> c = "0"%char -> s' = ""%string) ->
    t <> ""%string ->
    s = (repeat_char "0" n +:+ t)%string -> n = 0%nat).
  { intros n s0 t0 Hs Ht E. destruct n as [|n]; [reflexivity|]. exfalso.
    cbn in E. specialize (Hs _ _ E eq_refl).
    destruct n, t0; cbn in Hs; congruence. }
  intros Hs Ht Hsne Htne. unfold str_pad. intros E.
  destruct (Nat.le_ge_cases (width - String.length s) (width - String.length t)) as [Hle|Hle].
  - apply repeat_char_app_inj in E; [|exact Hle].
    rewrite (Hone _ _ _ Hs Htne E) in E. exact E.
  - symmetry in E. apply repeat_char_app_inj in E; [|exact Hle].
    rewrite (Hone _ _ _ Ht Hsne E) in E. symmetry. exact E.
Qed.

(** Padding the decimal writing of a code with zeros is injective. *)
Lemma label_inj width a b :
  str_pad width "0" (astype_string a) = str_pad width "0" (astype_string b) -> a = b.
Proof.
  intros E. apply astype_string_inj.
  destruct (astype_string_head a) as (ca & sa & Ea & Ha).
  destruct (astype_string_head b) as (cb & sb & Eb & Hb).
  apply (str_pad_head_inj width); try exact E.
  - intros c s' E'. rewrite Ea in E'. injection E' as <- <-. exact Ha.
  - intros c s' E'. rewrite Eb in E'. injection E' as <- <-. exact Hb.
  - rewrite Ea. discriminate.
  - rewrite Eb. discriminate.
Qed.

(** No two rows of [result] carry the same pair of labels. *)
Lemma result_labels_nodup stored_tree stored_plot :
  NoDup (map (fun r => (STATE r, COUNTY r)) (result stored_tree stored_plot)).
Proof.
  unfold result, drop_codes, assign_STATE_COUNTY, reset_index.
  rewrite !map_map. cbn [STATE COUNTY l_STATE l_COUNTY l_row g_STATECD g_COUNTYCD].
  pose proof (NoDup_fst_map_to_list (groupby_sum (df stored_tree stored_plot))) as Hnd.
  set (rows := map_to_list (groupby_sum (df stored_tree stored_plot))) in *.
  clearbody rows. induction rows as [|[[s c] v] rows IH]; cbn; [constructor|].
  cbn in Hnd. apply NoDup_cons in Hnd as [Hnotin Hnd].
  apply NoDup_cons. split; [|exact (IH Hnd)].
  rewrite list_elem_of_In, in_map_iff. intros ([[s' c'] v'] & E & Hin). cbn in E.
  injection E as E1 E2. apply label_inj in E1, E2. subst s' c'.
  apply Hnotin. apply list_elem_of_fmap. exists ((s, c), v'). split; [reflexivity|].
  apply list_elem_of_In. exact Hin.
Qed.

(** X9.  The labels identify the county: two different (state, county)
    codes never get the same pair of labels, and [result] has exactly one
    row for each pair of labels it holds. *)
Theorem county_labels_unique stored_tree stored_plot :
  NoDup (map (fun r => (STATE r, COUNTY r)) (result stored_tree stored_plot)) /\
  forall s c s' c',
    str_pad 2 "0" (astype_string s) = str_pad 2 "0" (astype_string s') ->
    str_pad 3 "0" (astype_string c) = str_pad 3 "0" (astype_string c') ->
    (s, c) = (s', c').
Proof.
  split; [exact (result_labels_nodup stored_tree stored_plot)|].
  intros s c s' c' E1 E2. apply label_inj in E1, E2. congruence.
Qed.

End FiaLabels.

Section FiaMerge.
Import Fia FiaMap.
Context {Geometry : Type}.

Local Abbreviation CountyRow := (FiaMap.CountyRow (Geometry := Geometry)).
Local Abbreviation CensusRow := (FiaMap.CensusRow (Geometry := Geometry)).

Lemma pd_merge_cons_right left (c : CountyRow) right :
  length (pd_merge left (c :: right))
  = (length (List.filter (fun l => same_county l c) left)
     + length (pd_merge left right))%nat.
Proof.
  unfold pd_merge. induction left as [|l left IH]; [reflexivity|].
  cbn [flat_map]. rewrite !length_app, IH. cbn [List.filter].
  destruct (same_county l c); cbn [map length]; lia.
Qed.

Lemma same_county_spec l (c : CountyRow) :
  same_county l c = true <-> (STATE l, COUNTY l) = (c_STATE c, c_COUNTY c).
Proof.
  unfold same_county. rewrite andb_true_iff, !String.eqb_eq. split.
  - intros [-> ->]. reflexivity.
  - intros [= -> ->]. auto.
Qed.

Lemma filter_same_county_le1 left (c : CountyRow) :
  NoDup (map (fun r => (STATE r, COUNTY r)) left) ->
  (length (List.filter (fun l => same_county l c) left) <= 1)%nat.
Proof.
  induction left as [|l left IH]; cbn; intros Hnd; [lia|].
  apply NoDup_cons in Hnd as [Hnotin Hnd]. specialize (IH Hnd).
  destruct (same_county l c) eqn:Hl; [|exact IH].
  assert (E : List.filter (fun l => same_county l c) left = []).
  { destruct (List.filter (fun l0 => same_county l0 c) left) as [|l' rest] eqn:Hf;
      [reflexivity|]. exfalso.
    assert (Hin : In l' (List.filter (fun l0 => same_county l0 c) left))
      by (rewrite Hf; left; reflexivity).
    apply List.filter_In in Hin as [Hin Hl'].
    apply same_county_spec in Hl, Hl'. apply Hnotin.
    rewrite Hl, <- Hl'. apply list_elem_of_fmap. exists l'. split; [reflexivity|].
    apply list_elem_of_In. exact Hin. }
  rewrite E. cbn. lia.
Qed.

(** X10.  Joining the summary with the census counties never draws a
    county twice: the merged frame has at most one row for every row of
    the census table; every row of it pairs a row of [result] with the
    geometry of a census row carrying the same [STATE] and [COUNTY]
    strings; and a census row is kept exactly when [result] has a row with
    its two strings. *)
Theorem gdf_one_row_per_county stored_tree stored_plot (census : list CensusRow) :
  (length (gdf stored_tree stored_plot census) <= length census)%nat /\
  (forall g, In g (gdf stored_tree stored_plot census) ->
     In (gdf_result g) (result stored_tree stored_plot) /\
     exists r, In r census /\ census_geometry r = gdf_geometry g /\
       STATEFP r = STATE (gdf_result g) /\ COUNTYFP r = COUNTY (gdf_result g)) /\
  (forall r, In r census ->
     (exists g, In g (gdf stored_tree stored_plot census) /\
        gdf_geometry g = census_geometry r /\
        STATE (gdf_result g) = STATEFP r /\ COUNTY (gdf_result g) = COUNTYFP r) <->
     (exists l, In l (result stored_tree stored_plot) /\
        STATE l = STATEFP r /\ COUNTY l = COUNTYFP r)).
Proof.
  unfold gdf.
  pose proof (result_labels_nodup stored_tree stored_plot) as Hnd.
  set (left := result stored_tree stored_plot) in *. clearbody left.
  split; [|split].
  - unfold rename. rewrite <- (length_map (fun r : CensusRow =>
      {| c_STATE := STATEFP r; c_COUNTY := COUNTYFP r; c_geometry := census_geometry r |})
      census).
    induction (map _ census) as [|c right IH].
    + unfold pd_merge. induction left; cbn; [lia|]. apply IHleft.
      apply NoDup_cons in Hnd as [_ Hnd]. exact Hnd.
    + rewrite pd_merge_cons_right. cbn [length].
      pose proof (filter_same_county_le1 left c Hnd). lia.
  - intros g Hg. unfold pd_merge in Hg. apply in_flat_map in Hg as (l & Hl & Hg).
    apply in_map_iff in Hg as (c & <- & Hc). apply List.filter_In in Hc as [Hc Hsame].
    unfold rename in Hc. apply in_map_iff in Hc as (r & <- & Hr).
    apply same_county_spec in Hsame. cbn in Hsame. injection Hsame as E1 E2.
    cbn. split; [exact Hl|]. exists r. auto.
  - intros r Hr. split.
    + intros (g & Hg & _ & E1 & E2). unfold pd_merge in Hg.
      apply in_flat_map in Hg as (l & Hl & Hg).
      apply in_map_iff in Hg as (c & <- & _). exists l. cbn in E1, E2. auto.
    + intros (l & Hl & E1 & E2).
      exists {| gdf_result := l; gdf_geometry := census_geometry r |}.
      split; [|cbn; auto]. unfold pd_merge. apply in_flat_map. exists l.
      split; [exact Hl|]. apply in_map_iff.
      exists {| c_STATE := STATEFP r; c_COUNTY := COUNTYFP r;
                c_geometry := census_geometry r |}.
      split; [reflexivity|]. apply List.filter_In. split.
      * unfold rename. apply in_map_iff. exists r. auto.
      * apply same_county_spec. cbn. congruence.
Qed.

End FiaMerge.

Section FiaJoin.
Import Fia.

Lemma filter_key_le1 (k : Z) (plot : list PlotKeyed) :
  NoDup (map pk_PLT_CN plot) ->
  (length (List.filter (fun p => (k =? pk_PLT_CN p)%Z) plot) <= 1)%nat.
Proof.
  induction plot as [|p plot IH]; cbn; intros Hnd; [lia|].
  apply NoDup_cons in Hnd as [Hnotin Hnd]. specialize (IH Hnd).
  destruct (Z.eqb_spec k (pk_PLT_CN p)) as [->|Hne]; [|exact IH].
  assert (E : List.filter (fun q => pk_PLT_CN p =? pk_PLT_CN q) plot = []).
  { destruct (List.filter (fun q => pk_PLT_CN p =? pk_PLT_CN q) plot) as [|q rest] eqn:Hf;
      [reflexivity|]. exfalso.
    assert (Hin : In q (List.filter (fun q => pk_PLT_CN p =? pk_PLT_CN q) plot))
      by (rewrite Hf; left; reflexivity).
    apply List.filter_In in Hin as [Hin Hq]. apply Z.eqb_eq in Hq.
    apply Hnotin. rewrite Hq. apply list_elem_of_In, in_map. exact Hin. }
  rewrite E. cbn. lia.
Qed.

(** X22.  When [CN] identifies the rows of the plot table, the join does
    not multiply tree rows: the tree rows of [df], in order, are a
    selection of the tree rows with [CONDID == 1], each taken at most
    once, so [df] has no more rows than those; and every row of [df]
    carries the measurements of its tree row computed as
    [DRYBIO_AG * TPA_UNADJ / 2000] and [CARBON_AG * TPA_UNADJ / 2000]. *)
Theorem df_one_row_per_tree stored_tree stored_plot :
  NoDup (map p_CN stored_plot) ->
  sublist (map (fun r => m_tree (d_row r)) (df stored_tree stored_plot))
          (read_tree stored_tree) /\
  (length (df stored_tree stored_plot) <= length (read_tree stored_tree))%nat /\
  (forall r, In r (df stored_tree stored_plot) ->
     t_CONDID (m_tree (d_row r)) = 1 /\
     t_PLT_CN (m_tree (d_row r)) = p_CN (pk_row (m_plot (d_row r))) /\
     In (pk_row (m_plot (d_row r))) stored_plot /\
     d_bio r = (t_DRYBIO_AG (m_tree (d_row r)) * t_TPA_UNADJ (m_tree (d_row r)) / 2000)%Q /\
     d_carbon r
     = (t_CARBON_AG (m_tree (d_row r)) * t_TPA_UNADJ (m_tree (d_row r)) / 2000)%Q).
Proof.
  intros Hnd.
  assert (Hnd' : NoDup (map pk_PLT_CN (assign_PLT_CN stored_plot))).
  { unfold assign_PLT_CN. rewrite map_map. exact Hnd. }
  assert (Hsub : sublist (map (fun r => m_tree (d_row r)) (df stored_tree stored_plot))
                   (read_tree stored_tree)).
  { unfold df, assign_bio_carbon, merge. rewrite map_map. cbn [d_row].
    induction (read_tree stored_tree) as [|t trees IH]; cbn; [constructor|].
    rewrite map_app, map_map. cbn [m_tree].
    pose proof (filter_key_le1 (t_PLT_CN t) (assign_PLT_CN stored_plot) Hnd') as Hle.
    destruct (List.filter (fun p => t_PLT_CN t =? pk_PLT_CN p) (assign_PLT_CN stored_plot))
      as [|p [|q rest]]; cbn in Hle |- *.
    - apply sublist_cons. exact IH.
    - apply sublist_skip. exact IH.
    - lia. }
  split; [exact Hsub|]. split.
  { apply sublist_length in Hsub. rewrite length_map in Hsub. exact Hsub. }
  intros r Hr. unfold df, assign_bio_carbon in Hr. apply in_map_iff in Hr as (m & <- & Hm).
  cbn [d_row d_bio d_carbon].
  unfold merge in Hm. apply in_flat_map in Hm as (t & Ht & Hm).
  apply in_map_iff in Hm as (p & <- & Hp). cbn [m_tree m_plot].
  apply List.filter_In in Hp as [Hp Hkey]. apply Z.eqb_eq in Hkey.
  unfold read_tree in Ht. apply List.filter_In in Ht as [_ Hc]. apply Z.eqb_eq in Hc.
  unfold assign_PLT_CN in Hp. apply in_map_iff in Hp as (p0 & <- & Hp0).
  cbn [pk_row pk_PLT_CN] in *. auto.
Qed.
End FiaJoin.

(** ** Radiant MLHub notebook: the listings *)

Section MLHubCatalogFacts.
Import MLHubCatalog.

Lemma print_dataset_run dataset out :
  print_dataset dataset out
  = match line_of dataset with
    | Some l => (inr tt, out ++ [l])
    | None => (inl Py.KeyError, out)
    end.
Proof.
  unfold print_dataset, line_of, getitem, print, mbind, cell_bind, Cell.bind,
    Cell.lift, Cell.modify.
  destruct (dataset !! "id"%string); [|reflexivity].
  destruct (dataset !! "title"%string); reflexivity.
Qed.

(** The loop prints the lines of the datasets up to the first one that
    lacks a key. *)
Lemma for_each_print_dataset datasets out :
  exists lines,
    (for_each datasets print_dataset out).2 = out ++ lines /\
    (length lines <= length datasets)%nat /\
    ((for_each datasets print_dataset out).1 = inr tt <->
     Forall (fun d => is_Some (line_of d)) datasets) /\
    ((for_each datasets print_dataset out).1 = inr tt ->
     Some <$> lines = line_of <$> datasets) /\
    ((for_each datasets print_dataset out).1 = inr tt \/
     (for_each datasets print_dataset out).1 = inl Py.KeyError).
Proof.
  revert out. induction datasets as [|d datasets IH]; intros out.
  - exists []. cbn. rewrite app_nil_r. repeat split; auto.
  - cbn [for_each]. unfold mbind, cell_bind, Cell.bind.
    rewrite print_dataset_run. destruct (line_of d) as [l|] eqn:Hl.
    + destruct (IH (out ++ [l])) as (lines & Hout & Hlen & Hok & Hlines & Hres).
      exists (l :: lines). rewrite Hout, <- app_assoc. split; [reflexivity|].
      split; [cbn; lia|]. split; [|split].
      * rewrite Hok. split.
        -- intros H. constructor; [rewrite Hl; eauto|exact H].
        -- intros H. apply List.Forall_cons_iff in H as [_ H]. exact H.
      * intros H. cbn. rewrite Hl, (Hlines H). reflexivity.
      * exact Hres.
    + exists []. cbn. rewrite app_nil_r. split; [reflexivity|]. split; [lia|].
      split; [|split].
      * split; [discriminate|]. intros H. apply List.Forall_cons_iff in H as [[? H] _].
        congruence.
      * discriminate.
      * right. reflexivity.
Qed.

(** X11.  The listing prints the two header lines, then one line for each
    of the first 30 datasets, then ["..."] exactly when there are more
    than 30: never more than 33 lines.  It raises [KeyError] exactly when
    one of the first 30 datasets lacks [id] or [title]; what comes after
    the 30th dataset is never looked at.  A title that is [null] or empty
    is printed as [No Title]. *)
Theorem list_datasets_output (datasets : list dict) :
  let run := list_datasets datasets [] in
  let shown := take dataset_limit datasets in
  (length run.2 <= 33)%nat /\
  (run.1 = inr tt <-> Forall (fun d => is_Some (line_of d)) shown) /\
  (run.1 = inr tt \/ run.1 = inl Py.KeyError) /\
  (run.1 = inr tt ->
   exists lines,
     Some <$> lines = line_of <$> shown /\
     run.2 = [("Total Datasets: " +:+ Fia.astype_string (Z.of_nat (length datasets)))%string;
              "-----"%string]
             ++ lines
             ++ (if (30 <? length datasets)%nat then ["..."%string] else [])) /\
  (forall d i, d !! "id"%string = Some i ->
     d !! "title"%string = Some None \/ d !! "title"%string = Some (Some ""%string) ->
     line_of d = Some (format i +:+ ": No Title")%string).
Proof.
  intros run shown. subst run.
  unfold list_datasets, mbind, cell_bind, Cell.bind, print, Cell.modify. cbn [app].
  fold shown.
  destruct (for_each_print_dataset shown
              [("Total Datasets: " +:+ Fia.astype_string (Z.of_nat (length datasets)))%string;
               "-----"%string])
    as (lines & Hout & Hlen & Hok & Hlines & Hres).
  assert (Hshown : (length shown <= 30)%nat).
  { unfold shown, dataset_limit. rewrite length_take. lia. }
  destruct (for_each shown print_dataset _) as [[e|[]] out] eqn:Hrun; cbn [fst snd] in *.
  - subst out. split; [rewrite length_app; cbn; lia|].
    split; [rewrite <- Hok; split; discriminate|].
    split; [destruct Hres as [Hres|Hres]; [discriminate Hres|right; exact Hres]|].
    split; [discriminate|].
    intros d i Hi [Ht|Ht]; unfold line_of; rewrite Hi, Ht; reflexivity.
  - subst out. unfold dataset_limit.
    split.
    { destruct (30 <? length datasets)%nat; cbn; rewrite ?length_app; cbn; lia. }
    split; [rewrite <- Hok; destruct (30 <? length datasets)%nat; cbn; tauto|].
    split; [left; destruct (30 <? length datasets)%nat; reflexivity|].
    split.
    { intros _. exists lines. split; [apply Hlines; reflexivity|].
      destruct (30 <? length datasets)%nat; cbn; [reflexivity|].
      rewrite app_nil_r. reflexivity. }
    intros d i Hi [Ht|Ht]; unfold line_of; rewrite Hi, Ht; reflexivity.
Qed.

End MLHubCatalogFacts.

Section MLHubMore.
Import MLHubCatalog MLHubCollections.

(** X12.  [next(dataset for dataset in datasets if dataset["id"] == name)]
    returns the first dataset with that id, provided every dataset before
    it has an [id]; it raises [StopIteration] when every dataset has an
    [id] and none has this one, and [KeyError] when a dataset without
    [id] comes before any match. *)
Theorem crop_dataset_first_match (datasets : list dict) :
  let name := "ref_african_crops_kenya_02"%string in
  (forall d, crop_dataset datasets = inr d <->
     exists pre post, datasets = pre ++ d :: post /\
       d !! "id"%string = Some (Some name) /\
       Forall (fun d' => exists v, d' !! "id"%string = Some v /\ v <> Some name) pre) /\
  (crop_dataset datasets = inl StopIteration <->
     Forall (fun d' => exists v, d' !! "id"%string = Some v /\ v <> Some name) datasets) /\
  (crop_dataset datasets = inl Py.KeyError <->
     exists pre d post, datasets = pre ++ d :: post /\ d !! "id"%string = None /\
       Forall (fun d' => exists v, d' !! "id"%string = Some v /\ v <> Some name) pre).
Proof.
  intros name. unfold crop_dataset. fold name.
  induction datasets as [|x datasets (IH1 & IH2 & IH3)].
  { cbn. split; [|split].
    - intros d. split; [discriminate|]. intros (pre & post & E & _).
      destruct pre; discriminate E.
    - split; [constructor|reflexivity].
    - split; [discriminate|]. intros (pre & d & post & E & _). destruct pre; discriminate E. }
  cbn [next_where]. unfold id_is at 1 3 5, getitem.
  destruct (x !! "id"%string) as [v|] eqn:Hx.
  2:{ split; [|split].
      - intros d. split; [discriminate|]. intros (pre & post & E & Hd & Hpre).
        destruct pre as [|p pre]; injection E as -> ->; [congruence|].
        apply List.Forall_cons_iff in Hpre as [(v & Hv & _) _]. congruence.
      - split; [discriminate|]. intros H.
        apply List.Forall_cons_iff in H as [(v & Hv & _) _]. congruence.
      - split; [|reflexivity]. intros _. exists [], x, datasets. repeat split; auto. }
  destruct (bool_decide_reflect (v = Some name)) as [->|Hne].
  - split; [|split].
    + intros d. split.
      * intros [= <-]. exists [], datasets. repeat split; auto.
      * intros (pre & post & E & Hd & Hpre).
        destruct pre as [|p pre]; injection E as -> ->; [reflexivity|].
        apply List.Forall_cons_iff in Hpre as [(v & Hv & Hn) _]. congruence.
    + split; [discriminate|]. intros H.
      apply List.Forall_cons_iff in H as [(v & Hv & Hn) _]. congruence.
    + split; [discriminate|]. intros (pre & d & post & E & Hd & Hpre).
      destruct pre as [|p pre]; injection E as -> ->; [congruence|].
      apply List.Forall_cons_iff in Hpre as [(v & Hv & Hn) _]. congruence.
  - split; [|split].
    + intros d. rewrite IH1. split.
      * intros (pre & post & -> & Hd & Hpre). exists (x :: pre), post.
        repeat split; auto. constructor; eauto.
      * intros (pre & post & E & Hd & Hpre).
        destruct pre as [|p pre]; injection E as -> ->; [congruence|].
        apply List.Forall_cons_iff in Hpre as [_ Hpre]. eauto.
    + rewrite IH2. split.
      * intros H. constructor; eauto.
      * intros H. apply List.Forall_cons_iff in H as [_ H]. exact H.
    + rewrite IH3. split.
      * intros (pre & d & post & -> & Hd & Hpre). exists (x :: pre), d, post.
        repeat split; auto. constructor; eauto.
      * intros (pre & d & post & E & Hd & Hpre).
        destruct pre as [|p pre]; injection E as -> ->; [congruence|].
        apply List.Forall_cons_iff in Hpre as [_ Hpre]. exists pre, d, post. auto.
Qed.

End MLHubMore.

Section MLHubCollectionsFacts.
Import MLHubCatalog MLHubCollections.

Lemma islice_for_step (one_shot : bool) sci_citation n c rest k :
  islice_for one_shot (S n) (c :: rest) (print_collection sci_citation) k
  = let k1 := if one_shot then {| collections := rest; stdout := stdout k |} else k in
    match citation_of sci_citation c with
    | inl e => (inl e, k1)
    | inr citation =>
        islice_for one_shot n rest (print_collection sci_citation)
          {| collections := collections k1;
             stdout := stdout k1 ++ [entry (c_id c) (or_else (c_license c) "N/A") citation] |}
    end.
Proof.
  cbn [islice_for].
  unfold mbind, cell_bind, Cell.bind, consumed, Cell.modify,
    print_collection, Cell.lift, print.
  destruct (citation_of sci_citation c); reflexivity.
Qed.

Lemma islice_for_run (one_shot : bool) sci_citation n : forall view k,
  (one_shot = true -> collections k = view) ->
  let r := islice_for one_shot n view (print_collection sci_citation) k in
  r.1 = inr tt ->
  collections r.2 = (if one_shot then drop n view else collections k) /\
  exists lines, stdout r.2 = stdout k ++ lines /\
    length lines = Nat.min n (length view).
Proof.
  induction n as [|n IH]; intros view k Hk r; subst r.
  { cbn. intros _. split.
    - destruct one_shot; [rewrite drop_0; auto|reflexivity].
    - exists []. rewrite app_nil_r. auto. }
  destruct view as [|c rest].
  { cbn. intros _. split.
    - destruct one_shot; [auto|reflexivity].
    - exists []. rewrite app_nil_r. auto. }
  rewrite islice_for_step. cbv zeta.
  destruct (citation_of sci_citation c) as [e|citation]; [discriminate|].
  intros Hr.
  match type of Hr with
  | (islice_for _ _ _ _ ?k').1 = _ =>
      destruct (IH rest k') as (Hc & lines & Hout & Hlen);
        [intros Hos; rewrite Hos; reflexivity|exact Hr|]
  end.
  split.
  - rewrite Hc. destruct one_shot; reflexivity.
  - exists (entry (c_id c) (or_else (c_license c) "N/A") citation :: lines).
    rewrite Hout. cbn [stdout].
    split; [destruct one_shot; cbn [stdout]; rewrite <- app_assoc; reflexivity|].
    cbn. rewrite Hlen. reflexivity.
Qed.

Lemma next_with_id_run (one_shot : bool) name : forall view k,
  (next_with_id one_shot name view k).1 = first_with_id name view.
Proof.
  unfold first_with_id.
  induction view as [|c rest IH]; intros k; [reflexivity|].
  cbn [next_with_id List.find].
  unfold mbind, cell_bind, Cell.bind, consumed, Cell.modify.
  destruct (String.eqb (c_id c) name); [reflexivity|]. apply IH.
Qed.

(** X13.  The lookup that follows the listing.  When [collections] is an
    iterator, the listing has taken its first 20 elements, and the lookup
    only sees what comes after them: it returns the first collection with
    the wanted id among those, and raises [StopIteration] when there is
    none, even if one of the 20 collections listed has that id.  When
    [collections] is a list, the lookup sees all of it.  The listing
    prints one entry per collection, 20 at most. *)
Theorem lookup_after_listing (one_shot : bool)
    (sci_citation : Collection -> Py.exn + option string)
    (all : list Collection) (out : list string) (name : string) :
  let k0 := {| collections := all; stdout := out |} in
  let k1 := (list_collections one_shot sci_citation k0).2 in
  (list_collections one_shot sci_citation k0).1 = inr tt ->
  (lookup_collection one_shot name k1).1
  = first_with_id name (if one_shot then drop 20 all else all) /\
  length (stdout k1) = (length out + Nat.min 20 (length all))%nat.
Proof.
  intros k0 k1 Hok. subst k1.
  unfold list_collections, mbind, cell_bind, Cell.bind, Cell.get in *.
  cbn [collections k0] in *.
  destruct (islice_for_run one_shot sci_citation 20 all k0 (fun _ => eq_refl) Hok)
    as (Hc & lines & Hout & Hlen).
  split.
  - unfold lookup_collection, mbind, cell_bind, Cell.bind, Cell.get.
    rewrite next_with_id_run, Hc. reflexivity.
  - rewrite Hout, length_app, Hlen. reflexivity.
Qed.

End MLHubCollectionsFacts.

Section MLHubParams.
Import MLHub.

(** X14.  What the session adds to a request is the [key] parameter and
    nothing else: every other query parameter is the request's own (one
    set to [None] is not sent); a [key] given with the request replaces
    the session's, and [key=None] given with the request removes it; a
    session made without an API key sends no [key]; the method and
    [allow_redirects] are passed on as they are. *)
Theorem mlhub_session_adds_only_key
    (urljoin : string -> string -> string) (api_key : option string)
    (method url : string) (kw : Kwargs) :
  let req := MLHubSession_request urljoin (MLHubSession_init api_key) method url kw in
  (forall k, k <> "key"%string ->
     http_query req !! k = (kw_params kw ≫= (fun r => r !! k)) ≫= id) /\
  (forall r v, kw_params kw = Some r -> r !! "key"%string = Some v ->
     http_query req !! "key"%string = v) /\
  (kw_params kw = None \/ (exists r, kw_params kw = Some r /\ r !! "key"%string = None) ->
     http_query req !! "key"%string = api_key) /\
  http_method req = method /\
  http_allow_redirects req = kw_allow_redirects kw.
Proof.
  intros req. subst req.
  unfold MLHubSession_request, Session_request, MLHubSession_init, Session_init,
    merge_setting. cbn [http_query http_method http_allow_redirects params].
  split; [|split; [|split; [|split; reflexivity]]].
  - intros k Hk. destruct (kw_params kw) as [r|]; cbn; rewrite lookup_omap.
    + rewrite lookup_union. rewrite lookup_union, lookup_singleton_ne, lookup_empty by congruence.
      destruct (r !! k) as [[v|]|]; reflexivity.
    + rewrite lookup_union, lookup_singleton_ne, lookup_empty by congruence. reflexivity.
  - intros r v Hr Hv. rewrite Hr, lookup_omap, lookup_union, Hv. cbn.
    rewrite lookup_union, lookup_singleton_eq. destruct v; reflexivity.
  - intros [Hn|(r & Hr & Hk)].
    + apply (merge_setting_key kw api_key). unfold keeps_key. rewrite Hn. exact I.
    + apply (merge_setting_key kw api_key). unfold keeps_key. rewrite Hr. exact Hk.
Qed.

End MLHubParams.

(** ** Footprint browser notebook: sequences of selections *)

Section BrowseMore.
Import Browser BrowserSession.
Context {Coord GeoJSON Item : Type}.
Variable centroid_coords : Item -> Py.exn + list (list Coord).
Variable geometry : Item -> GeoJSON.
Variable id : Item -> string.
Variable datetime_isoformat : Item -> Py.exn + string.
Variable layer : LayerId.

Local Abbreviation browse :=
  (Browser.browse centroid_coords geometry id datetime_isoformat layer).
Local Abbreviation interact :=
  (BrowserSession.interact centroid_coords geometry id datetime_isoformat layer).
Local Abbreviation Notebook := (Browser.Notebook (Coord := Coord) (GeoJSON := GeoJSON)).

(** [browse] prints at most one line, and only at its very end. *)
Lemma browse_stdout (item : Item) (nb : Notebook) :
  stdout (browse item nb).2 = stdout nb \/
  exists iso, datetime_isoformat item = inr iso /\ (browse item nb).1 = inr tt /\
    stdout (browse item nb).2 = stdout nb ++ [(id item +:+ " " +:+ iso)%string].
Proof.
  unfold Browser.browse, mbind, cell_bind, Cell.bind, Cell.lift.
  destruct (centroid_coords item) as [e|coords]; cbn; [left; reflexivity|].
  destruct coords as [|c0 coords]; cbn; [left; reflexivity|].
  destruct (datetime_isoformat item) as [e|iso]; cbn; [left; reflexivity|].
  right. exists iso. repeat split.
Qed.

(** A sequence of selections leaves the frame of the map alone. *)
Lemma interact_frame (selected : list Item) (nb : Notebook) :
  zoom (m (interact selected nb)) = zoom (m nb) /\
  layers (m (interact selected nb)) = layers (m nb) /\
  layout_width (m (interact selected nb)) = layout_width (m nb) /\
  dom (objects (interact selected nb)) = dom (objects nb) /\
  (forall l, l <> layer -> objects (interact selected nb) !! l = objects nb !! l) /\
  kind <$> (objects (interact selected nb) !! layer) = kind <$> (objects nb !! layer) /\
  (exists lines, stdout (interact selected nb) = stdout nb ++ lines /\
     (length lines <= length selected)%nat).
Proof.
  revert nb. induction selected as [|item selected IH]; intros nb.
  { cbn. repeat split; try reflexivity. exists []. rewrite app_nil_r. auto. }
  unfold BrowserSession.interact. cbn [fold_left].
  fold (interact selected (browse item nb).2).
  destruct (IH (browse item nb).2) as (Hz & Hl & Hw & Hd & Ho & Hk & lines & Hs & Hlen).
  destruct (browse_frame centroid_coords geometry id datetime_isoformat layer item nb)
    as (Hz' & Hl' & Hw' & Hd' & Ho' & Hk').
  split; [congruence|]. split; [congruence|]. split; [congruence|].
  split; [congruence|]. split; [intros l Hne; rewrite Ho, Ho' by exact Hne; reflexivity|].
  split; [congruence|].
  destruct (browse_stdout item nb) as [E|(iso & _ & _ & E)]; rewrite Hs, E.
  - exists lines. split; [reflexivity|]. cbn. lia.
  - exists ((id item +:+ " " +:+ iso)%string :: lines).
    rewrite <- app_assoc. split; [reflexivity|]. cbn. lia.
Qed.

(** X15.  Over any sequence of selections, failed calls included, the map
    keeps its zoom level, its list of layers and its layout; no layer is
    added, removed or changes its kind, and no layer other than [layer]
    is touched; at most one line is printed per selection.  For the map
    of the notebook: zoom 3, the base layer and the GeoJSON layer. *)
Theorem interact_keeps_map (selected : list Item) (nb : Notebook) :
  let nb' := interact selected nb in
  zoom (m nb') = zoom (m nb) /\
  layers (m nb') = layers (m nb) /\
  layout_width (m nb') = layout_width (m nb) /\
  dom (objects nb') = dom (objects nb) /\
  (forall l, l <> layer -> objects nb' !! l = objects nb !! l) /\
  kind <$> (objects nb' !! layer) = kind <$> (objects nb !! layer) /\
  (exists lines, stdout nb' = stdout nb ++ lines /\
     (length lines <= length selected)%nat) /\
  (forall zero base_layer, base_layer <> layer ->
     nb = setup layer zero base_layer ->
     zoom (m nb') = 3 /\ layers (m nb') = [base_layer; layer] /\
     kind <$> (objects nb' !! layer) = Some GeoJSONLayer /\
     objects nb' !! base_layer = Some {| kind := TileLayer; data := None |}).
Proof.
  intros nb'. subst nb'.
  destruct (interact_frame selected nb) as (Hz & Hl & Hw & Hd & Ho & Hk & Hs).
  repeat (split; [assumption|]).
  intros zero base_layer Hne ->. rewrite Hz, Hl, Hk, (Ho base_layer Hne). cbn.
  rewrite lookup_insert_eq, lookup_insert_ne, lookup_singleton_eq by congruence.
  repeat split.
Qed.

(** X16.  The display shows the latest selection only: after a call of
    [browse] that finds a centroid for its item, the map and its layers
    are what this call alone would have produced, whatever was selected
    before and whether or not those earlier calls succeeded. *)
Theorem browse_last_selection_wins
    (before : list Item) (item : Item) (nb : Notebook)
    (c0 : list Coord) (more : list (list Coord)) :
  centroid_coords item = inr (c0 :: more) ->
  let seen := (browse item (interact before nb)).2 in
  m seen = m (browse item nb).2 /\
  objects seen = objects (browse item nb).2 /\
  center (m seen) = rev c0 /\
  data <$> (objects seen !! layer) = (fun _ => Some (geometry item)) <$> (objects nb !! layer).
Proof.
  intros Hc seen. subst seen.
  assert (Hrun : forall nb0 : Notebook,
    m (browse item nb0).2 = {| center := rev c0; zoom := zoom (m nb0);
                               layers := layers (m nb0);
                               layout_width := layout_width (m nb0) |} /\
    objects (browse item nb0).2
    = alter (fun o : Layer => {| kind := kind o; data := Some (geometry item) |})
        layer (objects nb0)).
  { intros nb0. unfold Browser.browse, mbind, cell_bind, Cell.bind, Cell.lift.
    rewrite Hc. cbn. destruct (datetime_isoformat item); cbn; split; reflexivity. }
  destruct (interact_frame before nb) as (Hz & Hl & Hw & Hd & Ho & Hk & _).
  destruct (Hrun nb) as [Hm1 Ho1], (Hrun (interact before nb)) as [Hm2 Ho2].
  rewrite Hm1, Hm2, Ho1, Ho2, Hz, Hl, Hw.
  split; [reflexivity|]. split.
  - apply map_eq. intros l. destruct (decide (l = layer)) as [->|Hne].
    + rewrite !lookup_alter_eq.
      destruct (objects (interact before nb) !! layer) as [o1|] eqn:E1,
               (objects nb !! layer) as [o2|] eqn:E2; cbn in Hk |- *; congruence.
    + rewrite !lookup_alter_ne by congruence. apply Ho. exact Hne.
  - split; [reflexivity|]. rewrite lookup_alter_eq.
    destruct (objects (interact before nb) !! layer) as [o1|] eqn:E1,
             (objects nb !! layer) as [o2|] eqn:E2; cbn in Hk |- *; congruence.
Qed.

End BrowseMore.

(** ** Climate normals notebook: the tables *)

Section SortExt.
Context {A : Type}.

(** [sorted] only compares elements of the list it sorts. *)
Lemma insert_ext (lt1 lt2 : A -> A -> bool) x l :
  Forall (fun y => lt1 x y = lt2 x y) l ->
  Py.insert lt1 (fun a => a) x l = Py.insert lt2 (fun a => a) x l.
Proof.
  induction 1 as [|y l Hy _ IH]; cbn; [reflexivity|].
  rewrite Hy, IH. reflexivity.
Qed.

Lemma list_sort_ext (lt1 lt2 : A -> A -> bool) l :
  NoDup l ->
  (forall x y, In x l -> In y l -> x <> y -> lt1 x y = lt2 x y) ->
  Py.list_sort lt1 (fun a => a) l = Py.list_sort lt2 (fun a => a) l.
Proof.
  intros Hnd Hext. unfold Py.list_sort.
  assert (H : forall todo acc,
    NoDup (todo ++ acc) -> (forall x, In x (todo ++ acc) -> In x l) ->
    fold_left (fun acc x => Py.insert lt1 (fun a => a) x acc) todo acc
    = fold_left (fun acc x => Py.insert lt2 (fun a => a) x acc) todo acc).
  { induction todo as [|x todo IH]; intros acc Hnd' Hin; cbn; [reflexivity|].
    cbn in Hnd'. apply NoDup_cons in Hnd' as [Hx Hnd'].
    assert (Hperm : Permutation (todo ++ Py.insert lt2 (fun a => a) x acc)
                      (x :: todo ++ acc)).
    { rewrite insert_perm. symmetry. apply Permutation_middle. }
    rewrite (insert_ext lt1 lt2 x acc).
    - apply IH.
      + rewrite Hperm. apply NoDup_cons. split; assumption.
      + intros y Hy. apply Hin. eapply Permutation_in; [exact Hperm|exact Hy].
    - apply List.Forall_forall. intros y Hy. apply Hext.
      + apply Hin. left. reflexivity.
      + apply Hin. right. apply in_or_app. right. exact Hy.
      + intros ->. apply Hx. apply list_elem_of_In, in_or_app. right. exact Hy. }
  apply H; rewrite app_nil_r; auto.
Qed.
End SortExt.

Section StringOrder.
Lemma str_ltb_irrefl a : String.ltb a a = false.
Proof.
  unfold String.ltb. destruct (String.compare a a) eqn:E; try reflexivity.
  exfalso. exact (StrictOrder_Irreflexive (R := OrdersEx.String_as_OT.lt) a E).
Qed.

Lemma str_ltb_trans a b c :
  String.ltb a b = true -> String.ltb b c = true -> String.ltb a c = true.
Proof.
  unfold String.ltb. intros H1 H2.
  destruct (String.compare a b) eqn:E1; try discriminate.
  destruct (String.compare b c) eqn:E2; try discriminate.
  pose proof (StrictOrder_Transitive (R := OrdersEx.String_as_OT.lt) a b c E1 E2) as E.
  unfold OrdersEx.String_as_OT.lt in E.
  change (OrdersEx.String_as_OT.compare a c) with (String.compare a c) in E.
  rewrite E. reflexivity.
Qed.

Lemma str_ltb_total a b : String.ltb a b = false -> String.ltb b a = false -> a = b.
Proof.
  unfold String.ltb. intros H1 H2.
  destruct (String.compare a b) eqn:E1; try discriminate.
  - apply String.compare_eq_iff. exact E1.
  - rewrite String.compare_antisym, E1 in H2. discriminate.
Qed.

Lemma str_ltb_neg_trans a b c :
  String.ltb a b = false -> String.ltb b c = false -> String.ltb a c = false.
Proof.
  intros H1 H2. destruct (String.ltb a c) eqn:H3; [|reflexivity]. exfalso.
  destruct (String.ltb b a) eqn:H4.
  - rewrite (str_ltb_trans _ _ _ H4 H3) in H2. discriminate.
  - pose proof (str_ltb_total _ _ H1 H4) as ->. congruence.
Qed.
End StringOrder.

Section ClimateNormalsFacts.
Import ClimateNormals.
Context {V StorageOptions : Type}.
Variable str : V -> string.
Variable vlt : V -> V -> bool.

Local Abbreviation key_lt := (fun a b : string * V => String.ltb a.1 b.1).

Lemma fold_add_rows (l : list (string * V)) : forall t : Table,
  fold_left
    (fun (t : Table) (kv : string * V) =>
       if negb (String.eqb kv.1 "table:columns") then t ++ [(kv.1, str kv.2)] else t)
    l t
  = t ++ map (fun kv => (kv.1, str kv.2))
           (List.filter (fun kv : string * V => negb (String.eqb kv.1 "table:columns")) l).
Proof.
  induction l as [|kv l IH]; intros t; cbn.
  - rewrite app_nil_r. reflexivity.
  - rewrite IH. destruct (negb (String.eqb kv.1 "table:columns")); cbn.
    + rewrite <- app_assoc. reflexivity.
    + reflexivity.
Qed.

(** Two lists in strictly ascending order with the same elements are
    equal. *)
Lemma strict_sorted_perm_eq {A} (R : A -> A -> Prop) (l1 l2 : list A) :
  (forall x, ~ R x x) -> (forall x y z, R x y -> R y z -> R x z) ->
  StronglySorted R l1 -> StronglySorted R l2 -> Permutation l1 l2 -> l1 = l2.
Proof.
  intros Hirr Htr Hs1. revert l2.
  induction Hs1 as [|x l1 Hs1 IH Hx]; intros l2 Hs2 Hp.
  { apply Permutation_nil in Hp. congruence. }
  destruct Hs2 as [|y l2 Hs2 Hy].
  { symmetry in Hp. apply Permutation_nil in Hp. discriminate Hp. }
  assert (x = y) as ->.
  { assert (Hxin : In x (y :: l2)) by (eapply Permutation_in; [exact Hp|left; reflexivity]).
    assert (Hyin : In y (x :: l1))
      by (eapply Permutation_in; [symmetry; exact Hp|left; reflexivity]).
    destruct Hxin as [E|Hxin]; [congruence|]. destruct Hyin as [E|Hyin]; [congruence|].
    exfalso. apply (Hirr x). apply (Htr x y x).
    - exact (proj1 (List.Forall_forall _ _) Hx y Hyin).
    - exact (proj1 (List.Forall_forall _ _) Hy x Hxin). }
  f_equal. apply IH; [exact Hs2|]. eapply Permutation_cons_inv. exact Hp.
Qed.

(** The rows of the metadata table. *)
Lemma t_metadata_rows (properties : list (string * V)) :
  NoDup (map fst properties) ->
  let rows := t_metadata str vlt properties in
  StronglySorted (fun a b : string * string => String.ltb a.1 b.1 = true) rows /\
  Permutation rows
    (map (fun kv => (kv.1, str kv.2))
       (List.filter (fun kv : string * V => negb (String.eqb kv.1 "table:columns"))
          properties)) /\
  (forall v, ~ In ("table:columns"%string, v) rows) /\
  rows = map (fun kv => (kv.1, str kv.2))
           (List.filter (fun kv : string * V => negb (String.eqb kv.1 "table:columns"))
              (Py.sorted (fun a b : string * V => String.ltb a.1 b.1) (fun kv => kv)
                 false properties)).
Proof.
  intros Hnd rows. subst rows.
  set (keep := fun kv : string * V => negb (String.eqb kv.1 "table:columns")).
  set (row := fun kv : string * V => (kv.1, str kv.2)).
  (* keys decide: equal keys mean the same item *)
  assert (Hkey : forall x y, In x properties -> In y properties -> x.1 = y.1 -> x = y).
  { clear -Hnd. induction properties as [|p l IH]; [intros x y []|].
    cbn in Hnd. apply NoDup_cons in Hnd as [Hp Hnd].
    intros x y [<-|Hx] [<-|Hy] E; [reflexivity| | |apply IH; assumption].
    - exfalso. apply Hp. rewrite E. apply list_elem_of_In, in_map. exact Hy.
    - exfalso. apply Hp. rewrite <- E. apply list_elem_of_In, in_map. exact Hx. }
  assert (Hndp : NoDup properties) by (eapply NoDup_fmap_1; exact Hnd).
  assert (Hsort : Py.sorted (item_lt vlt) (fun kv => kv) false properties
                  = Py.sorted key_lt (fun kv => kv) false properties).
  { unfold Py.sorted. apply list_sort_ext; [exact Hndp|].
    intros x y Hx Hy Hne. unfold item_lt, str_lt.
    destruct (String.eqb_spec x.1 y.1) as [E|_]; [|reflexivity].
    exfalso. apply Hne. apply Hkey; assumption. }
  unfold t_metadata. rewrite Hsort, fold_add_rows. cbn [app].
  fold keep row.
  destruct (list_sort_spec key_lt (fun kv : string * V => kv)
              (fun x => str_ltb_irrefl x.1)
              (fun x y z => str_ltb_trans x.1 y.1 z.1)
              (fun x y z => str_ltb_neg_trans x.1 y.1 z.1) properties)
    as (Hs & Hp & _).
  change (Py.list_sort key_lt (fun kv => kv) properties)
    with (Py.sorted key_lt (fun kv : string * V => kv) false properties) in Hs, Hp.
  set (sorted := Py.sorted key_lt (fun kv : string * V => kv) false properties) in *.
  assert (Hstrict : StronglySorted (fun a b : string * V => String.ltb a.1 b.1 = true) sorted).
  { assert (Hin : forall x, In x sorted -> In x properties)
      by (intros x Hx; eapply Permutation_in; [exact Hp|exact Hx]).
    assert (Hnds : NoDup sorted) by (rewrite Hp; exact Hndp).
    clearbody sorted. clear Hp Hsort.
    induction Hs as [|x l Hl IH Hx]; [constructor|].
    apply NoDup_cons in Hnds as [Hxl Hnds].
    constructor; [apply IH; [intros; apply Hin; right; assumption|exact Hnds]|].
    apply List.Forall_forall. intros y Hy.
    pose proof (proj1 (List.Forall_forall _ _) Hx y Hy) as Hle. unfold Py.le_key in Hle.
    destruct (String.ltb x.1 y.1) eqn:Hlt; [reflexivity|]. exfalso.
    apply Hxl. apply list_elem_of_In.
    rewrite (Hkey x y); [exact Hy|apply Hin; left; reflexivity|apply Hin; right; exact Hy|].
    apply str_ltb_total; assumption. }
  split.
  { clear -Hstrict. induction Hstrict as [|x l Hl IH Hx]; cbn; [constructor|].
    assert (Hall : Forall (fun b : string * string => String.ltb x.1 b.1 = true)
                     (map row (List.filter keep l))).
    { apply List.Forall_forall. intros b Hb. apply in_map_iff in Hb as (y & <- & Hy).
      apply List.filter_In in Hy as [Hy _].
      exact (proj1 (List.Forall_forall _ _) Hx y Hy). }
    destruct (keep x); cbn; [constructor; assumption|exact IH]. }
  split.
  { apply Permutation_map. clear -Hp. induction Hp; cbn.
    - reflexivity.
    - destruct (keep x); [constructor|]; assumption.
    - destruct (keep x), (keep y); try reflexivity. apply perm_swap.
    - etransitivity; eassumption. }
  split; [|reflexivity].
  intros v Hv. apply in_map_iff in Hv as (kv & E & Hkv).
  apply List.filter_In in Hkv as [_ Hkeep]. unfold row in E. injection E as E _.
  unfold keep in Hkeep. rewrite E in Hkeep. discriminate Hkeep.
Qed.

(** X17.  The metadata table lists every property of the item except
    [table:columns], once each, in ascending order of the keys; the
    values are never compared, because the keys of a [dict] differ; and
    the table does not depend on the order of the properties in the
    item. *)
Theorem t_metadata_sorted_by_key (properties : list (string * V)) :
  NoDup (map fst properties) ->
  let rows := t_metadata str vlt properties in
  StronglySorted (fun a b : string * string => String.ltb a.1 b.1 = true) rows /\
  Permutation rows
    (map (fun kv => (kv.1, str kv.2))
       (List.filter (fun kv : string * V => negb (String.eqb kv.1 "table:columns"))
          properties)) /\
  (forall v, ~ In ("table:columns"%string, v) rows) /\
  rows = map (fun kv => (kv.1, str kv.2))
           (List.filter (fun kv : string * V => negb (String.eqb kv.1 "table:columns"))
              (Py.sorted (fun a b : string * V => String.ltb a.1 b.1) (fun kv => kv)
                 false properties)) /\
  (forall properties', Permutation properties properties' ->
     t_metadata str vlt properties' = rows).
Proof.
  intros Hnd rows.
  destruct (t_metadata_rows properties Hnd) as (Hs & Hp & Hno & Hrows).
  fold rows in Hs, Hp, Hno, Hrows.
  split; [exact Hs|]. split; [exact Hp|]. split; [exact Hno|]. split; [exact Hrows|].
  intros properties' Hperm.
  assert (Hnd' : NoDup (map fst properties')) by (rewrite <- Hperm; exact Hnd).
  destruct (t_metadata_rows properties' Hnd') as (Hs' & Hp' & _ & _).
  cbv zeta in Hs', Hp'.
  apply (strict_sorted_perm_eq
           (fun a b : string * string => String.ltb a.1 b.1 = true)).
  - intros x Hx. rewrite str_ltb_irrefl in Hx. discriminate Hx.
  - intros x y z. apply str_ltb_trans.
  - exact Hs'.
  - exact Hs.
  - rewrite Hp', Hp. apply Permutation_map. symmetry.
    clear -Hperm. induction Hperm; cbn.
    + reflexivity.
    + destruct (negb (String.eqb x.1 "table:columns")); [constructor|]; assumption.
    + destruct (negb (String.eqb x.1 "table:columns")),
               (negb (String.eqb y.1 "table:columns")); try reflexivity. apply perm_swap.
    + etransitivity; eassumption.
Qed.
Local Abbreviation Asset := (ClimateNormals.Asset (StorageOptions := StorageOptions)).
Local Abbreviation Kernel := (ClimateNormals.Kernel (StorageOptions := StorageOptions)).
Local Abbreviation Item := (ClimateNormals.Item (StorageOptions := StorageOptions)).

Lemma assets_loop_run (l : list (string * Asset)) : forall k : Kernel,
  let k' := (assets_loop l k).2 in
  asset k' = match last l with
             | Some ka => Some ka.2
             | None => asset k
             end /\
  t_assets k' = t_assets k ++ map (fun ka => (ka.1, cell_text (title ka.2))) l.
Proof.
  unfold assets_loop, Cell.modify. cbn [snd].
  induction l as [|ka l IH]; intros k.
  - cbn. rewrite app_nil_r. auto.
  - cbn [fold_left]. destruct (IH {| key := Some ka.1; asset := Some ka.2;
             t_assets := t_assets k ++ [(ka.1, cell_text (title ka.2))] |}) as [Ha Ht].
    cbv zeta in Ha, Ht |- *. rewrite Ha, Ht. cbn [asset t_assets]. split.
    + rewrite last_cons. destruct (last l); reflexivity.
    + cbn [map]. rewrite <- app_assoc. reflexivity.
Qed.

(** X18.  The table read is the one of the asset the loop over the assets
    ended on: run after the assets cell in a fresh kernel, the read cell
    passes the [href] and the [table:storage_options] of the last asset
    of [items[0]] to [read_parquet]; it raises [NameError] when there was
    no item or the item has no asset, and [KeyError] when that asset has
    no storage options.  The assets table has one row per asset, in the
    order of the [dict]. *)
Theorem read_cell_uses_last_asset (items : list Item) :
  let k := (assets_cell items fresh).2 in
  (read_cell k).1
  = match items with
    | [] => inl NameError
    | item0 :: _ =>
        match last (assets item0) with
        | None => inl NameError
        | Some (_, a) =>
            match extra_fields a !! "table:storage_options"%string with
            | None => inl Py.KeyError
            | Some so =>
                inr {| path := href a; storage_options := so;
                       columns := ["STATION"; "month"; "MLY-PRCP-NORMAL";
                                   "geometry"]%string |}
            end
        end
    end /\
  ((assets_cell items fresh).1 = inl Py.IndexError <-> items = []) /\
  (forall item0 rest, items = item0 :: rest ->
     t_assets k = map (fun ka => (ka.1, cell_text (title ka.2))) (assets item0)).
Proof.
  intros k. subst k. destruct items as [|item0 rest].
  { cbn. split; [reflexivity|]. split; [tauto|]. discriminate. }
  unfold assets_cell, mbind, cell_bind, Cell.bind, Cell.lift, Cell.modify.
  cbn [Py.item0 fst snd fresh key asset].
  destruct (assets_loop_run (assets item0)
              {| key := None; asset := None; t_assets := [] |}) as [Ha Ht].
  cbv zeta in Ha, Ht. cbn [asset t_assets app] in Ha, Ht.
  split; [|split].
  - unfold read_cell, mbind, cell_bind, Cell.bind, Cell.get, Cell.raise. cbn [fst snd].
    unfold assets_loop, Cell.modify in *. cbn [snd] in *. rewrite Ha.
    destruct (last (assets item0)) as [[ka a]|]; [|reflexivity]. cbn [snd].
    destruct (extra_fields a !! "table:storage_options"%string); reflexivity.
  - split; [discriminate|discriminate].
  - intros i r [= <- <-]. exact Ht.
Qed.

End ClimateNormalsFacts.

(** ** Tile notebook: the mosaic *)

Section MosaicFacts.
Import Mosaic.
Context {Coord : Type}.
Variable http_json : Request -> Py.exn + json.
Variable centroid : json -> Py.exn + Coord * Coord.
Variable repr : json -> string.
Variable item_collection_id : string.

Local Abbreviation resolve_tiles := (Mosaic.resolve_tiles http_json repr item_collection_id).
Local Abbreviation show_mosaic :=
  (Mosaic.show_mosaic http_json centroid repr item_collection_id).
Local Abbreviation info_request := (Mosaic.info_request item_collection_id).
Local Abbreviation tilejson_request := (Mosaic.tilejson_request repr item_collection_id).

(** The runs of [resolve_tiles] that return. *)
Lemma resolve_tiles_inv tiles log :
  resolve_tiles [] = (inr tiles, log) ->
  exists registered links link tilejson_url mosaic_info options option0
         render_options tilejson templates,
    http_json register_request = inr registered /\
    get_key "links" registered = inr links /\
    get_index 1 links = inr link /\
    get_key "href" link = inr tilejson_url /\
    http_json info_request = inr mosaic_info /\
    get_key "renderOptions" mosaic_info = inr options /\
    get_index 0 options = inr option0 /\
    get_key "options" option0 = inr render_options /\
    http_json (tilejson_request tilejson_url render_options) = inr tilejson /\
    get_key "tiles" tilejson = inr templates /\
    get_index 0 templates = inr tiles /\
    log = [register_request; info_request;
           tilejson_request tilejson_url render_options].
Proof.
  unfold Mosaic.resolve_tiles, send, mbind, cell_bind, Cell.bind, Cell.lift. cbn [app].
  destruct (http_json register_request) as [?|registered] eqn:H1; [discriminate|].
  destruct (get_key "links" registered) as [?|links] eqn:H2; [discriminate|].
  destruct (get_index 1 links) as [?|link] eqn:H3; [discriminate|].
  destruct (get_key "href" link) as [?|tilejson_url] eqn:H4; [discriminate|].
  destruct (http_json info_request) as [?|mosaic_info] eqn:H5; [discriminate|].
  destruct (get_key "renderOptions" mosaic_info) as [?|options] eqn:H6; [discriminate|].
  destruct (get_index 0 options) as [?|option0] eqn:H7; [discriminate|].
  destruct (get_key "options" option0) as [?|render_options] eqn:H8; [discriminate|].
  destruct (http_json (tilejson_request tilejson_url render_options))
    as [?|tilejson] eqn:H9; [discriminate|].
  destruct (get_key "tiles" tilejson) as [?|templates] eqn:H10; [discriminate|].
  intros [= H11 <-].
  exists registered, links, link, tilejson_url, mosaic_info, options, option0,
    render_options, tilejson, templates.
  repeat (split; [assumption || reflexivity|]). reflexivity.
Qed.

(** X19.  When the cells that register the mosaic and show it run
    through, three requests were sent, in this order: the registration
    (a POST of the collection and the filter), the request for the
    mosaic's render options, and a GET of
    [links[1].href + "?collection=" + item.collection_id + "&" + options]
    built from the two answers; the tile layer added to the map has as
    its [url] the first entry of [tiles] in the answer to the third
    request, unchanged; the map shows the base layer, that tile layer and
    the area of interest, at zoom 9.  The [searchid] of the registration
    answer is not read. *)
Theorem mosaic_tiles_as_served (m : Map (Coord := Coord)) (log : list Request) :
  show_mosaic [] = (inr m, log) ->
  exists registered links link href mosaic_info options option0 render_options
         tilejson templates template x y,
    http_json register_request = inr registered /\
    get_key "links" registered = inr links /\
    get_index 1 links = inr link /\
    get_key "href" link = inr href /\
    http_json info_request = inr mosaic_info /\
    get_key "renderOptions" mosaic_info = inr options /\
    get_index 0 options = inr option0 /\
    get_key "options" option0 = inr render_options /\
    http_json (tilejson_request href render_options) = inr tilejson /\
    get_key "tiles" tilejson = inr templates /\
    get_index 0 templates = inr (JStr template) /\
    log = [register_request; info_request; tilejson_request href render_options] /\
    url (tilejson_request href render_options)
    = (fstr repr href +:+ "?collection=" +:+ item_collection_id +:+ "&"
       +:+ fstr repr render_options)%string /\
    centroid aoi = inr (x, y) /\
    m = {| center := (y, x); zoom := 9;
           layers := [BaseLayer; TileLayer template;
                      GeoJSON aoi (JDict [("fillOpacity", num 0 1)]%string)];
           scroll_wheel_zoom := true;
           layout_max_width := Some "80%"%string |}.
Proof.
  unfold Mosaic.show_mosaic, mbind, cell_bind, Cell.bind.
  destruct (resolve_tiles []) as [[e|tiles] log'] eqn:Hres; [discriminate|].
  destruct (resolve_tiles_inv tiles log' Hres)
    as (registered & links & link & href & mosaic_info & options & option0 &
        render_options & tilejson & templates &
        H1 & H2 & H3 & H4 & H5 & H6 & H7 & H8 & H9 & H10 & H11 & Hlog).
  unfold show_map, mbind, cell_bind, Cell.bind, Cell.lift, mret, cell_ret, Cell.ret.
  destruct (centroid aoi) as [?|[x y]] eqn:Hc; [discriminate|].
  unfold new_TileLayer.
  destruct tiles as [| | |template| |]; try discriminate.
  intros [= <- <-].
  exists registered, links, link, href, mosaic_info, options, option0, render_options,
    tilejson, templates, template, x, y.
  repeat (split; [assumption || reflexivity|]). reflexivity.
Qed.

End MosaicFacts.

Section MosaicLinks.
Import Mosaic.
Context {Coord : Type}.
Variable centroid : json -> Py.exn + Coord * Coord.
Variable repr : json -> string.
Variable item_collection_id : string.

(** X20.  Of the registration answer the notebook uses [links] and
    nothing else (the [searchid] in particular is not read): two services
    whose registration answers have the same [links], and which answer
    every other request alike, lead to the same requests and the same
    map. *)
Theorem mosaic_uses_links_only
    (service service' : Request -> Py.exn + json) (registered registered' : json) :
  service register_request = inr registered ->
  service' register_request = inr registered' ->
  get_key "links" registered = get_key "links" registered' ->
  (forall r, method r = "GET"%string -> service' r = service r) ->
  show_mosaic service' centroid repr item_collection_id []
  = show_mosaic service centroid repr item_collection_id [].
Proof.
  intros H1 H1' Hlinks Hget.
  unfold show_mosaic, resolve_tiles, send, mbind, cell_bind, Cell.bind, Cell.lift.
  cbn [app]. rewrite H1, H1', Hlinks.
  destruct (get_key "links" registered') as [?|links]; [reflexivity|].
  destruct (get_index 1 links) as [?|link]; [reflexivity|].
  destruct (get_key "href" link) as [?|tilejson_url]; [reflexivity|].
  rewrite (Hget (info_request item_collection_id)) by reflexivity.
  destruct (service (info_request item_collection_id)) as [?|mosaic_info]; [reflexivity|].
  destruct (get_key "renderOptions" mosaic_info) as [?|options]; [reflexivity|].
  destruct (get_index 0 options) as [?|option0]; [reflexivity|].
  destruct (get_key "options" option0) as [?|render_options]; [reflexivity|].
  rewrite (Hget (tilejson_request repr item_collection_id tilejson_url render_options))
    by reflexivity.
  reflexivity.
Qed.
End MosaicLinks.

(** ** Radiant MLHub notebook: the archive *)

Section ArchiveFacts.
Import Archive.
Context {Bytes : Type}.
Variable tmp_name : gmap string (Node (Bytes := Bytes)) -> string.
Variable urljoin : string -> string -> string.
Variable content_of : MLHub.HttpRequest -> Py.exn + Bytes.
Variable session : MLHub.Session.

Local Abbreviation download_cell :=
  (Archive.download_cell tmp_name urljoin content_of session).
Local Abbreviation Kernel := (Archive.Kernel (Bytes := Bytes)).

Lemma prefix_app s t : String.prefix s (s +:+ t) = true.
Proof.
  induction s as [|c s IH]; simpl.
  - destruct t; reflexivity.
  - destruct (ascii_dec c c); [exact IH|congruence].
Qed.

Lemma up_to_last_slash_app s t :
  Examples.up_to_last_slash t = ""%string ->
  Examples.up_to_last_slash (s +:+ "/" +:+ t) = (s +:+ "/")%string.
Proof.
  intros Ht. induction s as [|c s IH].
  - change (Examples.up_to_last_slash (String "/" t) = "/"%string).
    cbn [Examples.up_to_last_slash]. rewrite Ht. reflexivity.
  - change (Examples.up_to_last_slash (String c (s +:+ "/" +:+ t))
            = String c (s +:+ "/")).
    cbn [Examples.up_to_last_slash]. rewrite IH. destruct s; reflexivity.
Qed.

Lemma endswith_single c : MLHub.endswith (String c "") "/" = false ->
  Ascii.eqb c "/" = false.
Proof.
  cbn. destruct (Ascii.eqb c "/"); [discriminate|reflexivity].
Qed.

Lemma rstrip_cons chars c s :
  MLHub.rstrip chars (String c s)
  = match MLHub.rstrip chars s with
    | EmptyString => if MLHub.mem_char c chars then EmptyString else String c EmptyString
    | r => String c r
    end.
Proof. reflexivity. Qed.

Lemma rstrip_slash_id d :
  d <> ""%string -> MLHub.endswith d "/" = false -> MLHub.rstrip "/" d = d.
Proof.
  induction d as [|c d IH]; [congruence|]. intros _ He.
  destruct d as [|c' d'].
  - apply endswith_single in He. cbn. rewrite He. reflexivity.
  - rewrite endswith_cons in He. apply orb_false_iff in He as [_ Hd].
    rewrite rstrip_cons, IH by (congruence || exact Hd). reflexivity.
Qed.

Lemma rstrip_slash_snoc d :
  d <> ""%string -> MLHub.endswith d "/" = false ->
  MLHub.rstrip "/" (d +:+ "/") = d.
Proof.
  induction d as [|c d IH]; [congruence|]. intros _ He.
  destruct d as [|c' d'].
  - apply endswith_single in He.
    change (MLHub.rstrip "/" (String c (String "/" "")) = String c "").
    rewrite rstrip_cons. change (MLHub.rstrip "/" (String "/" "")) with ""%string.
    cbn [MLHub.mem_char]. rewrite He. reflexivity.
  - rewrite endswith_cons in He. apply orb_false_iff in He as [_ Hd].
    change (MLHub.rstrip "/" (String c (String c' d' +:+ "/")) = String c (String c' d')).
    rewrite rstrip_cons, IH by (congruence || exact Hd). reflexivity.
Qed.

Lemma archive_path_of d :
  String.prefix "/" d = true -> MLHub.endswith d "/" = false ->
  os_path_join d archive_name = (d +:+ "/" +:+ archive_name)%string /\
  dirname (d +:+ "/" +:+ archive_name) = d /\
  is_under d d = true /\
  is_under d (d +:+ "/" +:+ archive_name) = true /\
  (d +:+ "/" +:+ archive_name)%string <> d.
Proof.
  intros Habs Hslash.
  assert (Hne : d <> ""%string) by (intros ->; discriminate Habs).
  assert (Hunder : is_under d (d +:+ "/" +:+ archive_name) = true).
  { unfold is_under. apply orb_true_iff. right.
    assert (E : forall a b c : string, (a +:+ b +:+ c = (a +:+ b) +:+ c)%string).
    { induction a as [|x a IH]; intros b c; [reflexivity|].
      change (String x (a +:+ b +:+ c) = String x ((a +:+ b) +:+ c)).
      f_equal. apply IH. }
    rewrite E. apply prefix_app. }
  split.
  { unfold os_path_join. change (String.prefix "/" archive_name) with false.
    rewrite Hslash, orb_false_r.
    destruct (String.eqb_spec d ""); [congruence|reflexivity]. }
  split.
  { unfold dirname. rewrite up_to_last_slash_app by reflexivity.
    rewrite rstrip_slash_snoc by assumption. destruct d; [congruence|reflexivity]. }
  split; [unfold is_under; rewrite String.eqb_refl; reflexivity|].
  split; [exact Hunder|].
  intros E. assert (Hlen : String.length (d +:+ "/" +:+ archive_name) = String.length d)
    by (rewrite E; reflexivity).
  revert Hlen. clear. induction d as [|c d IH]; simpl; [discriminate|].
  intros [= H]. apply IH. exact H.
Qed.

(** X21.  The temporary directory is gone after the clean-up cell, and
    nothing else has changed, whether or not the download succeeded: the
    download cell makes the directory and, when the request succeeds,
    writes the archive into it as
    [<tmp_dir>/ref_african_crops_kenya_01_labels.tar.gz]; when the
    request raises, the empty directory stays until the clean-up cell is
    run. *)
Theorem cleanup_restores_files (k0 : Kernel) :
  let d := tmp_name (fs k0) in
  fresh_name d (fs k0) ->
  let k1 := (download_cell k0).2 in
  let request := MLHub.get_archive urljoin session "ref_african_crops_kenya_01_labels" in
  tmp_dir k1 = Some d /\
  (download_cell k0).1 = match content_of request with
                         | inr _ => inr tt
                         | inl e => inl e
                         end /\
  fs k1 = match content_of request with
          | inr content =>
              <[(d +:+ "/" +:+ archive_name)%string := File content]> (<[d := Dir]> (fs k0))
          | inl _ => <[d := Dir]> (fs k0)
          end /\
  (cleanup_cell k1).1 = inr tt /\
  fs (cleanup_cell k1).2 = fs k0.
Proof.
  intros d (Hfresh & Habs & Hslash) k1 request. subst k1.
  destruct (archive_path_of d Habs Hslash) as (Hjoin & Hdir & Hud & Hua & Hne).
  assert (Hnone : forall p, is_under d p = true -> fs k0 !! p = None).
  { intros p Hp. destruct (fs k0 !! p) eqn:E; [|reflexivity].
    rewrite (Hfresh p) in Hp by eauto. discriminate. }
  assert (Hclean : forall m : gmap string (Node (Bytes := Bytes)),
    (forall p, m !! p = if is_under d p then (if String.eqb p d then Some Dir else m !! p)
                        else fs k0 !! p) ->
    filter (fun kv : string * Node => is_under d kv.1 = false) m = fs k0).
  { intros m Hm. apply map_eq. intros p.
    destruct (fs k0 !! p) as [n|] eqn:E.
    - apply map_lookup_filter_Some. cbn. rewrite (Hfresh p) by eauto.
      split; [|reflexivity]. rewrite Hm, (Hfresh p) by eauto. exact E.
    - apply map_lookup_filter_None. destruct (is_under d p) eqn:Hu.
      + right. intros x _. cbn. congruence.
      + left. rewrite Hm, Hu. exact E. }
  unfold Archive.download_cell, mkdtemp, set_fs, write_file, mbind, cell_bind, Cell.bind,
    Cell.get, Cell.modify, Cell.lift, mret, cell_ret, Cell.ret.
  cbn [fst snd fs tmp_dir]. fold d. fold request. rewrite Hjoin.
  destruct (content_of request) as [e|content]; cbn [fst snd fs tmp_dir].
  - split; [reflexivity|]. split; [reflexivity|]. split; [reflexivity|].
    unfold cleanup_cell, rmtree, set_fs, mbind, cell_bind, Cell.bind, Cell.get, Cell.modify.
    cbn [fst snd fs tmp_dir]. rewrite lookup_insert_eq. cbn [fst snd fs].
    split; [reflexivity|]. apply Hclean. intros p.
    destruct (String.eqb_spec p d) as [->|Hp].
    + rewrite Hud, lookup_insert_eq. reflexivity.
    + rewrite lookup_insert_ne by congruence.
      destruct (is_under d p) eqn:Hu; [reflexivity|reflexivity].
  - rewrite Hdir, lookup_insert_eq.
    rewrite lookup_insert_ne by (intros E; apply Hne; symmetry; exact E).
    rewrite (Hnone _ Hua). cbn [fst snd fs tmp_dir].
    split; [reflexivity|]. split; [reflexivity|]. split; [reflexivity|].
    unfold cleanup_cell, rmtree, set_fs, mbind, cell_bind, Cell.bind, Cell.get, Cell.modify.
    cbn [fst snd fs tmp_dir].
    rewrite lookup_insert_ne by exact Hne. rewrite lookup_insert_eq. cbn [fst snd fs].
    split; [reflexivity|]. apply Hclean. intros p.
    destruct (String.eqb_spec p d) as [->|Hp].
    + rewrite Hud, lookup_insert_ne by exact Hne. rewrite lookup_insert_eq. reflexivity.
    + destruct (is_under d p) eqn:Hu; [reflexivity|].
      rewrite lookup_insert_ne by (intros <-; congruence).
      rewrite lookup_insert_ne by congruence. reflexivity.
Qed.

End ArchiveFacts.

(** ** Concrete runs *)

Lemma Qlt_bool_iff x y : Examples.Qlt_bool x y = true <-> (x < y)%Q.
Proof.
  unfold Examples.Qlt_bool. rewrite negb_true_iff. split.
  - intros H. apply Qnot_le_lt. intros Hle.
    apply Qle_bool_iff in Hle. congruence.
  - intros H. destruct (Qle_bool y x) eqn:E; [|reflexivity].
    apply Qle_bool_iff in E. exfalso. exact (Qlt_not_le _ _ H E).
Qed.

Lemma Qlt_bool_false_iff x y : Examples.Qlt_bool x y = false <-> (y <= x)%Q.
Proof.
  unfold Examples.Qlt_bool. rewrite negb_false_iff. apply Qle_bool_iff.
Qed.

Lemma Qlt_bool_irrefl x : Examples.Qlt_bool x x = false.
Proof. apply Qlt_bool_false_iff. apply Qle_refl. Qed.

Lemma Qlt_bool_trans x y z :
  Examples.Qlt_bool x y = true -> Examples.Qlt_bool y z = true ->
  Examples.Qlt_bool x z = true.
Proof. rewrite !Qlt_bool_iff. apply Qlt_trans. Qed.

Lemma Qlt_bool_neg_trans x y z :
  Examples.Qlt_bool x y = false -> Examples.Qlt_bool y z = false ->
  Examples.Qlt_bool x z = false.
Proof. rewrite !Qlt_bool_false_iff. intros H1 H2. exact (Qle_trans _ _ _ H2 H1). Qed.

(** The four scenes: the ranking exists and [[0]] is scene 2, the first
    of the two scenes with the largest overlap. *)
Lemma overlap_ranking_stable_witness :
  Examples.Qzero_bool (Naip.target_area (fun _ : Z => 1%Q) 0) = false /\
  exists ranked,
    Naip.sorted_by_overlap (fun x : Z => x) Examples.scene_overlap (fun _ => 1%Q)
      Qdiv Examples.Qzero_bool Examples.Qlt_bool 0 Examples.scenes = inr ranked /\
    Permutation ranked Examples.scenes.
Proof.
  split; [reflexivity|].
  destruct (overlap_ranking_stable (fun x : Z => x) Examples.scene_overlap
              (fun _ => 1%Q) Qdiv Examples.Qzero_bool Examples.Qlt_bool 0
              Qlt_bool_irrefl Qlt_bool_trans Qlt_bool_neg_trans eq_refl
              Examples.scenes) as (ranked & Hr & Hp & _).
  exists ranked. split; [exact Hr|exact Hp].
Defined.

Example overlap_ranking_run :
  Naip.sorted_by_overlap (fun x : Z => x) Examples.scene_overlap (fun _ => 1%Q)
    Qdiv Examples.Qzero_bool Examples.Qlt_bool 0 Examples.scenes = inr [2; 3; 1; 4] /\
  Naip.most_overlap (fun x : Z => x) Examples.scene_overlap (fun _ => 1%Q)
    Qdiv Examples.Qzero_bool Examples.Qlt_bool 0 Examples.scenes = inr 2.
Proof. split; reflexivity. Qed.

(** A window of 1000 by 635 pixels: the exact height is 508, the computed
    height 507, a difference of one whole pixel. *)
Lemma target_height_off_by_one_pixel :
  NaipImage.target_height 1000 635 = inr 507 /\
  800 * 635 = 508 * 1000 /\
  ~ NaipImage.less_than_one_pixel 1000 635 507.
Proof.
  split; [vm_compute; reflexivity|]. split; [reflexivity|].
  unfold NaipImage.less_than_one_pixel, NaipImage.target_w. lia.
Qed.

Lemma target_height_at_most_one_pixel_witness :
  0 < 1000 < 2 ^ 31 /\ 0 < 635 < 2 ^ 31 /\
  exists th,
    NaipImage.target_height 1000 635 = inr th /\
    NaipImage.at_most_one_pixel 1000 635 th.
Proof.
  assert (H1 : 0 < 1000 < 2 ^ 31) by (change (2 ^ 31) with 2147483648; lia).
  assert (H2 : 0 < 635 < 2 ^ 31) by (change (2 ^ 31) with 2147483648; lia).
  split; [exact H1|]. split; [exact H2|].
  destruct (target_height_at_most_one_pixel 1000 635 H1 H2) as (th & Hth & Hpx & _).
  exists th. split; [exact Hth|exact Hpx].
Defined.

(** The area of interest outside the scene: the read returns an array
    without rows and columns, and [create_image] raises. *)
Lemma create_image_outside_extent_raises :
  Examples.boxes_intersect Examples.aoi_outside Examples.scene_extent = false /\
  (NaipImage.create_image Examples.scene_env Examples.aoi_outside
     Examples.scene_item []).1 = inl Py.ZeroDivisionError.
Proof. split; vm_compute; reflexivity. Qed.

Lemma create_image_empty_window_raises_witness :
  exists e,
    NaipImage.create_image Examples.scene_env Examples.aoi_outside
      Examples.scene_item []
    = (inl e,
       NaipImage.fetch_calls Examples.aoi_outside Examples.scene_item
         {| NaipImage.href := "https://naip.example/scene.tif" |}
         "https://naip.example/scene.tif?sig=token"
         {| NaipImage.ds_name := "https://naip.example/scene.tif?sig=token";
            NaipImage.ds_crs := "EPSG:26912";
            NaipImage.ds_transform := (0, 100) |}
         (200, 200, 240, 230) (200, 200, 240, 230) (200, -130, 40, 30)
       ++ [NaipImage.EvFromArray
             (NaipImage.transpose_120
                {| NaipImage.shape := (3%nat, 0%nat, 0%nat);
                   NaipImage.buffer := [] |})]) /\
    (NaipImage.fromarray_rejects Examples.scene_env
       (NaipImage.transpose_120
          {| NaipImage.shape := (3%nat, 0%nat, 0%nat); NaipImage.buffer := [] |})
     = None -> e = Py.ZeroDivisionError).
Proof.
  apply (create_image_empty_window_raises Examples.scene_env Examples.aoi_outside
           Examples.scene_item).
  - reflexivity.
  - reflexivity.
  - reflexivity.
  - reflexivity.
  - reflexivity.
  - reflexivity.
  - reflexivity.
  - left. reflexivity.
Defined.

(** The area of interest inside the scene: one read, through the window
    computed from the reprojected bounds. *)
Lemma create_image_reads_reprojected_window_witness :
  let ds := {| NaipImage.ds_name := "https://naip.example/scene.tif?sig=token";
               NaipImage.ds_crs := "EPSG:26912";
               NaipImage.ds_transform := (0, 100) |} in
  In (NaipImage.EvRead ds [1; 2; 3] (10, 50, 40, 30))
     (NaipImage.create_image Examples.scene_env Examples.aoi_inside
        Examples.scene_item []).2 /\
  exists b wb,
    NaipImage.warp_transform_bounds Examples.scene_env "epsg:4326"
      (NaipImage.ds_crs ds) b = inr wb /\
    NaipImage.windows_from_bounds Examples.scene_env wb (NaipImage.ds_transform ds)
    = inr (10, 50, 40, 30).
Proof.
  intros ds.
  assert (Hin : In (NaipImage.EvRead ds [1; 2; 3] (10, 50, 40, 30))
                  (NaipImage.create_image Examples.scene_env Examples.aoi_inside
                     Examples.scene_item []).2).
  { vm_compute. do 6 right. left. reflexivity. }
  split; [exact Hin|].
  destruct (create_image_reads_reprojected_window Examples.scene_env
              Examples.aoi_inside Examples.scene_item ds [1; 2; 3] (10, 50, 40, 30) Hin)
    as (_ & b & wb & _ & _ & _ & Hw & Hf & _).
  exists b, wb. split; [exact Hw|exact Hf].
Defined.

Example create_image_inside_run :
  (NaipImage.create_image Examples.scene_env Examples.aoi_inside
     Examples.scene_item []).1
  = inr {| NaipImage.size := (800, 600);
           NaipImage.pixels := {| NaipImage.shape := (600%nat, 800%nat, 3%nat);
                                  NaipImage.buffer := [] |} |}.
Proof. vm_compute. reflexivity. Qed.


Example county_summary_run :
  Fia.result Fia.ex_tree Fia.ex_plot
  = [ {| Fia.bio := 52000000 # 4000000; Fia.carbon := 26000000 # 4000000;
         Fia.STATE := "01"; Fia.COUNTY := "003" |};
      {| Fia.bio := 12000 # 2000; Fia.carbon := 6000 # 2000;
         Fia.STATE := "48"; Fia.COUNTY := "201" |} ].
Proof. vm_compute. reflexivity. Qed.


Example mlhub_archive_run :
  let session := MLHub.MLHubSession_init (Some "secret"%string) in
  MLHub.http_url
    (MLHub.get_archive Examples.urljoin_path session "ref_african_crops_kenya_01_labels")
  = "https://api.radiant.earth/archive/ref_african_crops_kenya_01_labels"%string /\
  MLHub.http_url
    (MLHub.MLHubSession_get Examples.urljoin_path session "datasets" MLHub.no_kwargs)
  = "https://api.radiant.earth/mlhub/v1/datasets"%string.
Proof. split; reflexivity. Qed.

(** Selecting an item in the notebook's map. *)
Lemma browse_sets_center_and_data_witness :
  let nb' := (Browser.browse Examples.item_centroid (fun _ => Examples.footprint)
                (fun i => i) (fun _ => inr "2023-04-01T00:37:09"%string) 1%nat
                "S2B_MSIL2A" Examples.notebook).2 in
  Browser.center (Browser.m nb') = [-1; 149] /\
  Browser.zoom (Browser.m nb') = 3 /\
  Browser.layers (Browser.m nb') = [0%nat; 1%nat].
Proof.
  intros nb'.
  destruct (browse_sets_center_and_data Examples.item_centroid
              (fun _ => Examples.footprint) (fun i => i)
              (fun _ => inr "2023-04-01T00:37:09"%string) 1%nat
              "S2B_MSIL2A" Examples.notebook 149 (-1) []
              {| Browser.kind := Browser.GeoJSONLayer; Browser.data := None |}
              eq_refl eq_refl) as (Hm & _ & Hz & Hl & _).
  fold nb' in Hm, Hz, Hl. rewrite Hm. cbn. repeat split.
Defined.

(** Ranking the four scenes twice. *)
Lemma sorted_by_overlap_idempotent_witness :
  Naip.sorted_by_overlap (fun x : Z => x) Examples.scene_overlap (fun _ => 1%Q)
    Qdiv Examples.Qzero_bool Examples.Qlt_bool 0 [2; 3; 1; 4] = inr [2; 3; 1; 4].
Proof.
  exact (proj1 (sorted_by_overlap_idempotent (fun x : Z => x) Examples.scene_overlap
                  (fun _ => 1%Q) Qdiv Examples.Qzero_bool Examples.Qlt_bool 0
                  Qlt_bool_irrefl Qlt_bool_trans Qlt_bool_neg_trans eq_refl
                  Examples.scenes [2; 3; 1; 4] eq_refl)).
Defined.

(** Scene 2 overlaps more than scenes 1 and 4: it is chosen from both
    orders. *)
Lemma most_overlap_order_independent_witness :
  Naip.most_overlap (fun x : Z => x) Examples.scene_overlap (fun _ => 1%Q)
    Qdiv Examples.Qzero_bool Examples.Qlt_bool 0 [1; 2; 4] = inr 2 /\
  Naip.most_overlap (fun x : Z => x) Examples.scene_overlap (fun _ => 1%Q)
    Qdiv Examples.Qzero_bool Examples.Qlt_bool 0 [4; 2; 1] = inr 2.
Proof.
  apply (most_overlap_order_independent (fun x : Z => x) Examples.scene_overlap
           (fun _ => 1%Q) Qdiv Examples.Qzero_bool Examples.Qlt_bool 0
           Qlt_bool_irrefl Qlt_bool_trans Qlt_bool_neg_trans eq_refl
           [1; 2; 4] [4; 2; 1] 2).
  - exact (Permutation_rev [1; 2; 4]).
  - right. left. reflexivity.
  - intros it [<-|[<-|[<-|[]]]]; [right; reflexivity|left; reflexivity|right; reflexivity].
Defined.

(** The scene of the examples: the dataset opened is closed after the
    read. *)
Lemma create_image_closes_dataset_witness :
  exists pre inside post,
    (NaipImage.create_image Examples.scene_env Examples.aoi_inside
       Examples.scene_item []).2
    = pre ++ [NaipImage.EvOpen "https://naip.example/scene.tif?sig=token"] ++ inside
      ++ [NaipImage.EvClose
            {| NaipImage.ds_name := "https://naip.example/scene.tif?sig=token";
               NaipImage.ds_crs := "EPSG:26912";
               NaipImage.ds_transform := (0, 100) |}] ++ post /\
    Forall (fun ev => NaipImageEvents.is_lifecycle_event ev = false) (pre ++ inside ++ post) /\
    Forall (fun ev => NaipImage.is_fetch_event ev = false) (pre ++ post).
Proof.
  apply (create_image_closes_dataset Examples.scene_env Examples.aoi_inside
           Examples.scene_item "https://naip.example/scene.tif?sig=token").
  vm_compute. right. right. left. reflexivity.
Defined.

(** A window of 30 rows and 40 columns is resized to 800 by 600. *)
Lemma create_image_size_witness :
  exists th,
    NaipImage.target_height 40 30 = inr th /\
    forall img,
      (NaipImage.create_image Examples.scene_env Examples.aoi_inside
         Examples.scene_item []).1 = inr img ->
      NaipImage.size img = (800, th).
Proof.
  destruct (create_image_size Examples.scene_env Examples.aoi_inside
              Examples.scene_item
              {| NaipImage.href := "https://naip.example/scene.tif" |}
              "https://naip.example/scene.tif?sig=token"
              {| NaipImage.ds_name := "https://naip.example/scene.tif?sig=token";
                 NaipImage.ds_crs := "EPSG:26912";
                 NaipImage.ds_transform := (0, 100) |}
              (10, 20, 50, 50) (10, 20, 50, 50) (10, 50, 40, 30)
              {| NaipImage.shape := (3%nat, 30%nat, 40%nat); NaipImage.buffer := [] |}
              3%nat 30%nat 40%nat
              eq_refl eq_refl eq_refl eq_refl eq_refl eq_refl eq_refl eq_refl eq_refl)
    as (th & Hth & _ & _ & _ & Hsize).
  - change (2 ^ 31) with 2147483648. cbn. lia.
  - change (2 ^ 31) with 2147483648. cbn. lia.
  - exists th. split; [exact Hth|exact Hsize].
Defined.

Lemma target_height_square_witness : NaipImage.target_height 512 512 = inr 800.
Proof.
  apply target_height_square. change (2 ^ 31) with 2147483648. lia.
Defined.

(** The wanted collection is the first of the 21: the listing takes it,
    and the lookup that follows does not find it. *)
Lemma lookup_after_listing_witness :
  let k0 := {| MLHubCollections.collections := MoreExamples.some_collections;
               MLHubCollections.stdout := [] |} in
  let k1 := (MLHubCollections.list_collections true MoreExamples.no_citation k0).2 in
  MLHubCollections.first_with_id MoreExamples.wanted MoreExamples.some_collections
  = inr {| MLHubCollections.c_id := MoreExamples.wanted;
           MLHubCollections.c_license := Some "CC-BY-SA-4.0"%string |} /\
  (MLHubCollections.lookup_collection true MoreExamples.wanted k1).1
  = inl MLHubCatalog.StopIteration /\
  length (MLHubCollections.stdout k1) = 20%nat.
Proof.
  intros k0 k1. split; [reflexivity|].
  destruct (lookup_after_listing true MoreExamples.no_citation
              MoreExamples.some_collections [] MoreExamples.wanted) as [H1 H2].
  { vm_compute. reflexivity. }
  fold k0 in H1, H2. fold k1 in H1, H2.
  split; [rewrite H1; vm_compute; reflexivity|rewrite H2; reflexivity].
Defined.

(** Selecting a second item after a first one. *)
Lemma browse_last_selection_wins_witness :
  let browse := Browser.browse Examples.item_centroid (fun _ => Examples.footprint)
                  (fun i => i) (fun _ => inr "2023-04-01T00:37:09"%string) 1%nat in
  let seen := (browse "S2B_second"%string
                 (BrowserSession.interact Examples.item_centroid
                    (fun _ => Examples.footprint) (fun i => i)
                    (fun _ => inr "2023-04-01T00:37:09"%string) 1%nat
                    ["S2B_first"%string] Examples.notebook)).2 in
  Browser.m seen = Browser.m (browse "S2B_second"%string Examples.notebook).2 /\
  Browser.center (Browser.m seen) = [-1; 149].
Proof.
  intros browse seen.
  destruct (browse_last_selection_wins Examples.item_centroid
              (fun _ => Examples.footprint) (fun i => i)
              (fun _ => inr "2023-04-01T00:37:09"%string) 1%nat
              ["S2B_first"%string] "S2B_second"%string Examples.notebook
              [149; -1] [] eq_refl) as (Hm & _ & Hc & _).
  split; [exact Hm|exact Hc].
Defined.

(** Three properties: two rows, in the order of the keys. *)
Lemma t_metadata_sorted_by_key_witness :
  ClimateNormals.t_metadata Fia.astype_string Z.ltb MoreExamples.some_properties
  = map (fun kv : string * Z => (kv.1, Fia.astype_string kv.2))
      (List.filter (fun kv : string * Z => negb (String.eqb kv.1 "table:columns"))
         (Py.sorted (fun a b : string * Z => String.ltb a.1 b.1) (fun kv => kv) false
            MoreExamples.some_properties)).
Proof.
  destruct (t_metadata_sorted_by_key Fia.astype_string Z.ltb MoreExamples.some_properties)
    as (_ & _ & _ & Hrows & _).
  { refine (bool_decide_unpack _ _). vm_compute. exact I. }
  exact Hrows.
Defined.

Example t_metadata_run :
  ClimateNormals.t_metadata Fia.astype_string Z.ltb MoreExamples.some_properties
  = [("noaa:frequency", "12"); ("noaa:period", "30")]%string.
Proof. vm_compute. reflexivity. Qed.

(** The service of the examples: the layer shows the template of the
    tilejson answer. *)
Lemma mosaic_tiles_as_served_witness :
  exists m log,
    Mosaic.show_mosaic (MoreExamples.mosaic_service "abc") MoreExamples.aoi_centroid
      (fun _ => ""%string) "sentinel-2-l2a" [] = (inr m, log) /\
    length log = 3%nat /\
    Mosaic.layers m
    = [Mosaic.BaseLayer; Mosaic.TileLayer MoreExamples.tile_template;
       Mosaic.GeoJSON Mosaic.aoi
         (Mosaic.JDict [("fillOpacity"%string, Mosaic.num 0 1)])].
Proof.
  destruct (Mosaic.show_mosaic (MoreExamples.mosaic_service "abc")
              MoreExamples.aoi_centroid (fun _ => ""%string) "sentinel-2-l2a" [])
    as [[e|m] log] eqn:Hrun; [vm_compute in Hrun; discriminate Hrun|].
  exists m, log. split; [reflexivity|].
  destruct (mosaic_tiles_as_served (MoreExamples.mosaic_service "abc")
              MoreExamples.aoi_centroid (fun _ => ""%string) "sentinel-2-l2a" m log Hrun)
    as (registered & links & link & href & mosaic_info & options & option0 &
        render_options & tilejson & templates & template & x & y &
        H1 & H2 & H3 & H4 & H5 & H6 & H7 & H8 & H9 & H10 & H11 & Hlog & _ & _ & Hm).
  split; [rewrite Hlog; reflexivity|].
  rewrite Hm. cbn [Mosaic.layers]. do 2 f_equal.
  vm_compute in H1. injection H1 as <-.
  vm_compute in H2. injection H2 as <-.
  vm_compute in H3. injection H3 as <-.
  vm_compute in H4. injection H4 as <-.
  vm_compute in H5. injection H5 as <-.
  vm_compute in H6. injection H6 as <-.
  vm_compute in H7. injection H7 as <-.
  vm_compute in H8. injection H8 as <-.
  vm_compute in H9. injection H9 as <-.
  vm_compute in H10. injection H10 as <-.
  vm_compute in H11. injection H11 as <-. reflexivity.
Defined.

(** Two services that differ in the [searchid] they return. *)
Lemma mosaic_uses_links_only_witness :
  MoreExamples.registration "abc" <> MoreExamples.registration "xyz" /\
  Mosaic.show_mosaic (MoreExamples.mosaic_service "xyz") MoreExamples.aoi_centroid
    (fun _ => ""%string) "sentinel-2-l2a" []
  = Mosaic.show_mosaic (MoreExamples.mosaic_service "abc") MoreExamples.aoi_centroid
      (fun _ => ""%string) "sentinel-2-l2a" [].
Proof.
  split; [discriminate|].
  apply (mosaic_uses_links_only MoreExamples.aoi_centroid (fun _ => ""%string)
           "sentinel-2-l2a" (MoreExamples.mosaic_service "abc")
           (MoreExamples.mosaic_service "xyz")
           (MoreExamples.registration "abc") (MoreExamples.registration "xyz")).
  - reflexivity.
  - reflexivity.
  - reflexivity.
  - intros r Hr. unfold MoreExamples.mosaic_service. rewrite Hr. reflexivity.
Defined.

(** A disk with [/tmp] only: after the download and the clean-up it holds
    [/tmp] only again. *)
Lemma cleanup_restores_files_witness :
  let k1 := (Archive.download_cell MoreExamples.new_name Examples.urljoin_path
               MoreExamples.archive_bytes (MLHub.MLHubSession_init (Some "secret"%string))
               MoreExamples.disk).2 in
  Archive.fs k1 !! "/tmp/tmpk3v9/ref_african_crops_kenya_01_labels.tar.gz"%string
  = Some (Archive.File "tar"%string) /\
  Archive.fs (Archive.cleanup_cell k1).2 = Archive.fs MoreExamples.disk.
Proof.
  intros k1.
  destruct (cleanup_restores_files MoreExamples.new_name Examples.urljoin_path
              MoreExamples.archive_bytes (MLHub.MLHubSession_init (Some "secret"%string))
              MoreExamples.disk) as (_ & _ & Hfs & _ & Hclean).
  { split; [|split; reflexivity].
    intros p [x Hp]. cbn [MoreExamples.disk Archive.fs] in Hp.
    apply lookup_singleton_Some in Hp as [<- _]. reflexivity. }
  fold k1 in Hfs, Hclean. split; [|exact Hclean].
  rewrite Hfs. cbn. apply lookup_insert_eq.
Defined.

(** The small FIA instance: plot [CN]s are distinct. *)
Lemma df_one_row_per_tree_witness :
  (length (Fia.df Fia.ex_tree Fia.ex_plot) <= length (Fia.read_tree Fia.ex_tree))%nat.
Proof.
  apply (df_one_row_per_tree Fia.ex_tree Fia.ex_plot).
  refine (bool_decide_unpack _ _). vm_compute. exact I.
Defined.
